(** * PGM2 driver (src/mame/drivers/pgm2.cpp): security and MCU protocol core

    A shallow embedding of the register handlers, the "MPU" command
    dispatcher and the graphics-ROM decoders of the PGM2 driver, with the
    properties the driver's specification states about them.

    Conventions.
    - A C++ unsigned integer of width w is a [Z] in [0, 2^w); every
      truncation the source performs by assigning to a narrower type is
      written out ([to_u8], [to_u16], [to_u32]).
    - A C++ array is a [list Z]; an element access goes through [aget] and
      [aset], which report an index outside the array ([OutOfRange]): in
      C++ such an access is undefined behaviour, so the model stops there.
    - The handlers thread the driver state [pgm2_state] through the
      [outcome] monad. *)

From Stdlib Require Import ZArith Lia Bool List.
From stdpp Require Import base tactics option list list_numbers.

Local Open Scope Z_scope.

(** ** Outcomes: a result, or an access outside an array *)

Inductive outcome (A : Type) : Type :=
| Done (a : A)
| OutOfRange (index : Z).

Arguments Done {A} a.
Arguments OutOfRange {A} index.

#[export] Instance outcome_ret : MRet outcome := fun _ a => Done a.

#[export] Instance outcome_bind : MBind outcome := fun _ _ f m =>
  match m with
  | Done a => f a
  | OutOfRange i => OutOfRange i
  end.

(** ** Fixed-width integers *)

Definition to_u8 (x : Z) : Z := Z.land x 0xff.
Definition to_u16 (x : Z) : Z := Z.land x 0xffff.
Definition to_u32 (x : Z) : Z := Z.land x 0xffffffff.

(** [~x] on a [uint32_t]. *)
Definition not32 (x : Z) : Z := to_u32 (Z.lnot x).

(** [~x] on a [uint16_t] that is stored back into a [uint16_t]. *)
Definition not16 (x : Z) : Z := to_u16 (Z.lnot x).

(** Modelled from the spec: the macro COMBINE_DATA of the emulator core
    (not part of the driver file), which merges the written [data] into the
    register under the bus mask [mem_mask]:
    the register keeps its bits outside the mask and takes the bits of
    [data] inside it, [(old & ~mem_mask) | (data & mem_mask)]. *)
Definition COMBINE_DATA (var data mem_mask : Z) : Z :=
  Z.lor (Z.land var (not32 mem_mask)) (Z.land data mem_mask).

(** The same macro inside a 16-bit handler. *)
Definition COMBINE_DATA16 (var data mem_mask : Z) : Z :=
  Z.lor (Z.land var (not16 mem_mask)) (Z.land data mem_mask).

(** ** Bit selection macros *)

(** Modelled from the spec: the macro BIT of the emulator core,
    [BIT(x,n) = (x >> n) & 1]. *)
Definition BIT (x n : Z) : Z := Z.land (Z.shiftr x n) 1.

(** Modelled from the spec: the macros BITSWAP16 and BITSWAP32 of the
    emulator core.  [BITSWAPn(val, B(n-1), ..., B0)] builds the word whose
    bit [k] is bit [Bk] of [val]; the selectors are listed from the most
    significant result bit down, as in the macro call. *)
Fixpoint bitswap (val : Z) (sel : list Z) : Z :=
  match sel with
  | [] => 0
  | b :: rest =>
      Z.lor (Z.shiftl (BIT val b) (Z.of_nat (length rest))) (bitswap val rest)
  end.

(** ** Arrays *)

Definition in_bounds (l : list Z) (i : Z) : bool :=
  (0 <=? i) && (i <? Z.of_nat (length l)).

(** [l[i]] *)
Definition aget (l : list Z) (i : Z) : outcome Z :=
  if in_bounds l i then Done (nth (Z.to_nat i) l 0) else OutOfRange i.

(** [l[i] = v] *)
Definition aset (l : list Z) (i v : Z) : outcome (list Z) :=
  if in_bounds l i then Done (<[Z.to_nat i := v]> l) else OutOfRange i.

(** ** Counted loops

    [for (i = start; i < stop; i += step) body] with [step > 0] runs
    [ceil ((stop - start) / step)] times, for [i = start, start + step, ...];
    [iterate] is that many runs of the body. *)

Fixpoint iterate {S : Type} (count : nat) (i step : Z)
    (body : Z -> S -> outcome S) (s : S) : outcome S :=
  match count with
  | O => Done s
  | Datatypes.S count' =>
      s' ← body i s; iterate count' (i + step) step body s'
  end.

Definition trip_count (start stop step : Z) : nat :=
  Z.to_nat ((stop - start + step - 1) / step).

Definition for_loop {S : Type} (start stop step : Z)
    (body : Z -> S -> outcome S) (s : S) : outcome S :=
  iterate (trip_count start stop step) start step body s.

(** ** Time

    Modelled from the spec: the emulator core's [attotime], a duration,
    here in attoseconds, with the two constructors the driver uses. *)

Definition attotime : Type := Z.

Definition from_msec (n : Z) : attotime := n * 1000000000000000.
Definition from_usec (n : Z) : attotime := n * 1000000000000.

(** ** Log *)

(** A line written by [logerror]; the driver's dispatcher writes one kind,
    "MCU unknown command %08x %08x" with the two input registers. *)
Inductive log_line : Type :=
| MCU_unknown_command (reg0 reg1 : Z).

(** ** The driver state and its handlers *)

Section Driver.

(** The memory card device and the program-ROM cipher are separate devices
    of the emulator; the driver only calls them.  A card is anything with a
    byte read and a byte write; an empty slot is [None], for which the
    device's [present()] returns -1. *)
Context {card : Type}.
Variable card_read : card -> Z -> Z.
Variable card_write : card -> Z -> Z -> card.

(** [igs036_decryptor(key).decrypter_rom(region)]: the key table and the
    region's words in, the region's new words out. *)
Variable decrypter_rom : list Z -> list Z -> list Z.

(** The static key tables of the titles whose program ROM is decrypted at
    driver init. *)
Variables ddpdoj_key kov3_key kof98umh_key : list Z.

Record pgm2_state : Type := mk_pgm2_state {
  m_encryption_table : list Z;   (* uint8_t[0x100]: key table for the program ROM *)
  m_has_decrypted : Z;   (* int: the program ROM was decrypted *)
  m_spritekey : Z;   (* uint32_t: raw sprite key register *)
  m_realspritekey : Z;   (* uint32_t: derived sprite key *)
  m_sprite_predecrypted : Z;   (* int: sprite data decrypted at load time *)
  m_shareram : list Z;   (* uint8_t[0x100]: two banks of 128 bytes *)
  m_share_bank : Z;   (* uint16_t: bank selector *)
  m_mcu_regs : list Z;   (* uint32_t[8]: MCU mailbox *)
  m_mcu_result0 : Z;   (* uint32_t *)
  m_mcu_result1 : Z;   (* uint32_t *)
  m_mcu_last_cmd : Z;   (* uint8_t *)
  m_memcard0 : option card;   (* card slot 0; None when no card is inserted *)
  m_memcard1 : option card;   (* card slot 1 *)
  m_memcard2 : option card;   (* card slot 2 *)
  m_memcard3 : option card;   (* card slot 3 *)
  m_mcu_timer : option attotime;   (* time left until the armed completion fires *)
  m_arm_aic : list Z;   (* interrupt numbers handed to the interrupt controller, oldest first *)
  user1 : list Z;   (* memregion user1 (program ROM), as 16-bit words *)
  sprites_mask : list Z;   (* memregion sprites_mask, as 16-bit words *)
  sprites_colour : list Z;   (* memregion sprites_colour, as 16-bit words *)
  logerror_out : list log_line  (* lines written by logerror, oldest first *)
}.

(** Field updates. *)

Definition set_m_encryption_table (v : list Z) (st : pgm2_state) : pgm2_state :=
  mk_pgm2_state v (st.(m_has_decrypted)) (st.(m_spritekey))
    (st.(m_realspritekey)) (st.(m_sprite_predecrypted)) (st.(m_shareram))
    (st.(m_share_bank)) (st.(m_mcu_regs)) (st.(m_mcu_result0))
    (st.(m_mcu_result1)) (st.(m_mcu_last_cmd)) (st.(m_memcard0))
    (st.(m_memcard1)) (st.(m_memcard2)) (st.(m_memcard3)) (st.(m_mcu_timer))
    (st.(m_arm_aic)) (st.(user1)) (st.(sprites_mask)) (st.(sprites_colour))
    (st.(logerror_out)).

Definition set_m_has_decrypted (v : Z) (st : pgm2_state) : pgm2_state :=
  mk_pgm2_state (st.(m_encryption_table)) v (st.(m_spritekey))
    (st.(m_realspritekey)) (st.(m_sprite_predecrypted)) (st.(m_shareram))
    (st.(m_share_bank)) (st.(m_mcu_regs)) (st.(m_mcu_result0))
    (st.(m_mcu_result1)) (st.(m_mcu_last_cmd)) (st.(m_memcard0))
    (st.(m_memcard1)) (st.(m_memcard2)) (st.(m_memcard3)) (st.(m_mcu_timer))
    (st.(m_arm_aic)) (st.(user1)) (st.(sprites_mask)) (st.(sprites_colour))
    (st.(logerror_out)).

Definition set_m_spritekey (v : Z) (st : pgm2_state) : pgm2_state :=
  mk_pgm2_state (st.(m_encryption_table)) (st.(m_has_decrypted)) v
    (st.(m_realspritekey)) (st.(m_sprite_predecrypted)) (st.(m_shareram))
    (st.(m_share_bank)) (st.(m_mcu_regs)) (st.(m_mcu_result0))
    (st.(m_mcu_result1)) (st.(m_mcu_last_cmd)) (st.(m_memcard0))
    (st.(m_memcard1)) (st.(m_memcard2)) (st.(m_memcard3)) (st.(m_mcu_timer))
    (st.(m_arm_aic)) (st.(user1)) (st.(sprites_mask)) (st.(sprites_colour))
    (st.(logerror_out)).

Definition set_m_realspritekey (v : Z) (st : pgm2_state) : pgm2_state :=
  mk_pgm2_state (st.(m_encryption_table)) (st.(m_has_decrypted))
    (st.(m_spritekey)) v (st.(m_sprite_predecrypted)) (st.(m_shareram))
    (st.(m_share_bank)) (st.(m_mcu_regs)) (st.(m_mcu_result0))
    (st.(m_mcu_result1)) (st.(m_mcu_last_cmd)) (st.(m_memcard0))
    (st.(m_memcard1)) (st.(m_memcard2)) (st.(m_memcard3)) (st.(m_mcu_timer))
    (st.(m_arm_aic)) (st.(user1)) (st.(sprites_mask)) (st.(sprites_colour))
    (st.(logerror_out)).

Definition set_m_sprite_predecrypted (v : Z) (st : pgm2_state) : pgm2_state :=
  mk_pgm2_state (st.(m_encryption_table)) (st.(m_has_decrypted))
    (st.(m_spritekey)) (st.(m_realspritekey)) v (st.(m_shareram))
    (st.(m_share_bank)) (st.(m_mcu_regs)) (st.(m_mcu_result0))
    (st.(m_mcu_result1)) (st.(m_mcu_last_cmd)) (st.(m_memcard0))
    (st.(m_memcard1)) (st.(m_memcard2)) (st.(m_memcard3)) (st.(m_mcu_timer))
    (st.(m_arm_aic)) (st.(user1)) (st.(sprites_mask)) (st.(sprites_colour))
    (st.(logerror_out)).

Definition set_m_shareram (v : list Z) (st : pgm2_state) : pgm2_state :=
  mk_pgm2_state (st.(m_encryption_table)) (st.(m_has_decrypted))
    (st.(m_spritekey)) (st.(m_realspritekey)) (st.(m_sprite_predecrypted)) v
    (st.(m_share_bank)) (st.(m_mcu_regs)) (st.(m_mcu_result0))
    (st.(m_mcu_result1)) (st.(m_mcu_last_cmd)) (st.(m_memcard0))
    (st.(m_memcard1)) (st.(m_memcard2)) (st.(m_memcard3)) (st.(m_mcu_timer))
    (st.(m_arm_aic)) (st.(user1)) (st.(sprites_mask)) (st.(sprites_colour))
    (st.(logerror_out)).

Definition set_m_share_bank (v : Z) (st : pgm2_state) : pgm2_state :=
  mk_pgm2_state (st.(m_encryption_table)) (st.(m_has_decrypted))
    (st.(m_spritekey)) (st.(m_realspritekey)) (st.(m_sprite_predecrypted))
    (st.(m_shareram)) v (st.(m_mcu_regs)) (st.(m_mcu_result0))
    (st.(m_mcu_result1)) (st.(m_mcu_last_cmd)) (st.(m_memcard0))
    (st.(m_memcard1)) (st.(m_memcard2)) (st.(m_memcard3)) (st.(m_mcu_timer))
    (st.(m_arm_aic)) (st.(user1)) (st.(sprites_mask)) (st.(sprites_colour))
    (st.(logerror_out)).

Definition set_m_mcu_regs (v : list Z) (st : pgm2_state) : pgm2_state :=
  mk_pgm2_state (st.(m_encryption_table)) (st.(m_has_decrypted))
    (st.(m_spritekey)) (st.(m_realspritekey)) (st.(m_sprite_predecrypted))
    (st.(m_shareram)) (st.(m_share_bank)) v (st.(m_mcu_result0))
    (st.(m_mcu_result1)) (st.(m_mcu_last_cmd)) (st.(m_memcard0))
    (st.(m_memcard1)) (st.(m_memcard2)) (st.(m_memcard3)) (st.(m_mcu_timer))
    (st.(m_arm_aic)) (st.(user1)) (st.(sprites_mask)) (st.(sprites_colour))
    (st.(logerror_out)).

Definition set_m_mcu_result0 (v : Z) (st : pgm2_state) : pgm2_state :=
  mk_pgm2_state (st.(m_encryption_table)) (st.(m_has_decrypted))
    (st.(m_spritekey)) (st.(m_realspritekey)) (st.(m_sprite_predecrypted))
    (st.(m_shareram)) (st.(m_share_bank)) (st.(m_mcu_regs)) v
    (st.(m_mcu_result1)) (st.(m_mcu_last_cmd)) (st.(m_memcard0))
    (st.(m_memcard1)) (st.(m_memcard2)) (st.(m_memcard3)) (st.(m_mcu_timer))
    (st.(m_arm_aic)) (st.(user1)) (st.(sprites_mask)) (st.(sprites_colour))
    (st.(logerror_out)).

Definition set_m_mcu_result1 (v : Z) (st : pgm2_state) : pgm2_state :=
  mk_pgm2_state (st.(m_encryption_table)) (st.(m_has_decrypted))
    (st.(m_spritekey)) (st.(m_realspritekey)) (st.(m_sprite_predecrypted))
    (st.(m_shareram)) (st.(m_share_bank)) (st.(m_mcu_regs))
    (st.(m_mcu_result0)) v (st.(m_mcu_last_cmd)) (st.(m_memcard0))
    (st.(m_memcard1)) (st.(m_memcard2)) (st.(m_memcard3)) (st.(m_mcu_timer))
    (st.(m_arm_aic)) (st.(user1)) (st.(sprites_mask)) (st.(sprites_colour))
    (st.(logerror_out)).

Definition set_m_mcu_last_cmd (v : Z) (st : pgm2_state) : pgm2_state :=
  mk_pgm2_state (st.(m_encryption_table)) (st.(m_has_decrypted))
    (st.(m_spritekey)) (st.(m_realspritekey)) (st.(m_sprite_predecrypted))
    (st.(m_shareram)) (st.(m_share_bank)) (st.(m_mcu_regs))
    (st.(m_mcu_result0)) (st.(m_mcu_result1)) v (st.(m_memcard0))
    (st.(m_memcard1)) (st.(m_memcard2)) (st.(m_memcard3)) (st.(m_mcu_timer))
    (st.(m_arm_aic)) (st.(user1)) (st.(sprites_mask)) (st.(sprites_colour))
    (st.(logerror_out)).

Definition set_m_memcard0 (v : option card) (st : pgm2_state) : pgm2_state :=
  mk_pgm2_state (st.(m_encryption_table)) (st.(m_has_decrypted))
    (st.(m_spritekey)) (st.(m_realspritekey)) (st.(m_sprite_predecrypted))
    (st.(m_shareram)) (st.(m_share_bank)) (st.(m_mcu_regs))
    (st.(m_mcu_result0)) (st.(m_mcu_result1)) (st.(m_mcu_last_cmd)) v
    (st.(m_memcard1)) (st.(m_memcard2)) (st.(m_memcard3)) (st.(m_mcu_timer))
    (st.(m_arm_aic)) (st.(user1)) (st.(sprites_mask)) (st.(sprites_colour))
    (st.(logerror_out)).

Definition set_m_memcard1 (v : option card) (st : pgm2_state) : pgm2_state :=
  mk_pgm2_state (st.(m_encryption_table)) (st.(m_has_decrypted))
    (st.(m_spritekey)) (st.(m_realspritekey)) (st.(m_sprite_predecrypted))
    (st.(m_shareram)) (st.(m_share_bank)) (st.(m_mcu_regs))
    (st.(m_mcu_result0)) (st.(m_mcu_result1)) (st.(m_mcu_last_cmd))
    (st.(m_memcard0)) v (st.(m_memcard2)) (st.(m_memcard3)) (st.(m_mcu_timer))
    (st.(m_arm_aic)) (st.(user1)) (st.(sprites_mask)) (st.(sprites_colour))
    (st.(logerror_out)).

Definition set_m_memcard2 (v : option card) (st : pgm2_state) : pgm2_state :=
  mk_pgm2_state (st.(m_encryption_table)) (st.(m_has_decrypted))
    (st.(m_spritekey)) (st.(m_realspritekey)) (st.(m_sprite_predecrypted))
    (st.(m_shareram)) (st.(m_share_bank)) (st.(m_mcu_regs))
    (st.(m_mcu_result0)) (st.(m_mcu_result1)) (st.(m_mcu_last_cmd))
    (st.(m_memcard0)) (st.(m_memcard1)) v (st.(m_memcard3)) (st.(m_mcu_timer))
    (st.(m_arm_aic)) (st.(user1)) (st.(sprites_mask)) (st.(sprites_colour))
    (st.(logerror_out)).

Definition set_m_memcard3 (v : option card) (st : pgm2_state) : pgm2_state :=
  mk_pgm2_state (st.(m_encryption_table)) (st.(m_has_decrypted))
    (st.(m_spritekey)) (st.(m_realspritekey)) (st.(m_sprite_predecrypted))
    (st.(m_shareram)) (st.(m_share_bank)) (st.(m_mcu_regs))
    (st.(m_mcu_result0)) (st.(m_mcu_result1)) (st.(m_mcu_last_cmd))
    (st.(m_memcard0)) (st.(m_memcard1)) (st.(m_memcard2)) v (st.(m_mcu_timer))
    (st.(m_arm_aic)) (st.(user1)) (st.(sprites_mask)) (st.(sprites_colour))
    (st.(logerror_out)).

Definition set_m_mcu_timer (v : option attotime) (st : pgm2_state) : pgm2_state :=
  mk_pgm2_state (st.(m_encryption_table)) (st.(m_has_decrypted))
    (st.(m_spritekey)) (st.(m_realspritekey)) (st.(m_sprite_predecrypted))
    (st.(m_shareram)) (st.(m_share_bank)) (st.(m_mcu_regs))
    (st.(m_mcu_result0)) (st.(m_mcu_result1)) (st.(m_mcu_last_cmd))
    (st.(m_memcard0)) (st.(m_memcard1)) (st.(m_memcard2)) (st.(m_memcard3)) v
    (st.(m_arm_aic)) (st.(user1)) (st.(sprites_mask)) (st.(sprites_colour))
    (st.(logerror_out)).

Definition set_m_arm_aic (v : list Z) (st : pgm2_state) : pgm2_state :=
  mk_pgm2_state (st.(m_encryption_table)) (st.(m_has_decrypted))
    (st.(m_spritekey)) (st.(m_realspritekey)) (st.(m_sprite_predecrypted))
    (st.(m_shareram)) (st.(m_share_bank)) (st.(m_mcu_regs))
    (st.(m_mcu_result0)) (st.(m_mcu_result1)) (st.(m_mcu_last_cmd))
    (st.(m_memcard0)) (st.(m_memcard1)) (st.(m_memcard2)) (st.(m_memcard3))
    (st.(m_mcu_timer)) v (st.(user1)) (st.(sprites_mask))
    (st.(sprites_colour)) (st.(logerror_out)).

Definition set_user1 (v : list Z) (st : pgm2_state) : pgm2_state :=
  mk_pgm2_state (st.(m_encryption_table)) (st.(m_has_decrypted))
    (st.(m_spritekey)) (st.(m_realspritekey)) (st.(m_sprite_predecrypted))
    (st.(m_shareram)) (st.(m_share_bank)) (st.(m_mcu_regs))
    (st.(m_mcu_result0)) (st.(m_mcu_result1)) (st.(m_mcu_last_cmd))
    (st.(m_memcard0)) (st.(m_memcard1)) (st.(m_memcard2)) (st.(m_memcard3))
    (st.(m_mcu_timer)) (st.(m_arm_aic)) v (st.(sprites_mask))
    (st.(sprites_colour)) (st.(logerror_out)).

Definition set_sprites_mask (v : list Z) (st : pgm2_state) : pgm2_state :=
  mk_pgm2_state (st.(m_encryption_table)) (st.(m_has_decrypted))
    (st.(m_spritekey)) (st.(m_realspritekey)) (st.(m_sprite_predecrypted))
    (st.(m_shareram)) (st.(m_share_bank)) (st.(m_mcu_regs))
    (st.(m_mcu_result0)) (st.(m_mcu_result1)) (st.(m_mcu_last_cmd))
    (st.(m_memcard0)) (st.(m_memcard1)) (st.(m_memcard2)) (st.(m_memcard3))
    (st.(m_mcu_timer)) (st.(m_arm_aic)) (st.(user1)) v (st.(sprites_colour))
    (st.(logerror_out)).

Definition set_sprites_colour (v : list Z) (st : pgm2_state) : pgm2_state :=
  mk_pgm2_state (st.(m_encryption_table)) (st.(m_has_decrypted))
    (st.(m_spritekey)) (st.(m_realspritekey)) (st.(m_sprite_predecrypted))
    (st.(m_shareram)) (st.(m_share_bank)) (st.(m_mcu_regs))
    (st.(m_mcu_result0)) (st.(m_mcu_result1)) (st.(m_mcu_last_cmd))
    (st.(m_memcard0)) (st.(m_memcard1)) (st.(m_memcard2)) (st.(m_memcard3))
    (st.(m_mcu_timer)) (st.(m_arm_aic)) (st.(user1)) (st.(sprites_mask)) v
    (st.(logerror_out)).

Definition set_logerror_out (v : list log_line) (st : pgm2_state) : pgm2_state :=
  mk_pgm2_state (st.(m_encryption_table)) (st.(m_has_decrypted))
    (st.(m_spritekey)) (st.(m_realspritekey)) (st.(m_sprite_predecrypted))
    (st.(m_shareram)) (st.(m_share_bank)) (st.(m_mcu_regs))
    (st.(m_mcu_result0)) (st.(m_mcu_result1)) (st.(m_mcu_last_cmd))
    (st.(m_memcard0)) (st.(m_memcard1)) (st.(m_memcard2)) (st.(m_memcard3))
    (st.(m_mcu_timer)) (st.(m_arm_aic)) (st.(user1)) (st.(sprites_mask))
    (st.(sprites_colour)) v.

(** *** Encryption table and decrypt trigger *)

Definition encryption_r (offset : Z) (st : pgm2_state) : outcome Z :=
  aget (m_encryption_table st) offset.

Definition encryption_w (offset data : Z) (st : pgm2_state)
    : outcome pgm2_state :=
  tbl ← aset (m_encryption_table st) offset data;
  mret (set_m_encryption_table tbl st).

(** The written value is not looked at. *)
Definition encryption_do_w (data mem_mask : Z) (st : pgm2_state)
    : pgm2_state :=
  if m_has_decrypted st =? 0 then
    set_m_has_decrypted 1
      (set_user1 (decrypter_rom (m_encryption_table st) (user1 st)) st)
  else st.

(** *** Sprite key *)

Definition BITSWAP32_reversed (val : Z) : Z :=
  bitswap val [0; 1; 2; 3; 4; 5; 6; 7; 8; 9; 10; 11; 12; 13; 14; 15;
               16; 17; 18; 19; 20; 21; 22; 23; 24; 25; 26; 27; 28; 29; 30; 31].

Definition sprite_encryption_w (data mem_mask : Z) (st : pgm2_state)
    : pgm2_state :=
  let st1 := set_m_spritekey (COMBINE_DATA (m_spritekey st) data mem_mask) st in
  if m_sprite_predecrypted st1 =? 0 then
    set_m_realspritekey
      (BITSWAP32_reversed (Z.lxor (m_spritekey st1) 0x90055555)) st1
  else st1.

(** *** Interrupts *)

Definition set_irq (n : Z) (st : pgm2_state) : pgm2_state :=
  set_m_arm_aic (m_arm_aic st ++ [n]) st.

Definition igs_interrupt (st : pgm2_state) : pgm2_state := set_irq 0x47 st.

(** The callback of the MCU completion timer. *)
Definition igs_interrupt2 (st : pgm2_state) : pgm2_state := set_irq 0x46 st.

(** *** Shared RAM *)

Definition share_bank_w (data mem_mask : Z) (st : pgm2_state) : pgm2_state :=
  set_m_share_bank (COMBINE_DATA16 (m_share_bank st) data mem_mask) st.

(** The index the main processor's handlers compute,
    [offset + (m_share_bank & 1) * 128]. *)
Definition cpu_share_index (bank offset : Z) : Z :=
  offset + Z.land bank 1 * 128.

(** The index the MCU side computes, [i + (~m_share_bank & 1) * 128]. *)
Definition mcu_share_index (bank i : Z) : Z :=
  i + Z.land (Z.lnot bank) 1 * 128.

Definition shareram_r (offset : Z) (st : pgm2_state) : outcome Z :=
  aget (m_shareram st) (cpu_share_index (m_share_bank st) offset).

Definition shareram_w (offset data : Z) (st : pgm2_state)
    : outcome pgm2_state :=
  ram ← aset (m_shareram st) (cpu_share_index (m_share_bank st) offset) data;
  mret (set_m_shareram ram st).

(** [memset(&a[base], v, n)] *)
Definition memset (a : list Z) (base v n : Z) : outcome (list Z) :=
  for_loop 0 n 1 (fun i a => aset a (base + i) v) a.

(** *** Memory cards *)

(** [m_memcard_device[k]], for [k = arg1 & 3]. *)
Definition m_memcard_device (k : Z) (st : pgm2_state) : option card :=
  if k =? 0 then m_memcard0 st
  else if k =? 1 then m_memcard1 st
  else if k =? 2 then m_memcard2 st
  else m_memcard3 st.

Definition set_m_memcard_device (k : Z) (c : option card) (st : pgm2_state)
    : pgm2_state :=
  if k =? 0 then set_m_memcard0 c st
  else if k =? 1 then set_m_memcard1 c st
  else if k =? 2 then set_m_memcard2 c st
  else set_m_memcard3 c st.

(** Modelled from the spec: the card device's [present()], whose "not
    present" value is the -1 the driver compares with. *)
Definition present (slot : option card) : Z :=
  match slot with
  | Some _ => 0
  | None => -1
  end.

(** *** The "MPU" MCU, emulated at high level *)

(** One round of the loop of [case 0xc2]: with a card in the slot, byte
    [arg2 + i] of the card goes to the MCU's bank at [i]. *)
Definition mcu_c2_step (arg1 arg2 : Z) (i : Z) (st : pgm2_state)
    : outcome pgm2_state :=
  match m_memcard_device (Z.land arg1 3) st with
  | Some c =>
      ram ← aset (m_shareram st) (mcu_share_index (m_share_bank st) i)
                 (card_read c (arg2 + i));
      mret (set_m_shareram ram st)
  | None => mret st
  end.

(** One round of the loop of [case 0xc3]: with a card in the slot, byte [i]
    of the MCU's bank goes to the card at [arg2 + i]. *)
Definition mcu_c3_step (arg1 arg2 : Z) (i : Z) (st : pgm2_state)
    : outcome pgm2_state :=
  match m_memcard_device (Z.land arg1 3) st with
  | Some c =>
      v ← aget (m_shareram st) (mcu_share_index (m_share_bank st) i);
      mret (set_m_memcard_device (Z.land arg1 3)
              (Some (card_write c (arg2 + i) v)) st)
  | None => mret st
  end.

(** The [switch (cmd)] of [mcu_command]: the new state with the [status]
    and the [delay] the case leaves behind. *)
Definition mcu_switch (cmd : Z) (st : pgm2_state)
    : outcome (pgm2_state * Z * Z) :=
  let status := 0xf7 in (* "command accepted" status *)
  let delay := 1 in
  r0 ← aget (m_mcu_regs st) 0;
  let arg1 := to_u8 (Z.shiftr r0 8) in
  let arg2 := to_u8 (Z.shiftr r0 16) in
  let arg3 := to_u8 (Z.shiftr r0 24) in
  if cmd =? 0xf6 then (* get result *)
    regs ← aset (m_mcu_regs st) 3 (m_mcu_result0 st);
    regs ← aset regs 4 (m_mcu_result1 st);
    mret (set_m_mcu_last_cmd 0 (set_m_mcu_regs regs st), status, delay)
  else if cmd =? 0xe0 then (* command port test *)
    r1 ← aget (m_mcu_regs st) 1;
    mret (set_m_mcu_result1 r1 (set_m_mcu_result0 r0 st), status, 30)
  else if cmd =? 0xe1 then (* shared ram access *)
    let mode := to_u8 (Z.shiftr r0 16) in
    let data := to_u8 (Z.shiftr r0 24) in
    st1 ← (if mode =? 2 then
             ram ← memset (m_shareram st)
                     (Z.land (Z.lnot (m_share_bank st)) 1 * 128) data 128;
             mret (set_m_shareram ram st)
           else mret st);
    mret (set_m_mcu_result1 0 (set_m_mcu_result0 cmd st1), status, delay)
  else if cmd =? 0xc0 then (* check card presence *)
    let status :=
      if present (m_memcard_device (Z.land arg1 3) st) =? -1
      then 0xf4 else status in
    mret (set_m_mcu_result0 cmd st, status, delay)
  else if cmd =? 0xc1 then (* check ready/busy *)
    mret (set_m_mcu_result0 cmd st, status, delay)
  else if cmd =? 0xc2 then (* read data to shared ram *)
    st1 ← for_loop 0 arg3 1 (mcu_c2_step arg1 arg2) st;
    mret (set_m_mcu_result0 cmd st1, status, delay)
  else if cmd =? 0xc3 then (* save data from shared ram *)
    st1 ← for_loop 0 arg3 1 (mcu_c3_step arg1 arg2) st;
    mret (set_m_mcu_result0 cmd st1, status, delay)
  else if cmd =? 0xc7 then (* get card ID *)
    mret (set_m_mcu_result0 cmd (set_m_mcu_result1 0xf81f0000 st),
          status, delay)
  else if cmd =? 0xc8 then (* write byte *)
    let st1 :=
      match m_memcard_device (Z.land arg1 3) st with
      | Some c =>
          set_m_memcard_device (Z.land arg1 3)
            (Some (card_write c arg2 arg3)) st
      | None => st
      end in
    mret (set_m_mcu_result0 cmd st1, status, delay)
  else if (cmd =? 0xc4) || (cmd =? 0xc5) || (cmd =? 0xc6) || (cmd =? 0xc9)
  then
    mret (set_m_mcu_result0 cmd st, status, delay)
  else
    r1 ← aget (m_mcu_regs st) 1;
    mret (set_logerror_out
            (logerror_out st ++ [MCU_unknown_command r0 r1]) st,
          0xf4, delay).

Definition mcu_command (is_command : bool) (st : pgm2_state)
    : outcome pgm2_state :=
  r0 ← aget (m_mcu_regs st) 0;
  let cmd := to_u8 (Z.land r0 0xff) in
  if is_command then
    '(st1, status, delay) ← mcu_switch cmd (set_m_mcu_last_cmd cmd st);
    r3 ← aget (m_mcu_regs st1) 3;
    regs ← aset (m_mcu_regs st1) 3
             (Z.lor (Z.land r3 0xff00ffff) (Z.shiftl status 16));
    mret (set_m_mcu_timer (Some (from_msec delay)) (set_m_mcu_regs regs st1))
  else (* next step *)
    if m_mcu_last_cmd st =? 0 then mret st
    else
      r3 ← aget (m_mcu_regs st) 3;
      regs ← aset (m_mcu_regs st) 3 (Z.lor (Z.land r3 0xff00ffff) 0x00F20000);
      mret (set_m_mcu_last_cmd 0
              (set_m_mcu_timer (Some (from_usec 100))
                 (set_m_mcu_regs regs st))).

Definition mcu_r (offset : Z) (st : pgm2_state) : outcome Z :=
  aget (m_mcu_regs st) (Z.land (Z.shiftr offset 15) 7).

Definition mcu_w (offset data mem_mask : Z) (st : pgm2_state)
    : outcome pgm2_state :=
  let reg := Z.land (Z.shiftr offset 15) 7 in
  old ← aget (m_mcu_regs st) reg;
  regs ← aset (m_mcu_regs st) reg (COMBINE_DATA old data mem_mask);
  let st1 := set_m_mcu_regs regs st in
  st2 ← (if reg =? 2 then (* irq to mcu *)
           r2 ← aget (m_mcu_regs st1) 2;
           if r2 =? 0 then mret st1 else mcu_command true st1
         else mret st1);
  if reg =? 5 then (* ack to mcu *)
    r5 ← aget (m_mcu_regs st2) 5;
    if r5 =? 0 then mret st2 else mcu_command false st2
  else mret st2.


(** *** The completion timer

    Modelled from the spec: the emulator's scheduler.  [adjust] (in
    [mcu_command]) replaces the pending completion; when the armed duration
    has passed the timer's callback [igs_interrupt2] runs, once.
    [machine_run dt] lets [dt] attoseconds pass. *)
Definition machine_run (dt : attotime) (st : pgm2_state) : pgm2_state :=
  match m_mcu_timer st with
  | Some remaining =>
      if remaining <=? dt then igs_interrupt2 (set_m_mcu_timer None st)
      else set_m_mcu_timer (Some (remaining - dt)) st
  | None => st
  end.

(** *** Graphics ROM decoders *)

(** [memregion(r)->bytes()] of a region held as 16-bit words. *)
Definition region_bytes (r : list Z) : Z := 2 * Z.of_nat (length r).

(** The chain [if ((i>>1) & bit) x ^= key;] over a table of (bit, key). *)
Definition index_mask (table : list (Z * Z)) (i : Z) (x : Z) : Z :=
  fold_left
    (fun x bk => if Z.land (Z.shiftr i 1) (fst bk) =? 0 then x
                 else Z.lxor x (snd bk))
    table x.

Definition iga_u16_table : list (Z * Z) :=
  [(0x000001, 0x0010); (0x000002, 0x2004); (0x000004, 0x0801);
   (0x000008, 0x0300); (0x000010, 0x0080); (0x000020, 0x0020);
   (0x000040, 0x4008); (0x000080, 0x1002); (0x000100, 0x0400);
   (0x000200, 0x0040); (0x000400, 0x8000)].

Definition iga_u12_table : list (Z * Z) :=
  [(0x000001, 0x9004); (0x000002, 0x0028); (0x000004, 0x0182);
   (0x000008, 0x0010); (0x000010, 0x2040); (0x000020, 0x0801);
   (0x000040, 0x0000); (0x000080, 0x0000); (0x000100, 0x4000);
   (0x000200, 0x0600); (0x000400, 0x0000)].

(** [BITSWAP16(w, 8,9,10,11,12,13,14,15,0,1,2,3,4,5,6,7)] *)
Definition BITSWAP16_bytes_reversed (w : Z) : Z :=
  bitswap w [8; 9; 10; 11; 12; 13; 14; 15; 0; 1; 2; 3; 4; 5; 6; 7].

(** The body shared by the two positional decoders:
    [rom[i] ^= x; rom[i] = BITSWAP16(rom[i], ...)]. *)
Definition iga_step (table : list (Z * Z)) (ixor : Z) (i : Z) (rom : list Z)
    : outcome (list Z) :=
  let x := index_mask table i (to_u16 ixor) in
  w ← aget rom i;
  rom1 ← aset rom i (Z.lxor w x);
  w1 ← aget rom1 i;
  aset rom1 i (BITSWAP16_bytes_reversed w1).

Definition iga_u16_decode (rom : list Z) (len ixor : Z) : outcome (list Z) :=
  for_loop 1 (Z.quot len 2) 2 (iga_step iga_u16_table ixor) rom.

Definition iga_u12_decode (rom : list Z) (len ixor : Z) : outcome (list Z) :=
  for_loop 0 (Z.quot len 2) 2 (iga_step iga_u12_table ixor) rom.

(** [BITSWAP16(w, 15,14, 13,12,11, 5,4,3, 7,6, 10,9,8, 2,1,0)] *)
Definition BITSWAP16_colour (w : Z) : Z :=
  bitswap w [15; 14; 13; 12; 11; 5; 4; 3; 7; 6; 10; 9; 8; 2; 1; 0].

Definition sprite_colour_decode (rom : list Z) (len : Z) : outcome (list Z) :=
  for_loop 0 (Z.quot len 2) 1
    (fun i rom => w ← aget rom i; aset rom i (BITSWAP16_colour w)) rom.

(** *** Driver init *)

(** For games with the internal ROMs fully dumped, which provide the sprite
    key and the program ROM key at runtime. *)
Definition common_encryption_init (st : pgm2_state) : outcome pgm2_state :=
  src ← iga_u12_decode (sprites_mask st) (region_bytes (sprites_mask st)) 0x0000;
  src ← iga_u16_decode src (region_bytes (sprites_mask st)) 0x0000;
  let st := set_m_sprite_predecrypted 0 (set_sprites_mask src st) in
  src ← sprite_colour_decode (sprites_colour st)
          (region_bytes (sprites_colour st));
  mret (set_m_has_decrypted 0 (set_sprites_colour src st)).

Definition driver_init_ddpdojh (st : pgm2_state) : outcome pgm2_state :=
  src ← iga_u12_decode (sprites_mask st) 0x1000000 0x1e96;
  src ← iga_u16_decode src 0x1000000 0x869c;
  let st := set_m_sprite_predecrypted 1 (set_sprites_mask src st) in
  src ← sprite_colour_decode (sprites_colour st) 0x2000000;
  let st := set_sprites_colour src st in
  mret (set_m_has_decrypted 1
          (set_user1 (decrypter_rom ddpdoj_key (user1 st)) st)).

Definition driver_init_kov3 (st : pgm2_state) : outcome pgm2_state :=
  src ← iga_u12_decode (sprites_mask st) 0x4000000 0x956d;
  src ← iga_u16_decode src 0x4000000 0x3d17;
  let st := set_m_sprite_predecrypted 1 (set_sprites_mask src st) in
  src ← sprite_colour_decode (sprites_colour st) 0x8000000;
  let st := set_sprites_colour src st in
  mret (set_m_has_decrypted 1
          (set_user1 (decrypter_rom kov3_key (user1 st)) st)).

Definition driver_init_kof98umh (st : pgm2_state) : outcome pgm2_state :=
  src ← iga_u12_decode (sprites_mask st) 0x08000000 0x21df;
  src ← iga_u16_decode src 0x08000000 0x8692;
  let st := set_m_sprite_predecrypted 1 (set_sprites_mask src st) in
  src ← sprite_colour_decode (sprites_colour st) 0x20000000;
  let st := set_sprites_colour src st in
  mret (set_m_has_decrypted 1
          (set_user1 (decrypter_rom kof98umh_key (user1 st)) st)).

Definition decrypt_kov3_module (addrxor dataxor : Z) (st : pgm2_state)
    : outcome pgm2_state :=
  let src := user1 st in
  let size := region_bytes (user1 st) in
  let buffer := replicate (Z.to_nat (size / 2)) 0 in
  buffer ← for_loop 0 (size / 2) 1
             (fun i buffer =>
                w ← aget src (Z.lxor i addrxor);
                aset buffer i (Z.lxor w dataxor))
             buffer;
  mret (set_user1 buffer st).

Definition driver_init_kov3_104 (st : pgm2_state) : outcome pgm2_state :=
  st ← decrypt_kov3_module 0x18ec71 0xb89d st; driver_init_kov3 st.

Definition driver_init_kov3_102 (st : pgm2_state) : outcome pgm2_state :=
  st ← decrypt_kov3_module 0x021d37 0x81d0 st; driver_init_kov3 st.

Definition driver_init_kov3_100 (st : pgm2_state) : outcome pgm2_state :=
  st ← decrypt_kov3_module 0x3e8aa8 0xc530 st; driver_init_kov3 st.

End Driver.

(** ** Specification-side notions *)

(** The specification's [reverse32]: [y] is the 32-bit word whose bit [i]
    is bit [31 - i] of [x]. *)
Definition reverses32 (x y : Z) : Prop :=
  0 <= y < 2 ^ 32 /\
  forall i, 0 <= i < 32 -> Z.testbit y i = Z.testbit x (31 - i).

(** The indices a counted loop visits in [n] rounds from [start]. *)
Definition visited (start step : Z) (n : nat) (j : Z) : bool :=
  (start <=? j) && ((j - start) mod step =? 0)
  && ((j - start) / step <? Z.of_nat n).

(** A buffer with [f j] applied to the word at every visited index [j]. *)
Definition map_visited (f : Z -> Z -> Z) (start step : Z) (n : nat)
    (rom : list Z) : list Z :=
  imap (fun k w => if visited start step n (Z.of_nat k)
                   then f (Z.of_nat k) w else w) rom.

(** Every word of a buffer fits 16 bits. *)
Definition words16 (rom : list Z) : Prop :=
  Forall (fun w => 0 <= w < 65536) rom.

(** Mailbox register [k], for the statements below. *)
Definition mcu_reg {card : Type} (st : @pgm2_state card) (k : nat) : Z :=
  nth k (m_mcu_regs st) 0.

(** The command byte and the three argument bytes of the command word
    (register 0). *)
Definition mcu_cmd {card : Type} (st : @pgm2_state card) : Z :=
  to_u8 (mcu_reg st 0).
Definition mcu_arg1 {card : Type} (st : @pgm2_state card) : Z :=
  to_u8 (Z.shiftr (mcu_reg st 0) 8).
Definition mcu_arg2 {card : Type} (st : @pgm2_state card) : Z :=
  to_u8 (Z.shiftr (mcu_reg st 0) 16).
Definition mcu_arg3 {card : Type} (st : @pgm2_state card) : Z :=
  to_u8 (Z.shiftr (mcu_reg st 0) 24).

(** The shared RAM has its 256 bytes. *)
Definition shareram_ok {card : Type} (st : @pgm2_state card) : Prop :=
  length (m_shareram st) = 256%nat.

(** The status field of the mailbox, bits 16-23 of register 3. *)
Definition mcu_status {card : Type} (st : @pgm2_state card) : Z :=
  Z.land (Z.shiftr (mcu_reg st 3) 16) 0xff.

(** A value with the status field replaced. *)
Definition with_status (r status : Z) : Z :=
  Z.lor (Z.land r 0xff00ffff) (Z.shiftl status 16).

(** The mailbox has its eight registers. *)
Definition mailbox_ok {card : Type} (st : @pgm2_state card) : Prop :=
  length (m_mcu_regs st) = 8%nat.

(** The word a positional decoder leaves at index [i]. *)
Definition iga_word (table : list (Z * Z)) (ixor i w : Z) : Z :=
  BITSWAP16_bytes_reversed (Z.lxor w (index_mask table i (to_u16 ixor))).

(** The command bytes that have a case in [mcu_command]. *)
Definition known_commands : list Z :=
  [0xf6; 0xe0; 0xe1; 0xc0; 0xc1; 0xc2; 0xc3; 0xc7; 0xc8;
   0xc4; 0xc5; 0xc6; 0xc9].

(** ** Reset and the speed-up read handlers *)

Definition machine_reset {card : Type} (st : @pgm2_state card)
    : pgm2_state :=
  set_m_share_bank 0
    (set_m_mcu_last_cmd 0 (set_m_realspritekey 0 (set_m_spritekey 0 st))).

(** The read handlers installed over two words of main RAM.  [pc] is the
    program counter of the reading CPU and [m_mainram] the RAM as 32-bit
    words; the result is the word read and whether the handler asked the
    CPU to spin until the next interrupt. *)
Definition orleg2_speedup_r (pc : Z) (m_mainram : list Z)
    : outcome (Z * bool) :=
  spin ← (if (pc =? 0x1002faec) || (pc =? 0x1002f9b8) then
            a ← aget m_mainram (0x20114 / 4);
            if a =? 0x00 then
              b ← aget m_mainram (0x20118 / 4); mret (b =? 0x00)
            else mret false
          else mret false);
  v ← aget m_mainram (0x20114 / 4);
  mret (v, spin).

Definition kov2nl_speedup_r (pc : Z) (m_mainram : list Z)
    : outcome (Z * bool) :=
  spin ← (if (pc =? 0x10053a94) || (pc =? 0x1005332c) || (pc =? 0x1005327c)
          then
            a ← aget m_mainram (0x20470 / 4);
            if a =? 0x00 then
              b ← aget m_mainram (0x20474 / 4); mret (b =? 0x00)
            else mret false
          else mret false);
  v ← aget m_mainram (0x20470 / 4);
  mret (v, spin).

(** Fields no MCU command writes: the encryption table, the decrypt flag,
    the sprite keys, the bank selector, the ROM regions and the interrupt
    controller. *)
Definition same_outside_mcu {card : Type} (st st' : @pgm2_state card)
    : Prop :=
  m_encryption_table st' = m_encryption_table st /\
  m_has_decrypted st' = m_has_decrypted st /\
  m_spritekey st' = m_spritekey st /\
  m_realspritekey st' = m_realspritekey st /\
  m_sprite_predecrypted st' = m_sprite_predecrypted st /\
  m_share_bank st' = m_share_bank st /\
  m_arm_aic st' = m_arm_aic st /\
  user1 st' = user1 st /\
  sprites_mask st' = sprites_mask st /\
  sprites_colour st' = sprites_colour st.

(** The four card slots. *)
Definition memcards {card : Type} (st : @pgm2_state card)
    : list (option card) :=
  [m_memcard0 st; m_memcard1 st; m_memcard2 st; m_memcard3 st].

(** The status an issue answers with: 0xF4 for a command byte without a
    case and for 0xC0 on an empty slot, 0xF7 otherwise. *)
Definition issue_status {card : Type} (st : @pgm2_state card) : Z :=
  if negb (bool_decide (mcu_cmd st ∈ known_commands))
     || ((mcu_cmd st =? 0xc0)
         && (present (m_memcard_device (Z.land (mcu_arg1 st) 3) st) =? -1))
  then 0xf4 else 0xf7.

(** The delay an issue arms the timer with, in milliseconds. *)
Definition issue_delay {card : Type} (st : @pgm2_state card) : Z :=
  if mcu_cmd st =? 0xe0 then 30 else 1.

(** What the switch of an issue on [st] leaves in [st1]. *)
Definition issue_effects {card : Type} (st st1 : @pgm2_state card) : Prop :=
  let cmd := mcu_cmd st in
  m_mcu_regs st1 =
    (if cmd =? 0xf6
     then <[4%nat := m_mcu_result1 st]>
            (<[3%nat := m_mcu_result0 st]> (m_mcu_regs st))
     else m_mcu_regs st) /\
  m_mcu_last_cmd st1 = (if cmd =? 0xf6 then 0 else cmd) /\
  same_outside_mcu st st1 /\
  shareram_ok st1 /\
  m_mcu_timer st1 = m_mcu_timer st /\
  (cmd <> 0xc2 -> ~ (cmd = 0xe1 /\ mcu_arg2 st = 2) ->
   m_shareram st1 = m_shareram st) /\
  (cmd <> 0xc3 -> cmd <> 0xc8 -> memcards st1 = memcards st) /\
  (m_memcard_device (Z.land (mcu_arg1 st) 3) st = None ->
   cmd <> 0xe1 ->
   m_shareram st1 = m_shareram st /\ memcards st1 = memcards st) /\
  (cmd ∈ known_commands -> logerror_out st1 = logerror_out st) /\
  (cmd = 0xf6 \/ cmd ∉ known_commands ->
   m_mcu_result0 st1 = m_mcu_result0 st /\
   m_mcu_result1 st1 = m_mcu_result1 st) /\
  (cmd ∈ known_commands -> cmd <> 0xf6 -> cmd <> 0xe0 ->
   m_mcu_result0 st1 = cmd).

(** ** The specification's [decryptTitle] *)

Section Decrypt_title.

Context {card : Type}.
Variable decrypter_rom : list Z -> list Z -> list Z.

(** Step (1), the optional module layer with its (addrMask, dataMask). *)
Definition module_layer (masks : option (Z * Z)) (st : @pgm2_state card)
    : outcome pgm2_state :=
  match masks with
  | Some (addrxor, dataxor) => decrypt_kov3_module addrxor dataxor st
  | None => mret st
  end.

(** Step (2) on one region: the two positional decoders with the title's
    base keys. *)
Definition positional_decoders (key12 key16 : Z) (rom : list Z) (len : Z)
    : outcome (list Z) :=
  rom ← iga_u12_decode rom len key12;
  iga_u16_decode rom len key16.

(** The program ROM at init: decrypted with the title's static key, or left
    for the decrypt trigger when the key comes at runtime. *)
Definition program_rom_at_init (static_key : option (list Z))
    (st : @pgm2_state card) : pgm2_state :=
  match static_key with
  | Some key =>
      set_m_has_decrypted 1 (set_user1 (decrypter_rom key (user1 st)) st)
  | None => set_m_has_decrypted 0 st
  end.

Definition predecrypted_flag (static_key : option (list Z)) : Z :=
  match static_key with
  | Some _ => 1
  | None => 0
  end.

(** [decryptTitle] as the specification words it: the positional decoders
    run over both the sprite-mask and the sprite-colour region. *)
Definition decryptTitle (masks : option (Z * Z))
    (mask_len key12 key16 colour_len : Z) (static_key : option (list Z))
    (st : @pgm2_state card) : outcome pgm2_state :=
  st ← module_layer masks st;
  mask ← positional_decoders key12 key16 (sprites_mask st) mask_len;
  colour ← positional_decoders key12 key16 (sprites_colour st) colour_len;
  colour ← sprite_colour_decode colour colour_len;
  mret (program_rom_at_init static_key
          (set_sprites_colour colour
             (set_m_sprite_predecrypted (predecrypted_flag static_key)
                (set_sprites_mask mask st)))).

(** The same with the positional decoders over the sprite-mask region
    only. *)
Definition decryptTitle_mask_only (masks : option (Z * Z))
    (mask_len key12 key16 colour_len : Z) (static_key : option (list Z))
    (st : @pgm2_state card) : outcome pgm2_state :=
  st ← module_layer masks st;
  mask ← positional_decoders key12 key16 (sprites_mask st) mask_len;
  colour ← sprite_colour_decode (sprites_colour st) colour_len;
  mret (program_rom_at_init static_key
          (set_sprites_colour colour
             (set_m_sprite_predecrypted (predecrypted_flag static_key)
                (set_sprites_mask mask st)))).

End Decrypt_title.

(** ** Test fixtures

    A card as its bytes, and a small machine: empty tables, no card, eight
    mailbox registers, 256 bytes of shared RAM. *)

Definition byte_card : Type := list Z.

Definition byte_card_read (c : byte_card) (offset : Z) : Z :=
  nth (Z.to_nat offset) c 0.

Definition byte_card_write (c : byte_card) (offset data : Z) : byte_card :=
  <[Z.to_nat offset := data]> c.

(** A stand-in for the program-ROM cipher, which adds the first key byte. *)
Definition toy_decrypter_rom (key rom : list Z) : list Z :=
  map (fun w => to_u16 (w + nth 0 key 0)) rom.

Definition power_on : @pgm2_state byte_card :=
  mk_pgm2_state (replicate 256 3) 0 0 0 0 (replicate 256 0) 0
    (replicate 8 0) 0 0 0 None None None None None []
    [0x1111; 0x2222; 0x3333; 0x4444] [1; 2; 3; 4; 5; 6]
    [0x0008; 0x0100; 0xffff; 0x0421] [].

(** The small machine with the two input registers of the mailbox set. *)
Definition mailbox_with (reg0 reg1 : Z) : @pgm2_state byte_card :=
  set_m_mcu_regs [reg0; reg1; 0; 0; 0; 0; 0; 0] power_on.

(** The bus offsets of the issue and acknowledge strobes (registers 2 and 5
    of the strided window). *)
Definition issue_offset : Z := Z.shiftl 2 15.
Definition ack_offset : Z := Z.shiftl 5 15.

(** The small machine with a card of 256 bytes [7] in slot 0, the bank
    selector set and a command word in register 0. *)
Definition card_in_slot0 (bank reg0 : Z) : @pgm2_state byte_card :=
  set_m_share_bank bank
    (set_m_memcard0 (Some (replicate 256 7)) (mailbox_with reg0 0)).

(** * Properties *)

(** ** Bit selection *)

Lemma BIT_b2z (x n : Z) : 0 <= n -> BIT x n = Z.b2z (Z.testbit x n).
Proof.
  intros Hn. unfold BIT.
  change 1 with (Z.ones 1). rewrite Z.land_ones by lia.
  change (2 ^ 1) with 2. rewrite <- Z.bit0_mod.
  rewrite Z.shiftr_spec by lia. reflexivity.
Qed.

Lemma testbit_b2z_shiftl (b : bool) (n i : Z) :
  0 <= n -> 0 <= i ->
  Z.testbit (Z.shiftl (Z.b2z b) n) i = (i =? n) && b.
Proof.
  intros Hn Hi. rewrite Z.shiftl_spec by lia.
  destruct (Z.eqb_spec i n) as [->|Hne].
  - rewrite Z.sub_diag. apply Z.b2z_bit0.
  - destruct (Z.lt_ge_cases i n).
    + apply Z.testbit_neg_r. lia.
    + destruct b; simpl.
      * apply Z.bits_above_log2; simpl; lia.
      * apply Z.bits_0.
Qed.

(** Bit [i] of [bitswap val sel] is the bit of [val] that the [i]-th
    selector from the right names; there is no bit above the selectors. *)
Lemma bitswap_testbit (val : Z) (sel : list Z) (i : Z) :
  Forall (fun b => 0 <= b) sel -> 0 <= i ->
  Z.testbit (bitswap val sel) i =
  match rev sel !! Z.to_nat i with
  | Some b => Z.testbit val b
  | None => false
  end.
Proof.
  intros Hsel Hi. induction Hsel as [|b rest Hb Hrest IH]; simpl.
  - apply Z.bits_0.
  - rewrite Z.lor_spec, IH, BIT_b2z, testbit_b2z_shiftl by lia.
    destruct (Z.eqb_spec i (Z.of_nat (length rest))) as [->|Hne]; simpl.
    + rewrite Nat2Z.id.
      rewrite lookup_app_r by (rewrite length_rev; lia).
      rewrite length_rev, Nat.sub_diag. simpl.
      rewrite lookup_ge_None_2 by (rewrite length_rev; lia).
      apply orb_false_r.
    + destruct (Z.lt_ge_cases i (Z.of_nat (length rest))).
      * rewrite lookup_app_l by (rewrite length_rev; lia). reflexivity.
      * rewrite lookup_ge_None_2 by (rewrite length_rev; lia).
        rewrite lookup_ge_None_2; [reflexivity|].
        rewrite length_app, length_rev. simpl. lia.
Qed.

Lemma bitswap_nonneg (val : Z) (sel : list Z) : 0 <= bitswap val sel.
Proof.
  induction sel as [|b rest IH]; simpl; [lia|].
  apply Z.lor_nonneg. split; [|exact IH].
  apply Z.shiftl_nonneg. unfold BIT. apply Z.land_nonneg. right. lia.
Qed.

Lemma bits_above_bound (x n : Z) :
  0 <= n -> 0 <= x -> (forall i, n <= i -> Z.testbit x i = false) ->
  x < 2 ^ n.
Proof.
  intros Hn Hx Hhigh.
  assert (Heq : x mod 2 ^ n = x).
  { apply Z.bits_inj'. intros i Hi.
    destruct (Z.lt_ge_cases i n).
    - apply Z.mod_pow2_bits_low. lia.
    - rewrite Z.mod_pow2_bits_high by lia. symmetry. apply Hhigh. lia. }
  rewrite <- Heq. apply Z.mod_pos_bound. apply Z.pow_pos_nonneg; lia.
Qed.

Lemma bitswap_bound (val : Z) (sel : list Z) :
  Forall (fun b => 0 <= b) sel ->
  0 <= bitswap val sel < 2 ^ Z.of_nat (length sel).
Proof.
  intros Hsel. split; [apply bitswap_nonneg|].
  apply bits_above_bound; [lia|apply bitswap_nonneg|].
  intros i Hi. rewrite bitswap_testbit by (assumption || lia).
  rewrite lookup_ge_None_2; [reflexivity|]. rewrite length_rev. lia.
Qed.

(** ** The decrypt trigger *)

Section Decrypt_trigger.

Context {card : Type} (decrypter_rom : list Z -> list Z -> list Z).

Abbreviation state := (@pgm2_state card).
Abbreviation trigger := (encryption_do_w decrypter_rom).

Lemma encryption_do_w_first (data mem_mask : Z) (st : state) :
  m_has_decrypted st = 0 ->
  trigger data mem_mask st =
  set_m_has_decrypted 1
    (set_user1 (decrypter_rom (m_encryption_table st) (user1 st)) st).
Proof. intros H. unfold encryption_do_w. rewrite H. reflexivity. Qed.

Lemma encryption_do_w_later (data mem_mask : Z) (st : state) :
  m_has_decrypted st <> 0 -> trigger data mem_mask st = st.
Proof.
  intros H. unfold encryption_do_w.
  destruct (Z.eqb_spec (m_has_decrypted st) 0); [contradiction|reflexivity].
Qed.

Lemma encryption_do_w_sets_flag (data mem_mask : Z) (st : state) :
  m_has_decrypted (trigger data mem_mask st) <> 0.
Proof.
  unfold encryption_do_w.
  destruct (Z.eqb_spec (m_has_decrypted st) 0); [discriminate|assumption].
Qed.

(** C1. Writing the decrypt trigger twice leaves the machine (the program
    ROM and everything else) as writing it once does: a first write finds
    the flag clear, decrypts the program ROM in place with the encryption
    table and sets the flag; a write that finds the flag set changes
    nothing, and after any write the flag is set. *)
Theorem encryption_do_w_idempotent
    (data1 mask1 data2 mask2 : Z) (st : state) :
  let st1 := trigger data1 mask1 st in
  trigger data2 mask2 st1 = st1 /\
  m_has_decrypted st1 <> 0 /\
  (m_has_decrypted st = 0 ->
     user1 st1 = decrypter_rom (m_encryption_table st) (user1 st) /\
     m_has_decrypted st1 = 1 /\
     st1 = set_m_has_decrypted 1 (set_user1 (user1 st1) st)) /\
  (m_has_decrypted st <> 0 -> st1 = st).
Proof.
  intros st1. subst st1. repeat split.
  - apply encryption_do_w_later, encryption_do_w_sets_flag.
  - apply encryption_do_w_sets_flag.
  - rewrite encryption_do_w_first by assumption. reflexivity.
  - rewrite encryption_do_w_first by assumption. reflexivity.
  - rewrite encryption_do_w_first by assumption. reflexivity.
  - apply encryption_do_w_later.
Qed.

End Decrypt_trigger.

Lemma encryption_do_w_idempotent_witness :
  let st1 := encryption_do_w toy_decrypter_rom 1 0xffffffff power_on in
  encryption_do_w toy_decrypter_rom 0 0xffffffff st1 = st1 /\
  user1 st1 = [0x1114; 0x2225; 0x3336; 0x4447] /\
  m_has_decrypted st1 = 1.
Proof.
  pose proof (encryption_do_w_idempotent toy_decrypter_rom
                1 0xffffffff 0 0xffffffff power_on) as H.
  cbv zeta in H. destruct H as (Hsame & _ & Hfirst & _).
  split; [exact Hsame|].
  destruct (Hfirst eq_refl) as (Hrom & Hflag & _).
  split; [rewrite Hrom; reflexivity|exact Hflag].
Defined.

(** ** The sprite key *)

Lemma COMBINE_DATA_full (var data : Z) :
  0 <= data < 2 ^ 32 -> COMBINE_DATA var data 0xffffffff = data.
Proof.
  intros Hdata. unfold COMBINE_DATA, not32, to_u32.
  replace (Z.land (Z.lnot 0xffffffff) 0xffffffff) with 0 by reflexivity.
  rewrite Z.land_0_r, Z.lor_0_l.
  change 0xffffffff with (Z.ones 32). rewrite Z.land_ones by lia.
  apply Z.mod_small. exact Hdata.
Qed.

Lemma BITSWAP32_reversed_spec (x : Z) : reverses32 x (BITSWAP32_reversed x).
Proof.
  unfold BITSWAP32_reversed. split.
  - match goal with |- context [bitswap _ ?sel] =>
      apply (bitswap_bound x sel) end.
    repeat constructor; lia.
  - intros i Hi. rewrite bitswap_testbit by (repeat constructor; lia).
    assert (Hnat : (Z.to_nat i < 32)%nat) by lia.
    replace (31 - i) with (Z.of_nat (31 - Z.to_nat i)) by lia.
    generalize dependent (Z.to_nat i). intros n Hnat.
    do 32 (destruct n as [|n]; [reflexivity|]). lia.
Qed.

Section Sprite_key.

Context {card : Type}.

Abbreviation state := (@pgm2_state card).

(** C2. A write to the raw sprite-key register stores the raw key; with
    [predecrypted] false the real key becomes the 32-bit bit reversal of
    (raw key XOR 0x90055555), with [predecrypted] true the real key keeps
    its value, whatever is written. *)
Theorem sprite_encryption_w_realkey (data mem_mask : Z) (st : state) :
  let st' := sprite_encryption_w data mem_mask st in
  m_spritekey st' = COMBINE_DATA (m_spritekey st) data mem_mask /\
  (0 <= data < 2 ^ 32 -> mem_mask = 0xffffffff -> m_spritekey st' = data) /\
  (m_sprite_predecrypted st = 0 ->
     reverses32 (Z.lxor (m_spritekey st') 0x90055555) (m_realspritekey st')) /\
  (m_sprite_predecrypted st <> 0 ->
     m_realspritekey st' = m_realspritekey st).
Proof.
  intros st'. subst st'. unfold sprite_encryption_w.
  cbn [m_sprite_predecrypted set_m_spritekey m_spritekey].
  destruct (Z.eqb_spec (m_sprite_predecrypted st) 0) as [Hz|Hnz];
    cbn [m_spritekey m_realspritekey set_m_realspritekey set_m_spritekey];
    (split; [reflexivity|split; [|split]]).
  - intros Hdata ->. apply COMBINE_DATA_full, Hdata.
  - intros _. apply BITSWAP32_reversed_spec.
  - intros Hne. contradiction.
  - intros Hdata ->. apply COMBINE_DATA_full, Hdata.
  - intros Heq. contradiction.
  - reflexivity.
Qed.

End Sprite_key.

Lemma sprite_encryption_w_realkey_witness :
  let st' := sprite_encryption_w 0x12345678 0xffffffff power_on in
  m_spritekey st' = 0x12345678 /\
  reverses32 (Z.lxor 0x12345678 0x90055555) (m_realspritekey st') /\
  m_realspritekey st' = 0xb4c08c41 /\
  m_realspritekey
    (sprite_encryption_w 0x12345678 0xffffffff
       (set_m_realspritekey 77 (set_m_sprite_predecrypted 1 power_on))) = 77.
Proof.
  pose proof (sprite_encryption_w_realkey 0x12345678 0xffffffff power_on)
    as H.
  pose proof (sprite_encryption_w_realkey 0x12345678 0xffffffff
                (set_m_realspritekey 77
                   (set_m_sprite_predecrypted 1 power_on))) as H1.
  cbv zeta in H, H1.
  destruct H as (_ & Hraw & Hrev & _). destruct H1 as (_ & _ & _ & Hkeep).
  split; [apply Hraw; [lia|reflexivity]|].
  split; [exact (Hrev eq_refl)|].
  split; [reflexivity|].
  apply Hkeep. discriminate.
Defined.

(** ** Arrays *)

Lemma in_bounds_true (l : list Z) (i : Z) :
  0 <= i < Z.of_nat (length l) -> in_bounds l i = true.
Proof. intros H. unfold in_bounds. apply andb_true_intro. split; lia. Qed.

Lemma in_bounds_false (l : list Z) (i : Z) :
  i < 0 \/ Z.of_nat (length l) <= i -> in_bounds l i = false.
Proof.
  intros H. unfold in_bounds. apply andb_false_iff. destruct H; [left|right]; lia.
Qed.

Lemma aget_ok (l : list Z) (i : Z) :
  0 <= i < Z.of_nat (length l) -> aget l i = Done (nth (Z.to_nat i) l 0).
Proof. intros H. unfold aget. rewrite in_bounds_true by exact H. reflexivity. Qed.

Lemma aset_ok (l : list Z) (i v : Z) :
  0 <= i < Z.of_nat (length l) -> aset l i v = Done (<[Z.to_nat i := v]> l).
Proof. intros H. unfold aset. rewrite in_bounds_true by exact H. reflexivity. Qed.

Lemma aset_out (l : list Z) (i v : Z) :
  i < 0 \/ Z.of_nat (length l) <= i -> aset l i v = OutOfRange i.
Proof. intros H. unfold aset. rewrite in_bounds_false by exact H. reflexivity. Qed.

Lemma nth_insert_eq (l : list Z) (i : nat) (v : Z) :
  (i < length l)%nat -> nth i (<[i := v]> l) 0 = v.
Proof.
  intros H. apply nth_lookup_Some. apply list_lookup_insert_eq. exact H.
Qed.

Lemma nth_insert_ne (l : list Z) (i j : nat) (v : Z) :
  i <> j -> nth j (<[i := v]> l) 0 = nth j l 0.
Proof.
  intros H. rewrite !nth_lookup. rewrite list_lookup_insert_ne by exact H.
  reflexivity.
Qed.

(** ** Bytes and status fields *)

Lemma to_u8_idem (x : Z) : to_u8 (Z.land x 0xff) = to_u8 x.
Proof.
  unfold to_u8. rewrite <- Z.land_assoc. reflexivity.
Qed.

Lemma to_u8_range (x : Z) : 0 <= to_u8 x < 256.
Proof.
  unfold to_u8. change 0xff with (Z.ones 8). rewrite Z.land_ones by lia.
  apply Z.mod_pos_bound. reflexivity.
Qed.

(** The status byte can be read back from a packed register. *)
Lemma status_of_with_status (r status : Z) :
  0 <= status < 256 ->
  Z.land (Z.shiftr (with_status r status) 16) 0xff = status.
Proof.
  intros Hs. unfold with_status.
  rewrite Z.shiftr_lor, Z.land_lor_distr_l.
  rewrite Z.shiftr_shiftl_l, Z.sub_diag, Z.shiftl_0_r by lia.
  rewrite Z.shiftr_land, <- Z.land_assoc.
  change (Z.land (Z.shiftr 0xff00ffff 16) 0xff) with 0.
  rewrite Z.land_0_r, Z.lor_0_l.
  change 0xff with (Z.ones 8). rewrite Z.land_ones by lia.
  apply Z.mod_small. exact Hs.
Qed.

(** Packing a status keeps every bit outside the status field. *)
Lemma with_status_frame (r status : Z) (i : Z) :
  0 <= status < 256 -> 0 <= i -> ~ 16 <= i < 24 ->
  Z.testbit (with_status r status) i = Z.testbit r i && (i <? 32).
Proof.
  intros Hs Hi Hout. unfold with_status.
  rewrite Z.lor_spec, Z.land_spec, Z.shiftl_spec by lia.
  assert (Hst : Z.testbit status (i - 16) = false).
  { destruct (Z.lt_ge_cases i 16); [apply Z.testbit_neg_r; lia|].
    destruct (Z.eq_dec status 0) as [->|]; [apply Z.bits_0|].
    apply Z.bits_above_log2; [lia|].
    apply Z.log2_lt_pow2; [lia|].
    apply Z.lt_le_trans with (2 ^ 8); [lia|].
    apply Z.pow_le_mono_r; lia. }
  rewrite Hst, orb_false_r. f_equal.
  change 0xff00ffff with (Z.lor (Z.ones 16) (Z.shiftl (Z.ones 8) 24)).
  rewrite Z.lor_spec, Z.shiftl_spec by lia.
  destruct (Z.lt_ge_cases i 16).
  - rewrite Z.ones_spec_low by lia. simpl. symmetry. lia.
  - rewrite (Z.ones_spec_high 16) by lia. simpl.
    destruct (Z.lt_ge_cases i 32).
    + rewrite Z.ones_spec_low by lia. symmetry. lia.
    + rewrite Z.ones_spec_high by lia. symmetry. lia.
Qed.

(** ** The MCU protocol *)

(** Computes field reads of updated states. *)
Ltac state_simpl :=
  cbn [m_encryption_table m_has_decrypted m_spritekey m_realspritekey
       m_sprite_predecrypted m_shareram m_share_bank m_mcu_regs
       m_mcu_result0 m_mcu_result1 m_mcu_last_cmd m_memcard0 m_memcard1
       m_memcard2 m_memcard3 m_mcu_timer m_arm_aic user1 sprites_mask
       sprites_colour logerror_out
       set_m_encryption_table set_m_has_decrypted set_m_spritekey
       set_m_realspritekey set_m_sprite_predecrypted set_m_shareram
       set_m_share_bank set_m_mcu_regs set_m_mcu_result0 set_m_mcu_result1
       set_m_mcu_last_cmd set_m_memcard0 set_m_memcard1 set_m_memcard2
       set_m_memcard3 set_m_mcu_timer set_m_arm_aic set_user1
       set_sprites_mask set_sprites_colour set_logerror_out
       mbind mret outcome_bind outcome_ret] in *.

(** Decides the comparisons of the switch between two literals. *)
Ltac switch_simpl :=
  repeat match goal with
         | |- context [Z.eqb ?a ?b] =>
             let r := eval vm_compute in (Z.eqb a b) in
             lazymatch r with
             | true => change (Z.eqb a b) with true
             | false => change (Z.eqb a b) with false
             end
         end;
  cbn [orb]; cbv iota.

(** Computes the register numbers. *)
Ltac index_simpl :=
  change (Z.to_nat 0) with 0%nat in *; change (Z.to_nat 1) with 1%nat in *;
  change (Z.to_nat 2) with 2%nat in *; change (Z.to_nat 3) with 3%nat in *;
  change (Z.to_nat 4) with 4%nat in *; change (Z.to_nat 5) with 5%nat in *.

Section Mcu_protocol.

Context {card : Type}.
Variable card_read : card -> Z -> Z.
Variable card_write : card -> Z -> Z -> card.

Abbreviation state := (@pgm2_state card).
Abbreviation mcu_switch' := (mcu_switch card_read card_write).
Abbreviation mcu_command' := (mcu_command card_read card_write).
Abbreviation mcu_w' := (mcu_w card_read card_write).

Implicit Types st : state.

Lemma mcu_reg_get st (k : Z) :
  mailbox_ok st -> 0 <= k < 8 ->
  aget (m_mcu_regs st) k = Done (mcu_reg st (Z.to_nat k)).
Proof.
  intros Hok Hk. apply aget_ok. rewrite Hok. lia.
Qed.

Lemma mcu_reg_set st (k v : Z) :
  mailbox_ok st -> 0 <= k < 8 ->
  aset (m_mcu_regs st) k v = Done (<[Z.to_nat k := v]> (m_mcu_regs st)).
Proof.
  intros Hok Hk. apply aset_ok. rewrite Hok. lia.
Qed.

(** What every issue does around the switch. *)
Lemma mcu_command_issue st :
  mailbox_ok st ->
  mcu_command' true st =
  '(st1, status, delay) ←
     mcu_switch' (to_u8 (mcu_reg st 0))
       (set_m_mcu_last_cmd (to_u8 (mcu_reg st 0)) st);
  r3 ← aget (m_mcu_regs st1) 3;
  regs ← aset (m_mcu_regs st1) 3 (with_status r3 status);
  mret (set_m_mcu_timer (Some (from_msec delay)) (set_m_mcu_regs regs st1)).
Proof.
  intros Hok. unfold mcu_command.
  rewrite (mcu_reg_get st 0) by (assumption || lia).
  state_simpl. rewrite to_u8_idem. reflexivity.
Qed.

Lemma mcu_switch_f6 st :
  mailbox_ok st ->
  mcu_switch' 0xf6 st =
  Done (set_m_mcu_last_cmd 0
          (set_m_mcu_regs
             (<[4%nat := m_mcu_result1 st]>
                (<[3%nat := m_mcu_result0 st]> (m_mcu_regs st))) st),
        0xf7, 1).
Proof.
  intros Hok. unfold mcu_switch.
  rewrite (mcu_reg_get st 0) by (assumption || lia). state_simpl.
  change (0xf6 =? 0xf6) with true. cbv iota.
  rewrite (mcu_reg_set st 3) by (assumption || lia). state_simpl.
  rewrite aset_ok by (rewrite length_insert, Hok; lia).
  reflexivity.
Qed.

Lemma mcu_switch_e0 st :
  mailbox_ok st ->
  mcu_switch' 0xe0 st =
  Done (set_m_mcu_result1 (mcu_reg st 1)
          (set_m_mcu_result0 (mcu_reg st 0) st), 0xf7, 30).
Proof.
  intros Hok. unfold mcu_switch.
  rewrite (mcu_reg_get st 0) by (assumption || lia). state_simpl.
  change (0xe0 =? 0xf6) with false. change (0xe0 =? 0xe0) with true.
  cbv iota.
  rewrite (mcu_reg_get st 1) by (assumption || lia). reflexivity.
Qed.

Lemma mcu_switch_default (cmd : Z) st :
  mailbox_ok st -> cmd ∉ known_commands ->
  mcu_switch' cmd st =
  Done (set_logerror_out
          (logerror_out st ++
             [MCU_unknown_command (mcu_reg st 0) (mcu_reg st 1)]) st,
        0xf4, 1).
Proof.
  intros Hok Hcmd. unfold mcu_switch, known_commands in *.
  rewrite (mcu_reg_get st 0) by (assumption || lia). state_simpl.
  repeat (apply not_elem_of_cons in Hcmd; destruct Hcmd as [? Hcmd]).
  repeat match goal with
         | H : cmd <> ?k |- _ =>
             apply Z.eqb_neq in H; rewrite H; clear H
         end.
  cbn [orb]. cbv iota.
  rewrite (mcu_reg_get st 1) by (assumption || lia). reflexivity.
Qed.

(** The state an issue ends in, given what the switch leaves. *)
Lemma mcu_command_finish st st1 (status delay : Z) :
  mailbox_ok st -> mailbox_ok st1 ->
  mcu_switch' (to_u8 (mcu_reg st 0))
    (set_m_mcu_last_cmd (to_u8 (mcu_reg st 0)) st) =
    Done (st1, status, delay) ->
  mcu_command' true st =
  Done (set_m_mcu_timer (Some (from_msec delay))
          (set_m_mcu_regs
             (<[3%nat := with_status (mcu_reg st1 3) status]> (m_mcu_regs st1))
             st1)).
Proof.
  intros Hok Hok1 Hswitch. rewrite mcu_command_issue by exact Hok.
  rewrite Hswitch. state_simpl.
  rewrite (mcu_reg_get st1 3) by (assumption || lia). state_simpl.
  rewrite (mcu_reg_set st1 3) by (assumption || lia). reflexivity.
Qed.

Lemma mcu_command_e0 st :
  mailbox_ok st -> to_u8 (mcu_reg st 0) = 0xe0 ->
  mcu_command' true st =
  Done (set_m_mcu_timer (Some (from_msec 30))
          (set_m_mcu_regs
             (<[3%nat := with_status (mcu_reg st 3) 0xf7]> (m_mcu_regs st))
             (set_m_mcu_result1 (mcu_reg st 1)
                (set_m_mcu_result0 (mcu_reg st 0)
                   (set_m_mcu_last_cmd 0xe0 st))))).
Proof.
  intros Hok Hcmd.
  pose proof (mcu_switch_e0 (set_m_mcu_last_cmd 0xe0 st) Hok) as Hsw.
  rewrite <- Hcmd in Hsw.
  rewrite (fun H1 => mcu_command_finish st _ _ _ Hok H1 Hsw) by exact Hok.
  rewrite Hcmd. reflexivity.
Qed.

Lemma mcu_command_f6 st :
  mailbox_ok st -> to_u8 (mcu_reg st 0) = 0xf6 ->
  mcu_command' true st =
  Done (set_m_mcu_timer (Some (from_msec 1))
          (set_m_mcu_regs
             (<[3%nat := with_status (m_mcu_result0 st) 0xf7]>
                (<[4%nat := m_mcu_result1 st]>
                   (<[3%nat := m_mcu_result0 st]> (m_mcu_regs st))))
             (set_m_mcu_last_cmd 0 st))).
Proof.
  intros Hok Hcmd.
  pose proof (mcu_switch_f6 (set_m_mcu_last_cmd 0xf6 st) Hok) as Hsw.
  rewrite <- Hcmd in Hsw.
  rewrite (fun H1 => mcu_command_finish st _ _ _ Hok H1 Hsw).
  - unfold mcu_reg. state_simpl.
    rewrite nth_insert_ne by lia.
    rewrite nth_insert_eq by (rewrite Hok; lia). reflexivity.
  - unfold mailbox_ok in *. state_simpl. rewrite !length_insert. exact Hok.
Qed.

Lemma mcu_command_unknown st :
  mailbox_ok st -> to_u8 (mcu_reg st 0) ∉ known_commands ->
  mcu_command' true st =
  Done (set_m_mcu_timer (Some (from_msec 1))
          (set_m_mcu_regs
             (<[3%nat := with_status (mcu_reg st 3) 0xf4]> (m_mcu_regs st))
             (set_logerror_out
                (logerror_out st ++
                   [MCU_unknown_command (mcu_reg st 0) (mcu_reg st 1)])
                (set_m_mcu_last_cmd (to_u8 (mcu_reg st 0)) st)))).
Proof.
  intros Hok Hcmd.
  pose proof (mcu_switch_default _
                (set_m_mcu_last_cmd (to_u8 (mcu_reg st 0)) st) Hok Hcmd)
    as Hsw.
  rewrite (fun H1 => mcu_command_finish st _ _ _ Hok H1 Hsw) by exact Hok.
  reflexivity.
Qed.

Lemma mcu_command_ack_pending st :
  mailbox_ok st -> m_mcu_last_cmd st <> 0 ->
  mcu_command' false st =
  Done (set_m_mcu_last_cmd 0
          (set_m_mcu_timer (Some (from_usec 100))
             (set_m_mcu_regs
                (<[3%nat := with_status (mcu_reg st 3) 0xf2]> (m_mcu_regs st))
                st))).
Proof.
  intros Hok Hcmd. unfold mcu_command.
  rewrite (mcu_reg_get st 0) by (assumption || lia). state_simpl.
  apply Z.eqb_neq in Hcmd. rewrite Hcmd.
  rewrite (mcu_reg_get st 3) by (assumption || lia). state_simpl.
  rewrite (mcu_reg_set st 3) by (assumption || lia). reflexivity.
Qed.

Lemma mcu_command_ack_idle st :
  mailbox_ok st -> m_mcu_last_cmd st = 0 -> mcu_command' false st = Done st.
Proof.
  intros Hok Hcmd. unfold mcu_command.
  rewrite (mcu_reg_get st 0) by (assumption || lia). state_simpl.
  rewrite Hcmd. reflexivity.
Qed.

(** *** Writes to the mailbox *)

Lemma outcome_bind_ret {A : Type} (m : outcome A) : (a ← m; mret a) = m.
Proof. destruct m; reflexivity. Qed.

(** A write to the issue strobe (register 2) that leaves it nonzero runs the
    dispatcher on the mailbox with the strobe stored. *)
Lemma mcu_w_issue (offset data mem_mask : Z) st :
  mailbox_ok st -> Z.land (Z.shiftr offset 15) 7 = 2 ->
  COMBINE_DATA (mcu_reg st 2) data mem_mask <> 0 ->
  mcu_w' offset data mem_mask st =
  mcu_command' true
    (set_m_mcu_regs
       (<[2%nat := COMBINE_DATA (mcu_reg st 2) data mem_mask]> (m_mcu_regs st))
       st).
Proof.
  intros Hok Hreg Hv. unfold mcu_w. rewrite Hreg.
  rewrite (mcu_reg_get st 2) by (assumption || lia). state_simpl.
  rewrite (mcu_reg_set st 2) by (assumption || lia). state_simpl. change (2 =? 2) with true. change (2 =? 5) with false.
  cbv iota.
  rewrite aget_ok by (rewrite length_insert, Hok; lia). state_simpl.
  index_simpl. rewrite nth_insert_eq by (rewrite Hok; lia).
  apply Z.eqb_neq in Hv. rewrite Hv.
  apply outcome_bind_ret.
Qed.

(** A write to the acknowledge strobe (register 5) that leaves it nonzero
    runs the "next step" path with the strobe stored. *)
Lemma mcu_w_ack (offset data mem_mask : Z) st :
  mailbox_ok st -> Z.land (Z.shiftr offset 15) 7 = 5 ->
  COMBINE_DATA (mcu_reg st 5) data mem_mask <> 0 ->
  mcu_w' offset data mem_mask st =
  mcu_command' false
    (set_m_mcu_regs
       (<[5%nat := COMBINE_DATA (mcu_reg st 5) data mem_mask]> (m_mcu_regs st))
       st).
Proof.
  intros Hok Hreg Hv. unfold mcu_w. rewrite Hreg.
  rewrite (mcu_reg_get st 5) by (assumption || lia). state_simpl.
  rewrite (mcu_reg_set st 5) by (assumption || lia). state_simpl. change (5 =? 2) with false. change (5 =? 5) with true.
  cbv iota. state_simpl.
  rewrite aget_ok by (rewrite length_insert, Hok; lia). state_simpl.
  index_simpl. rewrite nth_insert_eq by (rewrite Hok; lia).
  apply Z.eqb_neq in Hv. rewrite Hv. reflexivity.
Qed.

Lemma mailbox_ok_strobe st (k : nat) (v : Z) :
  mailbox_ok st -> mailbox_ok (set_m_mcu_regs (<[k := v]> (m_mcu_regs st)) st).
Proof.
  unfold mailbox_ok. state_simpl. rewrite length_insert. tauto.
Qed.

Lemma mcu_reg_strobe st (k j : nat) (v : Z) :
  k <> j ->
  mcu_reg (set_m_mcu_regs (<[k := v]> (m_mcu_regs st)) st) j = mcu_reg st j.
Proof.
  intros Hne. unfold mcu_reg. state_simpl. apply nth_insert_ne. exact Hne.
Qed.

(** C4. An issue of command 0xE0 sets result0 to the command register and
    result1 to the auxiliary register, and arms the completion timer for 30
    milliseconds: the dispatch raises no interrupt, none is raised while
    less than that has passed, and the completion interrupt 0x46 is raised
    when it has. *)
Theorem mcu_issue_e0 (offset data mem_mask : Z) st :
  mailbox_ok st ->
  Z.land (Z.shiftr offset 15) 7 = 2 ->
  COMBINE_DATA (mcu_reg st 2) data mem_mask <> 0 ->
  to_u8 (mcu_reg st 0) = 0xe0 ->
  exists st',
    mcu_w' offset data mem_mask st = Done st' /\
    m_mcu_result0 st' = mcu_reg st 0 /\
    m_mcu_result1 st' = mcu_reg st 1 /\
    m_mcu_timer st' = Some (from_msec 30) /\
    m_arm_aic st' = m_arm_aic st /\
    (forall dt, 0 <= dt < from_msec 30 ->
       m_arm_aic (machine_run dt st') = m_arm_aic st) /\
    m_arm_aic (machine_run (from_msec 30) st') = m_arm_aic st ++ [0x46].
Proof.
  intros Hok Hreg Hv Hcmd.
  rewrite mcu_w_issue by assumption.
  rewrite mcu_command_e0;
    [|apply mailbox_ok_strobe; exact Hok
     |rewrite mcu_reg_strobe by lia; exact Hcmd].
  rewrite !mcu_reg_strobe by lia.
  eexists. split; [reflexivity|]. state_simpl.
  repeat (split; [reflexivity|]). split.
  - intros dt Hdt. unfold machine_run. state_simpl.
    destruct (Z.leb_spec (from_msec 30) dt); [lia|]. reflexivity.
  - unfold machine_run. state_simpl.
    rewrite Z.leb_refl. reflexivity.
Qed.

(** C5, as the code has it. An issue of command 0xF6 copies result1 into
    mailbox register 4 and result0 into mailbox register 3, where the
    status byte 0xF7 ("command accepted") then replaces bits 16-23; it
    clears lastCommand, keeps result0 and result1, touches no card and arms
    the timer for 1 millisecond. *)
Theorem mcu_issue_f6 (offset data mem_mask : Z) st :
  mailbox_ok st ->
  Z.land (Z.shiftr offset 15) 7 = 2 ->
  COMBINE_DATA (mcu_reg st 2) data mem_mask <> 0 ->
  to_u8 (mcu_reg st 0) = 0xf6 ->
  exists st',
    mcu_w' offset data mem_mask st = Done st' /\
    mcu_reg st' 3 = with_status (m_mcu_result0 st) 0xf7 /\
    mcu_status st' = 0xf7 /\
    mcu_reg st' 4 = m_mcu_result1 st /\
    m_mcu_last_cmd st' = 0 /\
    m_mcu_result0 st' = m_mcu_result0 st /\
    m_mcu_result1 st' = m_mcu_result1 st /\
    (forall k, m_memcard_device k st' = m_memcard_device k st) /\
    m_mcu_timer st' = Some (from_msec 1).
Proof.
  intros Hok Hreg Hv Hcmd.
  rewrite mcu_w_issue by assumption.
  rewrite mcu_command_f6;
    [|apply mailbox_ok_strobe; exact Hok
     |rewrite mcu_reg_strobe by lia; exact Hcmd].
  eexists. split; [reflexivity|].
  assert (Hr3 : forall x y z v (l : list Z), length l = 8%nat ->
            nth 3 (<[3%nat := v]> (<[4%nat := x]> (<[3%nat := y]>
                     (<[2%nat := z]> l)))) 0 = v).
  { intros. apply nth_insert_eq. rewrite !length_insert. lia. }
  unfold mcu_status, mcu_reg. state_simpl.
  rewrite Hr3 by exact Hok.
  split; [reflexivity|].
  split; [apply status_of_with_status; lia|].
  split.
  { rewrite nth_insert_ne by lia. apply nth_insert_eq.
    rewrite !length_insert, Hok. lia. }
  repeat split.
Qed.

(** C6. An issue of a command byte that has no case completes: it writes
    the error status 0xF4 into bits 16-23 of mailbox register 3, keeps
    result0 and result1, emits one log line and arms the timer (for 1
    millisecond). *)
Theorem mcu_issue_unknown (offset data mem_mask : Z) st :
  mailbox_ok st ->
  Z.land (Z.shiftr offset 15) 7 = 2 ->
  COMBINE_DATA (mcu_reg st 2) data mem_mask <> 0 ->
  to_u8 (mcu_reg st 0) ∉ known_commands ->
  exists st',
    mcu_w' offset data mem_mask st = Done st' /\
    mcu_reg st' 3 = with_status (mcu_reg st 3) 0xf4 /\
    mcu_status st' = 0xf4 /\
    m_mcu_result0 st' = m_mcu_result0 st /\
    m_mcu_result1 st' = m_mcu_result1 st /\
    logerror_out st' =
      logerror_out st ++ [MCU_unknown_command (mcu_reg st 0) (mcu_reg st 1)] /\
    m_mcu_timer st' = Some (from_msec 1) /\
    m_mcu_last_cmd st' = to_u8 (mcu_reg st 0).
Proof.
  intros Hok Hreg Hv Hcmd.
  rewrite mcu_w_issue by assumption.
  rewrite mcu_command_unknown;
    [|apply mailbox_ok_strobe; exact Hok
     |rewrite mcu_reg_strobe by lia; exact Hcmd].
  rewrite !mcu_reg_strobe by lia.
  eexists. split; [reflexivity|].
  assert (Hr3 : mcu_reg
                  (set_m_mcu_timer (Some (from_msec 1))
                     (set_m_mcu_regs
                        (<[3%nat := with_status (mcu_reg st 3) 0xf4]>
                           (<[2%nat := COMBINE_DATA (mcu_reg st 2) data mem_mask]>
                              (m_mcu_regs st)))
                        (set_logerror_out
                           (logerror_out st ++
                              [MCU_unknown_command (mcu_reg st 0) (mcu_reg st 1)])
                           (set_m_mcu_last_cmd (to_u8 (mcu_reg st 0))
                              (set_m_mcu_regs
                                 (<[2%nat := COMBINE_DATA (mcu_reg st 2) data mem_mask]>
                                    (m_mcu_regs st)) st))))) 3
                = with_status (mcu_reg st 3) 0xf4).
  { unfold mcu_reg at 1. state_simpl. apply nth_insert_eq.
    rewrite length_insert, Hok. lia. }
  unfold mcu_status. state_simpl. rewrite Hr3.
  split; [reflexivity|].
  split; [apply status_of_with_status; lia|].
  repeat split.
Qed.

(** C7, as the code has it. A write to the acknowledge register (register
    5) that leaves it nonzero stores the written value there.  With a
    command pending (lastCommand nonzero) it then puts the "done" code 0xF2
    into bits 16-23 of register 3, arms the timer for 100 microseconds and
    clears lastCommand.  With none pending it does nothing more: every
    register but the acknowledge register itself, and all other state, is
    as before (so a write of the value the register already holds changes
    nothing at all). *)
Theorem mcu_ack_write (offset data mem_mask : Z) st :
  mailbox_ok st ->
  Z.land (Z.shiftr offset 15) 7 = 5 ->
  COMBINE_DATA (mcu_reg st 5) data mem_mask <> 0 ->
  let v := COMBINE_DATA (mcu_reg st 5) data mem_mask in
  let st1 := set_m_mcu_regs (<[5%nat := v]> (m_mcu_regs st)) st in
  (m_mcu_last_cmd st <> 0 ->
   exists st',
     mcu_w' offset data mem_mask st = Done st' /\
     st' = set_m_mcu_last_cmd 0
             (set_m_mcu_timer (Some (from_usec 100))
                (set_m_mcu_regs
                   (<[3%nat := with_status (mcu_reg st 3) 0xf2]>
                      (m_mcu_regs st1)) st1)) /\
     mcu_status st' = 0xf2 /\
     m_mcu_timer st' = Some (from_usec 100) /\
     m_mcu_last_cmd st' = 0) /\
  (m_mcu_last_cmd st = 0 ->
   mcu_w' offset data mem_mask st = Done st1) /\
  mcu_reg st1 5 = v /\
  (forall j, j <> 5%nat -> mcu_reg st1 j = mcu_reg st j) /\
  (mcu_reg st 5 = v -> st1 = st).
Proof.
  intros Hok Hreg Hv v st1.
  assert (Hok1 : mailbox_ok st1) by (apply mailbox_ok_strobe; exact Hok).
  split; [|split; [|split; [|split]]].
  - intros Hpending.
    rewrite mcu_w_ack by assumption. fold v. fold st1.
    rewrite mcu_command_ack_pending by assumption.
    replace (mcu_reg st1 3) with (mcu_reg st 3)
      by (symmetry; apply mcu_reg_strobe; lia).
    eexists. split; [reflexivity|]. split; [reflexivity|].
    split; [|split; reflexivity].
    unfold mcu_status, mcu_reg. state_simpl.
    rewrite nth_insert_eq by (unfold mailbox_ok in Hok1; lia).
    apply status_of_with_status. lia.
  - intros Hidle.
    rewrite mcu_w_ack by assumption. fold v. fold st1.
    apply mcu_command_ack_idle; assumption.
  - unfold mcu_reg. subst st1. state_simpl.
    apply nth_insert_eq. rewrite Hok. lia.
  - intros j Hj. apply mcu_reg_strobe. lia.
  - intros Hsame. subst st1. unfold mcu_reg in Hsame.
    rewrite list_insert_id.
    + destruct st. reflexivity.
    + destruct (nth_lookup_or_length (m_mcu_regs st) 5 0) as [Hl|Hl];
        [rewrite Hl, Hsame; reflexivity|].
      unfold mailbox_ok in Hok. lia.
Qed.

End Mcu_protocol.

Lemma mcu_issue_e0_witness :
  exists st',
    mcu_w byte_card_read byte_card_write issue_offset 1 0xffffffff
      (mailbox_with 0x123456e0 0x9abcdef0) = Done st' /\
    m_mcu_result0 st' = 0x123456e0 /\
    m_mcu_result1 st' = 0x9abcdef0 /\
    m_mcu_timer st' = Some (from_msec 30) /\
    m_arm_aic st' = [] /\
    (forall dt, 0 <= dt < from_msec 30 -> m_arm_aic (machine_run dt st') = []) /\
    m_arm_aic (machine_run (from_msec 30) st') = [0x46].
Proof.
  apply (mcu_issue_e0 byte_card_read byte_card_write issue_offset 1 0xffffffff
           (mailbox_with 0x123456e0 0x9abcdef0)).
  - reflexivity.
  - reflexivity.
  - discriminate.
  - reflexivity.
Defined.

Lemma mcu_issue_f6_witness :
  exists st',
    mcu_w byte_card_read byte_card_write issue_offset 1 0xffffffff
      (set_m_mcu_result1 0x0000beef
         (set_m_mcu_result0 0x000000c0 (mailbox_with 0xf6 0))) = Done st' /\
    mcu_reg st' 3 = 0x00f700c0 /\
    mcu_reg st' 4 = 0x0000beef /\
    m_mcu_last_cmd st' = 0.
Proof.
  destruct (mcu_issue_f6 byte_card_read byte_card_write issue_offset 1
              0xffffffff
              (set_m_mcu_result1 0x0000beef
                 (set_m_mcu_result0 0x000000c0 (mailbox_with 0xf6 0))))
    as (st' & Hrun & Hr3 & _ & Hr4 & Hlast & _).
  - reflexivity.
  - reflexivity.
  - discriminate.
  - reflexivity.
  - exists st'. repeat split; assumption.
Defined.

(** Against C5 as stated: after an issue of 0xF6 with result0 = 0x12345678,
    mailbox register 3 holds 0x12F75678, not result0. *)
Lemma mcu_issue_f6_reg3_is_not_result0 :
  exists st',
    mcu_w byte_card_read byte_card_write issue_offset 1 0xffffffff
      (set_m_mcu_result0 0x12345678 (mailbox_with 0xf6 0)) = Done st' /\
    m_mcu_result0 st' = 0x12345678 /\
    mcu_reg st' 3 = 0x12F75678 /\
    mcu_reg st' 3 <> m_mcu_result0 st'.
Proof.
  eexists. split; [vm_compute; reflexivity|].
  split; [reflexivity|]. split; [reflexivity|].
  intros H. vm_compute in H. discriminate H.
Qed.

Lemma mcu_issue_unknown_witness :
  exists st',
    mcu_w byte_card_read byte_card_write issue_offset 1 0xffffffff
      (set_m_mcu_result1 22 (set_m_mcu_result0 11 (mailbox_with 0xff 5)))
      = Done st' /\
    mcu_status st' = 0xf4 /\
    m_mcu_result0 st' = 11 /\
    m_mcu_result1 st' = 22 /\
    logerror_out st' = [MCU_unknown_command 0xff 5] /\
    m_mcu_timer st' = Some (from_msec 1).
Proof.
  destruct (mcu_issue_unknown byte_card_read byte_card_write issue_offset 1
              0xffffffff
              (set_m_mcu_result1 22
                 (set_m_mcu_result0 11 (mailbox_with 0xff 5))))
    as (st' & Hrun & _ & Hst & Hr0 & Hr1 & Hlog & Htimer & _).
  - reflexivity.
  - reflexivity.
  - discriminate.
  - unfold known_commands.
    repeat (apply not_elem_of_cons; split; [discriminate|]).
    apply not_elem_of_nil.
  - exists st'. repeat split; assumption.
Defined.

Lemma mcu_ack_write_witness :
  (exists st',
     mcu_w byte_card_read byte_card_write ack_offset 1 0xffffffff
       (set_m_mcu_last_cmd 0xc1 (mailbox_with 0xc1 0)) = Done st' /\
     mcu_status st' = 0xf2 /\
     m_mcu_timer st' = Some (from_usec 100) /\
     m_mcu_last_cmd st' = 0) /\
  mcu_w byte_card_read byte_card_write ack_offset 1 0xffffffff
    (mailbox_with 0xc1 0) =
  Done (set_m_mcu_regs [0xc1; 0; 0; 0; 0; 1; 0; 0] (mailbox_with 0xc1 0)).
Proof.
  split.
  - destruct (mcu_ack_write byte_card_read byte_card_write ack_offset 1
                0xffffffff (set_m_mcu_last_cmd 0xc1 (mailbox_with 0xc1 0)))
      as (Hpending & _).
    + reflexivity.
    + reflexivity.
    + discriminate.
    + destruct Hpending as (st' & Hrun & _ & Hst & Htimer & Hlast).
      * discriminate.
      * exists st'. repeat split; assumption.
  - destruct (mcu_ack_write byte_card_read byte_card_write ack_offset 1
                0xffffffff (mailbox_with 0xc1 0))
      as (_ & Hidle & _).
    + reflexivity.
    + reflexivity.
    + discriminate.
    + apply Hidle. reflexivity.
Defined.

(** Against C7 as stated: with no command pending, a write of 1 to the
    acknowledge register changes the register bank (register 5 now holds
    1). *)
Lemma mcu_ack_idle_changes_register :
  m_mcu_last_cmd (mailbox_with 0xc1 0) = 0 /\
  exists st',
    mcu_w byte_card_read byte_card_write ack_offset 1 0xffffffff
      (mailbox_with 0xc1 0) = Done st' /\
    m_mcu_regs (mailbox_with 0xc1 0) = [0xc1; 0; 0; 0; 0; 0; 0; 0] /\
    m_mcu_regs st' = [0xc1; 0; 0; 0; 0; 1; 0; 0] /\
    m_mcu_regs st' <> m_mcu_regs (mailbox_with 0xc1 0).
Proof.
  split; [reflexivity|].
  eexists. split; [reflexivity|].
  split; [reflexivity|]. split; [reflexivity|]. discriminate.
Qed.

(** ** Counted loops over a buffer *)

Lemma visited_none (start step j : Z) :
  0 < step -> visited start step 0 j = false.
Proof.
  intros Hstep. unfold visited.
  destruct (Z.leb_spec start j); [|reflexivity]. simpl.
  assert (0 <= (j - start) / step) by (apply Z.div_pos; lia).
  destruct (Z.ltb_spec ((j - start) / step) (Z.of_nat 0)); [lia|].
  apply andb_false_r.
Qed.

Lemma visited_first (start step : Z) (n : nat) :
  0 < step -> visited start step (S n) start = true.
Proof.
  intros Hstep. unfold visited. rewrite Z.sub_diag, Z.leb_refl.
  rewrite Z.mod_0_l, Z.div_0_l by lia. simpl. apply Z.ltb_lt. lia.
Qed.

Lemma visited_next (start step : Z) (n : nat) (j : Z) :
  0 < step -> j <> start ->
  visited (start + step) step n j = visited start step (S n) j.
Proof.
  intros Hstep Hne. unfold visited.
  replace (j - (start + step)) with (j - start + (-1) * step) by lia.
  rewrite Z.mod_add, Z.div_add by lia.
  destruct (Z.eqb_spec ((j - start) mod step) 0) as [Hmod|Hmod].
  - assert (Hdiv : j - start = step * ((j - start) / step))
      by (apply Z.div_exact; lia).
    destruct (Z.leb_spec (start + step) j), (Z.leb_spec start j);
      simpl; try lia.
    + destruct (Z.ltb_spec ((j - start) / step + -1) (Z.of_nat n)),
               (Z.ltb_spec ((j - start) / step) (Z.of_nat (S n)));
        try reflexivity; lia.
    + assert ((j - start) / step = 0) by nia.
      nia.
  - rewrite !andb_false_r. reflexivity.
Qed.

Lemma visited_for_loop (start stop step j : Z) :
  0 < step ->
  visited start step (trip_count start stop step) j =
  (start <=? j) && ((j - start) mod step =? 0) && (j <? stop).
Proof.
  intros Hstep. unfold visited, trip_count.
  destruct (Z.leb_spec start j); [|reflexivity].
  destruct (Z.eqb_spec ((j - start) mod step) 0) as [Hmod|Hmod];
    [|reflexivity].
  simpl.
  assert (Hdiv : j - start = step * ((j - start) / step))
    by (apply Z.div_exact; lia).
  set (q := (j - start) / step) in *.
  assert (0 <= q) by nia.
  destruct (Z.ltb_spec j stop) as [Hlt|Hge].
  - apply Z.ltb_lt.
    assert (q < (stop - start + step - 1) / step).
    { apply Z.div_le_lower_bound with (q := q + 1) (a := stop - start + step - 1) (b := step) in Hstep as Hq; nia. }
    lia.
  - apply Z.ltb_ge.
    assert ((stop - start + step - 1) / step <= q).
    { destruct (Z.le_gt_cases (stop - start + step - 1) (-1)).
      - assert ((stop - start + step - 1) / step < 0)
          by (apply Z.div_lt_upper_bound; nia). lia.
      - assert ((stop - start + step - 1) / step < q + 1)
          by (apply Z.div_lt_upper_bound; nia). lia. }
    lia.
Qed.

Lemma map_visited_length (f : Z -> Z -> Z) (start step : Z) (n : nat)
    (rom : list Z) :
  length (map_visited f start step n rom) = length rom.
Proof. apply length_imap. Qed.

Lemma map_visited_lookup (f : Z -> Z -> Z) (start step : Z) (n : nat)
    (rom : list Z) (k : nat) :
  map_visited f start step n rom !! k =
  (fun w => if visited start step n (Z.of_nat k) then f (Z.of_nat k) w else w)
    <$> rom !! k.
Proof. unfold map_visited. apply list_lookup_imap. Qed.

(** A loop that rewrites the word at its index visits what [visited] says
    and leaves the rest, provided its last index is inside the buffer. *)
Lemma iterate_pointwise (f : Z -> Z -> Z) (step : Z) (n : nat) :
  0 < step ->
  forall (i : Z) (rom : list Z),
    0 <= i ->
    (n <> 0%nat -> i + (Z.of_nat n - 1) * step < Z.of_nat (length rom)) ->
    iterate n i step (fun j rom => w ← aget rom j; aset rom j (f j w)) rom =
    Done (map_visited f i step n rom).
Proof.
  intros Hstep. induction n as [|n IH]; intros i rom Hi Hlast.
  - simpl. f_equal. apply list_eq. intros k.
    rewrite map_visited_lookup, visited_none by exact Hstep.
    destruct (rom !! k); reflexivity.
  - assert (Hin : 0 <= i < Z.of_nat (length rom)) by nia.
    cbn [iterate]. rewrite aget_ok by exact Hin.
    cbn [mbind outcome_bind]. rewrite aset_ok by exact Hin.
    cbn [mbind outcome_bind].
    rewrite IH; [|lia|rewrite length_insert; nia].
    f_equal. apply list_eq. intros k.
    rewrite !map_visited_lookup.
    destruct (Nat.eq_dec k (Z.to_nat i)) as [->|Hk].
    + rewrite list_lookup_insert_eq by lia.
      rewrite Z2Nat.id by lia.
      rewrite visited_first by exact Hstep.
      assert (Hnot : visited (i + step) step n i = false).
      { unfold visited. destruct (Z.leb_spec (i + step) i); [lia|reflexivity]. }
      rewrite Hnot.
      destruct (nth_lookup_or_length rom (Z.to_nat i) 0) as [Hl|Hl]; [|lia].
      rewrite Hl. reflexivity.
    + rewrite list_lookup_insert_ne by lia.
      rewrite visited_next by lia. reflexivity.
Qed.

Lemma for_loop_pointwise (f : Z -> Z -> Z) (start stop step : Z)
    (rom : list Z) :
  0 < step -> 0 <= start -> stop <= Z.of_nat (length rom) ->
  for_loop start stop step (fun j rom => w ← aget rom j; aset rom j (f j w))
    rom =
  Done (map_visited f start step (trip_count start stop step) rom).
Proof.
  intros Hstep Hstart Hstop. unfold for_loop.
  apply iterate_pointwise; [exact Hstep|exact Hstart|].
  intros Hn.
  pose proof (visited_for_loop start stop step
                (start + (Z.of_nat (trip_count start stop step) - 1) * step)
                Hstep) as Hv.
  assert (Hin : visited start step (trip_count start stop step)
                  (start + (Z.of_nat (trip_count start stop step) - 1) * step)
                = true).
  { unfold visited.
    replace (start + (Z.of_nat (trip_count start stop step) - 1) * step - start)
      with ((Z.of_nat (trip_count start stop step) - 1) * step) by lia.
    rewrite Z.mod_mul, Z.div_mul by lia.
    apply andb_true_intro. split; [apply andb_true_intro; split|].
    - apply Z.leb_le. nia.
    - reflexivity.
    - apply Z.ltb_lt. lia. }
  rewrite Hin in Hv. symmetry in Hv.
  apply andb_true_iff in Hv. destruct Hv as [_ Hlt].
  apply Z.ltb_lt in Hlt. lia.
Qed.

(** ** The colour repack *)

Lemma testbit_above_16 (w i : Z) :
  0 <= w < 65536 -> 16 <= i -> Z.testbit w i = false.
Proof.
  intros Hw Hi. rewrite <- (Z.mod_small w (2 ^ 16)) by exact Hw.
  apply Z.mod_pow2_bits_high. lia.
Qed.




Lemma sprite_colour_decode_run (rom : list Z) (len : Z) :
  Z.quot len 2 <= Z.of_nat (length rom) ->
  sprite_colour_decode rom len =
  Done (map_visited (fun _ w => BITSWAP16_colour w) 0 1
          (trip_count 0 (Z.quot len 2) 1) rom).
Proof.
  intros Hlen. unfold sprite_colour_decode.
  apply (for_loop_pointwise (fun _ w => BITSWAP16_colour w)); lia.
Qed.







(** ** Shared RAM *)

Lemma land_1_b2z (x : Z) : Z.land x 1 = Z.b2z (Z.testbit x 0).
Proof.
  change 1 with (Z.ones 1). rewrite Z.land_ones by lia.
  change (2 ^ 1) with 2. symmetry. apply Z.bit0_mod.
Qed.

(** The selector's low bit picks the CPU's bank, and the MCU's is the other
    one. *)
Lemma bank_bits (bank : Z) :
  (Z.land bank 1 = 0 /\ Z.land (Z.lnot bank) 1 = 1) \/
  (Z.land bank 1 = 1 /\ Z.land (Z.lnot bank) 1 = 0).
Proof.
  rewrite !land_1_b2z, Z.lnot_spec by lia.
  destruct (Z.testbit bank 0); [right|left]; split; reflexivity.
Qed.

Lemma cpu_share_index_range (bank offset : Z) :
  0 <= offset < 128 -> 0 <= cpu_share_index bank offset < 256.
Proof.
  intros Ho. unfold cpu_share_index.
  destruct (bank_bits bank) as [[-> _]|[-> _]]; lia.
Qed.

Lemma mcu_share_index_range (bank i : Z) :
  0 <= i < 128 -> 0 <= mcu_share_index bank i < 256.
Proof.
  intros Hi. unfold mcu_share_index.
  destruct (bank_bits bank) as [[_ ->]|[_ ->]]; lia.
Qed.

(** The two banks do not meet. *)
Lemma share_index_disjoint (bank offset i : Z) :
  0 <= offset < 128 -> 0 <= i < 128 ->
  cpu_share_index bank offset <> mcu_share_index bank i.
Proof.
  intros Ho Hi. unfold cpu_share_index, mcu_share_index.
  destruct (bank_bits bank) as [[-> ->]|[-> ->]]; lia.
Qed.

Lemma iterate_ext {S : Type} (body1 body2 : Z -> S -> outcome S)
    (step : Z) (n : nat) :
  (forall j s, body1 j s = body2 j s) ->
  forall i s, iterate n i step body1 s = iterate n i step body2 s.
Proof.
  intros Hext. induction n as [|n IH]; intros i s; [reflexivity|].
  cbn [iterate]. rewrite Hext. destruct (body2 i s); cbn [mbind outcome_bind].
  - apply IH.
  - reflexivity.
Qed.

(** A loop that stores [h j] at [base + j] is a pointwise loop over the
    indices from [base + i]. *)
Lemma iterate_store_shift (h : Z -> Z) (base : Z) (n : nat) :
  forall (i : Z) (a : list Z),
    0 <= base + i ->
    base + i + Z.of_nat n <= Z.of_nat (length a) ->
    iterate n i 1 (fun j a => aset a (base + j) (h j)) a =
    Done (map_visited (fun k _ => h (k - base)) (base + i) 1 n a).
Proof.
  intros i a Hlow Hhigh.
  rewrite <- iterate_pointwise by lia.
  revert i a Hlow Hhigh.
  induction n as [|n IH]; intros i a Hlow Hhigh; [reflexivity|].
  cbn [iterate].
  rewrite aget_ok by lia. cbn [mbind outcome_bind].
  replace (base + i - base) with i by lia.
  rewrite aset_ok by lia. cbn [mbind outcome_bind].
  rewrite IH by (rewrite ?length_insert; lia).
  replace (base + (i + 1)) with (base + i + 1) by lia. reflexivity.
Qed.

(** The same loop running past the end of the array stops at the first
    index outside, the array's length. *)
Lemma iterate_store_overrun (h : Z -> Z) (base : Z) (n : nat) :
  forall (i : Z) (a : list Z),
    0 <= base + i <= Z.of_nat (length a) ->
    Z.of_nat (length a) < base + i + Z.of_nat n ->
    iterate n i 1 (fun j a => aset a (base + j) (h j)) a =
    OutOfRange (Z.of_nat (length a)).
Proof.
  induction n as [|n IH]; intros i a Hlow Hhigh; [lia|].
  cbn [iterate].
  destruct (Z.eq_dec (base + i) (Z.of_nat (length a))) as [Heq|Hne].
  - rewrite aset_out by lia. cbn [mbind outcome_bind]. f_equal. exact Heq.
  - rewrite aset_ok by lia. cbn [mbind outcome_bind].
    rewrite IH by (rewrite ?length_insert; lia).
    rewrite length_insert. reflexivity.
Qed.

Lemma memset_run (a : list Z) (base v n : Z) :
  0 <= base -> 0 <= n -> base + n <= Z.of_nat (length a) ->
  memset a base v n =
  Done (map_visited (fun _ _ => v) base 1 (Z.to_nat n) a).
Proof.
  intros Hbase Hn Hlen. unfold memset, for_loop, trip_count.
  replace ((n - 0 + 1 - 1) / 1) with n by (rewrite Z.div_1_r; lia).
  rewrite (iterate_store_shift (fun _ => v)) by lia.
  rewrite Z.add_0_r. reflexivity.
Qed.

(** Lookup in a buffer whose range [start, start + n) was rewritten. *)
Lemma map_visited_range_lookup (f : Z -> Z -> Z) (start : Z) (n : nat)
    (a : list Z) (k : nat) :
  map_visited f start 1 n a !! k =
  (fun w => if (start <=? Z.of_nat k) && (Z.of_nat k <? start + Z.of_nat n)
            then f (Z.of_nat k) w else w) <$> a !! k.
Proof.
  rewrite map_visited_lookup. unfold visited.
  rewrite Z.mod_1_r, Z.div_1_r. simpl (0 =? 0). rewrite andb_true_r.
  destruct (Z.leb_spec start (Z.of_nat k)); simpl; [|reflexivity].
  destruct (Z.ltb_spec (Z.of_nat k - start) (Z.of_nat n)),
           (Z.ltb_spec (Z.of_nat k) (start + Z.of_nat n));
    try reflexivity; lia.
Qed.

Lemma trip_count_unit (n : Z) : trip_count 0 n 1 = Z.to_nat n.
Proof.
  unfold trip_count. rewrite Z.div_1_r. f_equal. lia.
Qed.

Section Shared_ram.

Context {card : Type}.
Variable card_read : card -> Z -> Z.
Variable card_write : card -> Z -> Z -> card.

Abbreviation state := (@pgm2_state card).
Abbreviation mcu_switch' := (mcu_switch card_read card_write).
Abbreviation mcu_command' := (mcu_command card_read card_write).

Implicit Types st : state.

(** The base of the MCU's bank, [(~m_share_bank & 1) * 128]. *)
Abbreviation mcu_base st := (Z.land (Z.lnot (m_share_bank st)) 1 * 128).

Lemma mcu_base_cases st : mcu_base st = 0 \/ mcu_base st = 128.
Proof.
  destruct (bank_bits (m_share_bank st)) as [[_ ->]|[_ ->]]; [right|left];
    reflexivity.
Qed.

Lemma set_m_shareram_same st : set_m_shareram (m_shareram st) st = st.
Proof. destruct st. reflexivity. Qed.

Lemma memcard_device_set (k : Z) (c : option card) st :
  m_memcard_device k (set_m_memcard_device k c st) = c.
Proof.
  unfold m_memcard_device, set_m_memcard_device.
  destruct (k =? 0); [reflexivity|].
  destruct (k =? 1); [reflexivity|].
  destruct (k =? 2); reflexivity.
Qed.

Lemma set_memcard_device_twice (k : Z) (c1 c2 : option card) st :
  set_m_memcard_device k c2 (set_m_memcard_device k c1 st) =
  set_m_memcard_device k c2 st.
Proof.
  unfold set_m_memcard_device.
  destruct (k =? 0); [reflexivity|].
  destruct (k =? 1); [reflexivity|].
  destruct (k =? 2); reflexivity.
Qed.

Lemma set_memcard_device_same (k : Z) (c : option card) st :
  m_memcard_device k st = c -> set_m_memcard_device k c st = st.
Proof.
  unfold m_memcard_device, set_m_memcard_device. intros <-.
  destruct st.
  destruct (k =? 0); [reflexivity|].
  destruct (k =? 1); [reflexivity|].
  destruct (k =? 2); reflexivity.
Qed.

Lemma set_memcard_device_frame (k : Z) (c : option card) st :
  m_shareram (set_m_memcard_device k c st) = m_shareram st /\
  m_share_bank (set_m_memcard_device k c st) = m_share_bank st /\
  m_mcu_regs (set_m_memcard_device k c st) = m_mcu_regs st.
Proof.
  unfold set_m_memcard_device.
  destruct (k =? 0); [repeat split|].
  destruct (k =? 1); [repeat split|].
  destruct (k =? 2); repeat split.
Qed.

Lemma mcu_c2_step_present (arg1 arg2 i : Z) (c : card) st :
  m_memcard_device (Z.land arg1 3) st = Some c ->
  mcu_c2_step card_read arg1 arg2 i st =
  ram ← aset (m_shareram st) (mcu_base st + i) (card_read c (arg2 + i));
  mret (set_m_shareram ram st).
Proof.
  intros Hcard. unfold mcu_c2_step, mcu_share_index. rewrite Hcard.
  replace (i + mcu_base st) with (mcu_base st + i) by lia. reflexivity.
Qed.

Lemma mcu_c3_step_present (arg1 arg2 i : Z) (c : card) st :
  m_memcard_device (Z.land arg1 3) st = Some c ->
  mcu_c3_step card_write arg1 arg2 i st =
  v ← aget (m_shareram st) (mcu_share_index (m_share_bank st) i);
  mret (set_m_memcard_device (Z.land arg1 3)
          (Some (card_write c (arg2 + i) v)) st).
Proof.
  intros Hcard. unfold mcu_c3_step. rewrite Hcard. reflexivity.
Qed.

(** The loop of [case 0xc2] with a card in the slot is a store loop on the
    shared RAM. *)
Lemma mcu_c2_loop (arg1 arg2 : Z) (c : card) (n : nat) :
  forall (i : Z) st,
    m_memcard_device (Z.land arg1 3) st = Some c ->
    iterate n i 1 (mcu_c2_step card_read arg1 arg2) st =
    ram ← iterate n i 1
            (fun j ram => aset ram (mcu_base st + j) (card_read c (arg2 + j)))
            (m_shareram st);
    mret (set_m_shareram ram st).
Proof.
  induction n as [|n IH]; intros i st Hcard.
  - cbn [iterate mbind outcome_bind mret outcome_ret].
    rewrite set_m_shareram_same. reflexivity.
  - cbn [iterate]. rewrite (mcu_c2_step_present _ _ _ c) by exact Hcard.
    destruct (aset (m_shareram st) (mcu_base st + i) (card_read c (arg2 + i)))
      as [ram1|idx]; cbn [mbind outcome_bind mret outcome_ret];
      [|reflexivity].
    rewrite (IH (i + 1) (set_m_shareram ram1 st)) by exact Hcard.
    state_simpl.
    destruct (iterate n (i + 1) 1 _ ram1); reflexivity.
Qed.

(** The bytes the loop of [case 0xc3] writes to the card, in order. *)
Lemma mcu_c3_loop (arg1 arg2 : Z) (n : nat) :
  forall (i : Z) (c : card) st,
    m_memcard_device (Z.land arg1 3) st = Some c ->
    0 <= mcu_base st + i ->
    mcu_base st + i + Z.of_nat n <= Z.of_nat (length (m_shareram st)) ->
    iterate n i 1 (mcu_c3_step card_write arg1 arg2) st =
    Done (set_m_memcard_device (Z.land arg1 3)
            (Some (foldl
                     (fun c j =>
                        card_write c (arg2 + j)
                          (nth (Z.to_nat (mcu_share_index (m_share_bank st) j))
                             (m_shareram st) 0))
                     c (seqZ i (Z.of_nat n))))
            st).
Proof.
  induction n as [|n IH]; intros i c st Hcard Hlow Hhigh.
  - cbn [iterate seqZ]. simpl. rewrite set_memcard_device_same by exact Hcard.
    reflexivity.
  - cbn [iterate]. rewrite (mcu_c3_step_present _ _ _ c) by exact Hcard.
    rewrite aget_ok by (unfold mcu_share_index; lia).
    cbn [mbind outcome_bind mret outcome_ret].
    set (v := nth (Z.to_nat (mcu_share_index (m_share_bank st) i))
                (m_shareram st) 0).
    destruct (set_memcard_device_frame (Z.land arg1 3)
                (Some (card_write c (arg2 + i) v)) st) as (Hram & Hbank & _).
    rewrite IH with (c := card_write c (arg2 + i) v);
      [|apply memcard_device_set|rewrite Hbank; lia|rewrite Hbank, Hram; lia].
    rewrite set_memcard_device_twice, Hram, Hbank.
    rewrite (seqZ_cons i (Z.of_nat (S n))) by lia.
    replace (Z.pred (Z.of_nat (S n))) with (Z.of_nat n) by lia.
    replace (Z.succ i) with (i + 1) by lia.
    reflexivity.
Qed.

(** Past the end of the shared RAM the loop of [case 0xc3] stops at the
    first index outside. *)
Lemma mcu_c3_loop_overrun (arg1 arg2 : Z) (n : nat) :
  forall (i : Z) (c : card) st,
    m_memcard_device (Z.land arg1 3) st = Some c ->
    0 <= mcu_base st + i <= Z.of_nat (length (m_shareram st)) ->
    Z.of_nat (length (m_shareram st)) < mcu_base st + i + Z.of_nat n ->
    iterate n i 1 (mcu_c3_step card_write arg1 arg2) st =
    OutOfRange (Z.of_nat (length (m_shareram st))).
Proof.
  induction n as [|n IH]; intros i c st Hcard Hlow Hhigh; [lia|].
  cbn [iterate]. rewrite (mcu_c3_step_present _ _ _ c) by exact Hcard.
  unfold aget.
  destruct (Z.eq_dec (mcu_base st + i) (Z.of_nat (length (m_shareram st))))
    as [Heq|Hne].
  - rewrite in_bounds_false by (unfold mcu_share_index; lia).
    cbn [mbind outcome_bind]. f_equal. unfold mcu_share_index. lia.
  - rewrite in_bounds_true by (unfold mcu_share_index; lia).
    cbn [mbind outcome_bind mret outcome_ret].
    set (v := nth (Z.to_nat (mcu_share_index (m_share_bank st) i))
                (m_shareram st) 0).
    destruct (set_memcard_device_frame (Z.land arg1 3)
                (Some (card_write c (arg2 + i) v)) st) as (Hram & Hbank & _).
    rewrite IH with (c := card_write c (arg2 + i) v);
      [|apply memcard_device_set|rewrite Hbank, Hram; lia
       |rewrite Hbank, Hram; lia].
    rewrite Hram. reflexivity.
Qed.

Lemma mcu_switch_c2 st :
  mailbox_ok st ->
  mcu_switch' 0xc2 st =
  st1 ← for_loop 0 (mcu_arg3 st) 1
          (mcu_c2_step card_read (mcu_arg1 st) (mcu_arg2 st)) st;
  mret (set_m_mcu_result0 0xc2 st1, 0xf7, 1).
Proof.
  intros Hok. unfold mcu_switch.
  rewrite (mcu_reg_get st 0) by (assumption || lia). state_simpl.
  switch_simpl. reflexivity.
Qed.

Lemma mcu_switch_c3 st :
  mailbox_ok st ->
  mcu_switch' 0xc3 st =
  st1 ← for_loop 0 (mcu_arg3 st) 1
          (mcu_c3_step card_write (mcu_arg1 st) (mcu_arg2 st)) st;
  mret (set_m_mcu_result0 0xc3 st1, 0xf7, 1).
Proof.
  intros Hok. unfold mcu_switch.
  rewrite (mcu_reg_get st 0) by (assumption || lia). state_simpl.
  switch_simpl. reflexivity.
Qed.

Lemma mcu_switch_e1_fill st :
  mailbox_ok st -> mcu_arg2 st = 2 ->
  mcu_switch' 0xe1 st =
  ram ← memset (m_shareram st) (mcu_base st) (mcu_arg3 st) 128;
  mret (set_m_mcu_result1 0 (set_m_mcu_result0 0xe1 (set_m_shareram ram st)),
        0xf7, 1).
Proof.
  intros Hok Hmode. unfold mcu_switch.
  rewrite (mcu_reg_get st 0) by (assumption || lia). state_simpl.
  switch_simpl. index_simpl. fold (mcu_arg2 st). rewrite Hmode. switch_simpl.
  fold (mcu_arg3 st).
  destruct (memset (m_shareram st) (mcu_base st) (mcu_arg3 st) 128);
    reflexivity.
Qed.

Lemma mcu_arg3_range st : 0 <= mcu_arg3 st < 256.
Proof. apply to_u8_range. Qed.

(** The shared RAM after the copy of [case 0xc2]. *)
Lemma mcu_c2_copy st (c : card) :
  shareram_ok st ->
  m_memcard_device (Z.land (mcu_arg1 st) 3) st = Some c ->
  mcu_base st + mcu_arg3 st <= 256 ->
  for_loop 0 (mcu_arg3 st) 1
    (mcu_c2_step card_read (mcu_arg1 st) (mcu_arg2 st)) st =
  Done (set_m_shareram
          (map_visited
             (fun k _ => card_read c (mcu_arg2 st + (k - mcu_base st)))
             (mcu_base st) 1 (Z.to_nat (mcu_arg3 st)) (m_shareram st))
          st).
Proof.
  intros Hram Hcard Hfit. unfold for_loop. rewrite trip_count_unit.
  pose proof (mcu_arg3_range st) as Harg3.
  rewrite (mcu_c2_loop _ _ c) by exact Hcard.
  destruct (mcu_base_cases st) as [Hb|Hb];
    rewrite (iterate_store_shift
               (fun j => card_read c (mcu_arg2 st + j)) (mcu_base st))
      by (rewrite ?Hram; lia);
    rewrite Z.add_0_r; reflexivity.
Qed.

Lemma mcu_c2_copy_overrun st (c : card) :
  shareram_ok st ->
  m_memcard_device (Z.land (mcu_arg1 st) 3) st = Some c ->
  256 < mcu_base st + mcu_arg3 st ->
  for_loop 0 (mcu_arg3 st) 1
    (mcu_c2_step card_read (mcu_arg1 st) (mcu_arg2 st)) st =
  OutOfRange 256.
Proof.
  intros Hram Hcard Hfit. unfold for_loop. rewrite trip_count_unit.
  pose proof (mcu_arg3_range st) as Harg3.
  rewrite (mcu_c2_loop _ _ c) by exact Hcard.
  destruct (mcu_base_cases st) as [Hb|Hb];
    rewrite (iterate_store_overrun
               (fun j => card_read c (mcu_arg2 st + j)) (mcu_base st))
      by (rewrite ?Hram; lia);
    rewrite Hram; reflexivity.
Qed.

Lemma mcu_c3_copy st (c : card) :
  shareram_ok st ->
  m_memcard_device (Z.land (mcu_arg1 st) 3) st = Some c ->
  mcu_base st + mcu_arg3 st <= 256 ->
  for_loop 0 (mcu_arg3 st) 1
    (mcu_c3_step card_write (mcu_arg1 st) (mcu_arg2 st)) st =
  Done (set_m_memcard_device (Z.land (mcu_arg1 st) 3)
          (Some (foldl
                   (fun c j =>
                      card_write c (mcu_arg2 st + j)
                        (nth (Z.to_nat (mcu_share_index (m_share_bank st) j))
                           (m_shareram st) 0))
                   c (seqZ 0 (mcu_arg3 st))))
          st).
Proof.
  intros Hram Hcard Hfit. unfold for_loop. rewrite trip_count_unit.
  pose proof (mcu_arg3_range st) as Harg3.
  destruct (mcu_base_cases st) as [Hb|Hb];
    rewrite (mcu_c3_loop _ _ _ 0 c) by (rewrite ?Hram; assumption || lia);
    rewrite Z2Nat.id by lia; reflexivity.
Qed.

Lemma mcu_c3_copy_overrun st (c : card) :
  shareram_ok st ->
  m_memcard_device (Z.land (mcu_arg1 st) 3) st = Some c ->
  256 < mcu_base st + mcu_arg3 st ->
  for_loop 0 (mcu_arg3 st) 1
    (mcu_c3_step card_write (mcu_arg1 st) (mcu_arg2 st)) st =
  OutOfRange 256.
Proof.
  intros Hram Hcard Hfit. unfold for_loop. rewrite trip_count_unit.
  pose proof (mcu_arg3_range st) as Harg3.
  destruct (mcu_base_cases st) as [Hb|Hb];
    rewrite (mcu_c3_loop_overrun _ _ _ 0 c)
      by (rewrite ?Hram; assumption || lia);
    rewrite Hram; reflexivity.
Qed.

(** *** The three commands that touch the shared RAM *)

Lemma mcu_command_c2_ok st (c : card) :
  mailbox_ok st -> shareram_ok st -> mcu_cmd st = 0xc2 ->
  m_memcard_device (Z.land (mcu_arg1 st) 3) st = Some c ->
  mcu_base st + mcu_arg3 st <= 256 ->
  mcu_command' true st =
  Done (set_m_mcu_timer (Some (from_msec 1))
          (set_m_mcu_regs
             (<[3%nat := with_status (mcu_reg st 3) 0xf7]> (m_mcu_regs st))
             (set_m_mcu_result0 0xc2
                (set_m_shareram
                   (map_visited
                      (fun k _ => card_read c (mcu_arg2 st + (k - mcu_base st)))
                      (mcu_base st) 1 (Z.to_nat (mcu_arg3 st)) (m_shareram st))
                   (set_m_mcu_last_cmd 0xc2 st))))).
Proof.
  intros Hok Hram Hcmd Hcard Hfit. unfold mcu_cmd in Hcmd.
  pose proof (mcu_switch_c2 (set_m_mcu_last_cmd 0xc2 st) Hok) as Hsw.
  rewrite (mcu_c2_copy (set_m_mcu_last_cmd 0xc2 st) c Hram Hcard Hfit) in Hsw.
  cbn [mbind outcome_bind mret outcome_ret] in Hsw.
  rewrite <- Hcmd in Hsw at 1 2.
  rewrite (fun H1 => mcu_command_finish card_read card_write st _ _ _ Hok H1 Hsw)
    by exact Hok.
  reflexivity.
Qed.

Lemma mcu_command_c2_overrun st (c : card) :
  mailbox_ok st -> shareram_ok st -> mcu_cmd st = 0xc2 ->
  m_memcard_device (Z.land (mcu_arg1 st) 3) st = Some c ->
  256 < mcu_base st + mcu_arg3 st ->
  mcu_command' true st = OutOfRange 256.
Proof.
  intros Hok Hram Hcmd Hcard Hfit. unfold mcu_cmd in Hcmd.
  rewrite (mcu_command_issue card_read card_write st Hok), Hcmd.
  rewrite (mcu_switch_c2 (set_m_mcu_last_cmd 0xc2 st) Hok).
  rewrite (mcu_c2_copy_overrun (set_m_mcu_last_cmd 0xc2 st) c Hram Hcard Hfit).
  reflexivity.
Qed.

Lemma mcu_command_c3_ok st (c : card) :
  mailbox_ok st -> shareram_ok st -> mcu_cmd st = 0xc3 ->
  m_memcard_device (Z.land (mcu_arg1 st) 3) st = Some c ->
  mcu_base st + mcu_arg3 st <= 256 ->
  mcu_command' true st =
  Done (set_m_mcu_timer (Some (from_msec 1))
          (set_m_mcu_regs
             (<[3%nat := with_status (mcu_reg st 3) 0xf7]> (m_mcu_regs st))
             (set_m_mcu_result0 0xc3
                (set_m_memcard_device (Z.land (mcu_arg1 st) 3)
                   (Some (foldl
                            (fun c j =>
                               card_write c (mcu_arg2 st + j)
                                 (nth (Z.to_nat
                                         (mcu_share_index (m_share_bank st) j))
                                    (m_shareram st) 0))
                            c (seqZ 0 (mcu_arg3 st))))
                   (set_m_mcu_last_cmd 0xc3 st))))).
Proof.
  intros Hok Hram Hcmd Hcard Hfit. unfold mcu_cmd in Hcmd.
  pose proof (mcu_switch_c3 (set_m_mcu_last_cmd 0xc3 st) Hok) as Hsw.
  rewrite (mcu_c3_copy (set_m_mcu_last_cmd 0xc3 st) c Hram Hcard Hfit) in Hsw.
  cbn [mbind outcome_bind mret outcome_ret] in Hsw.
  rewrite <- Hcmd in Hsw at 1 2.
  rewrite (fun H1 => mcu_command_finish card_read card_write st _ _ _ Hok H1 Hsw).
  - unfold mcu_reg. state_simpl.
    rewrite (proj2 (proj2 (set_memcard_device_frame _ _ _))). reflexivity.
  - unfold mailbox_ok. state_simpl.
    rewrite (proj2 (proj2 (set_memcard_device_frame _ _ _))). exact Hok.
Qed.

Lemma mcu_command_c3_overrun st (c : card) :
  mailbox_ok st -> shareram_ok st -> mcu_cmd st = 0xc3 ->
  m_memcard_device (Z.land (mcu_arg1 st) 3) st = Some c ->
  256 < mcu_base st + mcu_arg3 st ->
  mcu_command' true st = OutOfRange 256.
Proof.
  intros Hok Hram Hcmd Hcard Hfit. unfold mcu_cmd in Hcmd.
  rewrite (mcu_command_issue card_read card_write st Hok), Hcmd.
  rewrite (mcu_switch_c3 (set_m_mcu_last_cmd 0xc3 st) Hok).
  rewrite (mcu_c3_copy_overrun (set_m_mcu_last_cmd 0xc3 st) c Hram Hcard Hfit).
  reflexivity.
Qed.

Lemma mcu_command_e1_fill st :
  mailbox_ok st -> shareram_ok st -> mcu_cmd st = 0xe1 -> mcu_arg2 st = 2 ->
  mcu_command' true st =
  Done (set_m_mcu_timer (Some (from_msec 1))
          (set_m_mcu_regs
             (<[3%nat := with_status (mcu_reg st 3) 0xf7]> (m_mcu_regs st))
             (set_m_mcu_result1 0
                (set_m_mcu_result0 0xe1
                   (set_m_shareram
                      (map_visited (fun _ _ => mcu_arg3 st) (mcu_base st) 1 128
                         (m_shareram st))
                      (set_m_mcu_last_cmd 0xe1 st)))))).
Proof.
  intros Hok Hram Hcmd Hmode. unfold mcu_cmd in Hcmd.
  pose proof (mcu_switch_e1_fill (set_m_mcu_last_cmd 0xe1 st) Hok Hmode)
    as Hsw.
  rewrite memset_run in Hsw;
    [|destruct (mcu_base_cases st) as [Hb|Hb]; state_simpl; lia|lia|].
  2: { state_simpl. rewrite Hram.
       destruct (mcu_base_cases st) as [Hb|Hb]; lia. }
  cbn [mbind outcome_bind mret outcome_ret] in Hsw.
  rewrite <- Hcmd in Hsw at 1 2.
  rewrite (fun H1 => mcu_command_finish card_read card_write st _ _ _ Hok H1 Hsw)
    by exact Hok.
  reflexivity.
Qed.

(** What a store loop over the MCU's bank leaves at the MCU's indices and
    at the CPU's. *)
Lemma mcu_store_lookup (g : Z -> Z) (bank : Z) (n : nat) (ram : list Z)
    (i : Z) :
  length ram = 256%nat -> (n <= 128)%nat -> 0 <= i < Z.of_nat n ->
  map_visited (fun k _ => g k) (Z.land (Z.lnot bank) 1 * 128) 1 n ram
    !! Z.to_nat (mcu_share_index bank i) =
  Some (g (mcu_share_index bank i)).
Proof.
  intros Hram Hn Hi.
  pose proof (mcu_share_index_range bank i ltac:(lia)) as Hidx.
  rewrite map_visited_range_lookup, Z2Nat.id by lia.
  destruct (lookup_lt_is_Some_2 ram (Z.to_nat (mcu_share_index bank i)))
    as [w Hw]; [lia|].
  rewrite Hw. cbn [fmap option_fmap option_map].
  unfold mcu_share_index in *.
  destruct (Z.leb_spec (Z.land (Z.lnot bank) 1 * 128)
              (i + Z.land (Z.lnot bank) 1 * 128)); [|lia].
  destruct (Z.ltb_spec (i + Z.land (Z.lnot bank) 1 * 128)
              (Z.land (Z.lnot bank) 1 * 128 + Z.of_nat n)); [|lia].
  reflexivity.
Qed.

Lemma mcu_store_keeps_cpu_bank (f : Z -> Z -> Z) (bank : Z) (n : nat)
    (ram : list Z) (offset : Z) :
  length ram = 256%nat -> (n <= 128)%nat -> 0 <= offset < 128 ->
  aget (map_visited f (Z.land (Z.lnot bank) 1 * 128) 1 n ram)
    (cpu_share_index bank offset) =
  aget ram (cpu_share_index bank offset).
Proof.
  intros Hram Hn Ho.
  pose proof (cpu_share_index_range bank offset Ho) as Hidx.
  rewrite !aget_ok by (rewrite ?map_visited_length; lia).
  f_equal. rewrite !nth_lookup.
  rewrite map_visited_range_lookup, Z2Nat.id by lia.
  destruct (ram !! Z.to_nat (cpu_share_index bank offset)) as [w|];
    [|reflexivity].
  cbn [fmap option_fmap option_map default].
  unfold cpu_share_index in *.
  destruct (bank_bits bank) as [[Hc Hm]|[Hc Hm]]; rewrite Hc, Hm in *.
  - destruct (Z.ltb_spec (offset + 0 * 128) (1 * 128 + Z.of_nat n));
      destruct (Z.leb_spec (1 * 128) (offset + 0 * 128));
      try reflexivity; lia.
  - destruct (Z.ltb_spec (offset + 1 * 128) (0 * 128 + Z.of_nat n));
      destruct (Z.leb_spec (0 * 128) (offset + 1 * 128));
      try reflexivity; lia.
Qed.


(** C3, as the code has it. The main processor reads and writes logical
    offset [o] (0..127) at physical byte [o + (s & 1) * 128].  The MCU side
    accesses logical offset [i] at [i + (~s & 1) * 128]: the 0xE1 mode-2
    fill for every [i] in 0..127, the 0xC2 and 0xC3 copies for [i] below
    arg3.  For any [s] the two 128-byte ranges are disjoint, so the fill,
    and a copy of at most 128 bytes, leave the main processor's bank as it
    was. *)
Theorem share_ram_banks st :
  mailbox_ok st -> shareram_ok st ->
  let s := m_share_bank st in
  (forall o, 0 <= o < 128 ->
     shareram_r o st =
       Done (nth (Z.to_nat (o + Z.land s 1 * 128)) (m_shareram st) 0) /\
     forall d,
       shareram_w o d st =
       Done (set_m_shareram
               (<[Z.to_nat (o + Z.land s 1 * 128) := d]> (m_shareram st)) st)) /\
  (forall o i, 0 <= o < 128 -> 0 <= i < 128 ->
     0 <= o + Z.land s 1 * 128 < 256 /\
     0 <= i + Z.land (Z.lnot s) 1 * 128 < 256 /\
     o + Z.land s 1 * 128 <> i + Z.land (Z.lnot s) 1 * 128) /\
  (mcu_cmd st = 0xe1 -> mcu_arg2 st = 2 ->
   exists st',
     mcu_command' true st = Done st' /\
     (forall i, 0 <= i < 128 ->
        m_shareram st' !! Z.to_nat (i + Z.land (Z.lnot s) 1 * 128) =
        Some (mcu_arg3 st)) /\
     (forall o, 0 <= o < 128 -> shareram_r o st' = shareram_r o st)) /\
  (forall c,
     m_memcard_device (Z.land (mcu_arg1 st) 3) st = Some c ->
     mcu_arg3 st <= 128 ->
     (mcu_cmd st = 0xc2 ->
      exists st',
        mcu_command' true st = Done st' /\
        (forall i, 0 <= i < mcu_arg3 st ->
           m_shareram st' !! Z.to_nat (i + Z.land (Z.lnot s) 1 * 128) =
           Some (card_read c (mcu_arg2 st + i))) /\
        (forall o, 0 <= o < 128 -> shareram_r o st' = shareram_r o st)) /\
     (mcu_cmd st = 0xc3 ->
      exists st',
        mcu_command' true st = Done st' /\
        m_shareram st' = m_shareram st /\
        m_memcard_device (Z.land (mcu_arg1 st) 3) st' =
        Some (foldl
                (fun c i =>
                   card_write c (mcu_arg2 st + i)
                     (nth (Z.to_nat (i + Z.land (Z.lnot s) 1 * 128))
                        (m_shareram st) 0))
                c (seqZ 0 (mcu_arg3 st))))).
Proof.
  intros Hok Hram s.
  pose proof (mcu_arg3_range st) as Harg3.
  split; [|split; [|split]].
  - intros o Ho.
    pose proof (cpu_share_index_range s o Ho) as Hidx.
    unfold shareram_r, shareram_w. fold s.
    rewrite aget_ok by (rewrite Hram; lia). split; [reflexivity|].
    intros d. rewrite aset_ok by (rewrite Hram; lia). reflexivity.
  - intros o i Ho Hi.
    split; [apply (cpu_share_index_range s o Ho)|].
    split; [apply (mcu_share_index_range s i Hi)|].
    apply (share_index_disjoint s o i Ho Hi).
  - intros Hcmd Hmode.
    rewrite mcu_command_e1_fill by assumption.
    eexists. split; [reflexivity|]. split.
    + intros i Hi. state_simpl.
      apply (mcu_store_lookup (fun _ => mcu_arg3 st) s 128 (m_shareram st) i);
        (assumption || lia).
    + intros o Ho. unfold shareram_r. state_simpl.
      apply mcu_store_keeps_cpu_bank; (assumption || lia).
  - intros c Hcard Hlen.
    assert (Hfit : mcu_base st + mcu_arg3 st <= 256)
      by (destruct (mcu_base_cases st); lia).
    split.
    + intros Hcmd.
      rewrite (mcu_command_c2_ok st c) by assumption.
      eexists. split; [reflexivity|]. split.
      * intros i Hi. state_simpl.
        change (i + Z.land (Z.lnot s) 1 * 128) with (mcu_share_index s i).
        rewrite (mcu_store_lookup
                   (fun k => card_read c (mcu_arg2 st + (k - mcu_base st))))
          by (assumption || lia).
        unfold mcu_share_index. do 2 f_equal. fold s. lia.
      * intros o Ho. unfold shareram_r. state_simpl.
        apply mcu_store_keeps_cpu_bank; (assumption || lia).
    + intros Hcmd.
      rewrite (mcu_command_c3_ok st c) by assumption.
      eexists. split; [reflexivity|]. split.
      * state_simpl. rewrite (proj1 (set_memcard_device_frame _ _ _)).
        reflexivity.
      * unfold m_memcard_device at 1. state_simpl. unfold mcu_share_index.
        fold s.
        match goal with
        | |- context [set_m_memcard_device ?k ?v ?t] =>
            fold (m_memcard_device k (set_m_memcard_device k v t))
        end.
        apply memcard_device_set.
Qed.

End Shared_ram.


Lemma share_ram_banks_witness :
  shareram_w 5 0xaa (card_in_slot0 1 0x030000c2) =
    Done (set_m_shareram (<[133%nat := 0xaa]> (replicate 256 0))
            (card_in_slot0 1 0x030000c2)) /\
  exists st',
    mcu_command byte_card_read byte_card_write true
      (card_in_slot0 1 0x030000c2) = Done st' /\
    m_shareram st' !! 2%nat = Some 7 /\
    shareram_r 0 st' = shareram_r 0 (card_in_slot0 1 0x030000c2).
Proof.
  destruct (share_ram_banks byte_card_read byte_card_write
              (card_in_slot0 1 0x030000c2))
    as (Hcpu & _ & _ & Hcopy).
  - reflexivity.
  - reflexivity.
  - split.
    + apply (Hcpu 5). lia.
    + destruct (Hcopy (replicate 256 7)) as (Hc2 & _).
      * reflexivity.
      * vm_compute. discriminate.
      * destruct (Hc2 eq_refl) as (st' & Hrun & Hmcu & Hkeep).
        exists st'. split; [exact Hrun|]. split.
        -- apply (Hmcu 2). vm_compute. split; [discriminate|reflexivity].
        -- apply Hkeep. lia.
Defined.

(** Against C3 as stated: with the selector odd, a 0xC2 copy of 129 bytes
    writes MCU logical offset 128 at physical byte 128, which is the main
    processor's logical offset 0; the main processor then reads the card's
    byte there. *)
Lemma mcu_copy_reaches_cpu_bank :
  mcu_share_index 1 128 = cpu_share_index 1 0 /\
  shareram_r 0 (card_in_slot0 1 0x810000c2) = Done 0 /\
  exists st',
    mcu_command byte_card_read byte_card_write true
      (card_in_slot0 1 0x810000c2) = Done st' /\
    m_share_bank st' = 1 /\
    shareram_r 0 st' = Done 7.
Proof.
  split; [reflexivity|]. split; [reflexivity|].
  eexists. split; [vm_compute; reflexivity|].
  split; reflexivity.
Qed.

(** ** Driver init: the graphics ROM decoders *)

Lemma region_words (rom : list Z) :
  Z.quot (region_bytes rom) 2 = Z.of_nat (length rom).
Proof. unfold region_bytes. rewrite Z.mul_comm. apply Z.quot_mul. lia. Qed.

Lemma region_words_div (rom : list Z) :
  region_bytes rom / 2 = Z.of_nat (length rom).
Proof. unfold region_bytes. rewrite Z.mul_comm. apply Z.div_mul. lia. Qed.

(** The body of the positional decoders rewrites the word at its index. *)
Lemma iga_step_pointwise (table : list (Z * Z)) (ixor i : Z) (rom : list Z) :
  iga_step table ixor i rom =
  w ← aget rom i; aset rom i (iga_word table ixor i w).
Proof.
  unfold iga_step, iga_word, aget, aset.
  destruct (in_bounds rom i) eqn:Hin; [|reflexivity].
  cbn [mbind outcome_bind].
  assert (Hin' : in_bounds (<[Z.to_nat i := Z.lxor (nth (Z.to_nat i) rom 0)
                                 (index_mask table i (to_u16 ixor))]> rom) i
                 = true).
  { unfold in_bounds in *. rewrite length_insert. exact Hin. }
  rewrite Hin'. cbn [mbind outcome_bind].
  rewrite list_insert_insert_eq, nth_insert_eq; [reflexivity|].
  unfold in_bounds in Hin. apply andb_true_iff in Hin. lia.
Qed.

Lemma iga_u12_decode_run (rom : list Z) (len ixor : Z) :
  Z.quot len 2 <= Z.of_nat (length rom) ->
  iga_u12_decode rom len ixor =
  Done (map_visited (iga_word iga_u12_table ixor) 0 2
          (trip_count 0 (Z.quot len 2) 2) rom).
Proof.
  intros Hlen. unfold iga_u12_decode, for_loop.
  rewrite (iterate_ext _ _ _ _ (iga_step_pointwise iga_u12_table ixor)).
  apply (for_loop_pointwise (iga_word iga_u12_table ixor)); lia.
Qed.

Lemma iga_u16_decode_run (rom : list Z) (len ixor : Z) :
  Z.quot len 2 <= Z.of_nat (length rom) ->
  iga_u16_decode rom len ixor =
  Done (map_visited (iga_word iga_u16_table ixor) 1 2
          (trip_count 1 (Z.quot len 2) 2) rom).
Proof.
  intros Hlen. unfold iga_u16_decode, for_loop.
  rewrite (iterate_ext _ _ _ _ (iga_step_pointwise iga_u16_table ixor)).
  apply (for_loop_pointwise (iga_word iga_u16_table ixor)); lia.
Qed.

(** After both decoders over a whole region, the word at an even index went
    through the u12 table and the word at an odd index through the u16
    table. *)
Lemma iga_decoders_lookup (rom : list Z) (key12 key16 : Z) (k : nat) :
  map_visited (iga_word iga_u16_table key16) 1 2
    (trip_count 1 (Z.of_nat (length rom)) 2)
    (map_visited (iga_word iga_u12_table key12) 0 2
       (trip_count 0 (Z.of_nat (length rom)) 2) rom) !! k =
  (fun w => if Z.even (Z.of_nat k)
            then iga_word iga_u12_table key12 (Z.of_nat k) w
            else iga_word iga_u16_table key16 (Z.of_nat k) w) <$> rom !! k.
Proof.
  rewrite !map_visited_lookup, !visited_for_loop by lia.
  destruct (rom !! k) as [w|] eqn:Hk; [|reflexivity].
  apply lookup_lt_Some in Hk.
  cbn [fmap option_fmap option_map]. f_equal.
  rewrite Z.sub_0_r.
  replace (Z.of_nat k <? Z.of_nat (length rom)) with true
    by (symmetry; apply Z.ltb_lt; lia).
  replace (0 <=? Z.of_nat k) with true by (symmetry; apply Z.leb_le; lia).
  rewrite !andb_true_r, andb_true_l.
  rewrite Zeven_mod.
  destruct (Z.eqb_spec (Z.of_nat k mod 2) 0) as [Heven|Hodd].
  - assert (Hk1 : (1 <=? Z.of_nat k) && ((Z.of_nat k - 1) mod 2 =? 0) = false).
    { apply andb_false_iff. right. apply Z.eqb_neq.
      replace (Z.of_nat k - 1) with (Z.of_nat k + (-1) * 2 + 1) by lia.
      rewrite <- Zplus_mod_idemp_l, Z.mod_add, Heven by lia. discriminate. }
    rewrite Hk1. reflexivity.
  - assert (Hk1 : (1 <=? Z.of_nat k) && ((Z.of_nat k - 1) mod 2 =? 0) = true).
    { pose proof (Z.mod_pos_bound (Z.of_nat k) 2 ltac:(lia)) as Hb.
      assert (Hone : Z.of_nat k mod 2 = 1) by lia.
      apply andb_true_intro. split.
      - apply Z.leb_le. destruct k; [discriminate Hone|lia].
      - apply Z.eqb_eq.
        rewrite Zminus_mod, Hone. reflexivity. }
    rewrite Hk1. reflexivity.
Qed.

(** Two loop bodies that agree at the indices the loop visits give the same
    loop. *)
Lemma iterate_ext_visited {S : Type} (body1 body2 : Z -> S -> outcome S)
    (n : nat) :
  forall (i : Z) (s : S),
    (forall j s, i <= j < i + Z.of_nat n -> body1 j s = body2 j s) ->
    iterate n i 1 body1 s = iterate n i 1 body2 s.
Proof.
  induction n as [|n IH]; intros i s Hext; [reflexivity|].
  cbn [iterate]. rewrite Hext by lia.
  destruct (body2 i s); cbn [mbind outcome_bind]; [|reflexivity].
  apply IH. intros j s' Hj. apply Hext. lia.
Qed.

Section Driver_init.

Context {card : Type}.
Variable decrypter_rom : list Z -> list Z -> list Z.
Variables ddpdoj_key kov3_key kof98umh_key : list Z.

Abbreviation state := (@pgm2_state card).
Implicit Types st : state.

(** The module layer: word [i] of the new program ROM is word
    [i XOR addrxor] of the old one, XOR [dataxor]; nothing else changes.
    The address XOR has to stay inside the region. *)
Lemma decrypt_kov3_module_run (addrxor dataxor : Z) st :
  (forall i, 0 <= i < Z.of_nat (length (user1 st)) ->
     0 <= Z.lxor i addrxor < Z.of_nat (length (user1 st))) ->
  exists buffer,
    decrypt_kov3_module addrxor dataxor st = Done (set_user1 buffer st) /\
    length buffer = length (user1 st) /\
    forall i, 0 <= i < Z.of_nat (length (user1 st)) ->
      buffer !! Z.to_nat i =
      Some (Z.lxor (nth (Z.to_nat (Z.lxor i addrxor)) (user1 st) 0) dataxor).
Proof.
  intros Hperm. unfold decrypt_kov3_module, for_loop.
  rewrite region_words_div, trip_count_unit, Nat2Z.id.
  set (src := user1 st) in *. set (n := length src) in *.
  rewrite (iterate_ext_visited _
             (fun j buffer =>
                aset buffer (0 + j)
                  (Z.lxor (nth (Z.to_nat (Z.lxor j addrxor)) src 0) dataxor))).
  2: { intros j buf Hj. rewrite aget_ok by (apply Hperm; lia).
       reflexivity. }
  rewrite (iterate_store_shift
             (fun j => Z.lxor (nth (Z.to_nat (Z.lxor j addrxor)) src 0) dataxor)
             0) by (rewrite ?length_replicate; lia).
  eexists. split; [reflexivity|]. split.
  - rewrite map_visited_length. apply length_replicate.
  - intros i Hi. rewrite map_visited_range_lookup, Z2Nat.id by lia.
    rewrite lookup_replicate_2 by lia.
    cbn [fmap option_fmap option_map].
    destruct (Z.leb_spec (0 + 0) i); [|lia].
    destruct (Z.ltb_spec i (0 + 0 + Z.of_nat n)); [|lia].
    cbn [andb]. rewrite Z.sub_0_r. reflexivity.
Qed.

(** The init of the titles with runtime keys never fails, and says which
    transform each region gets. *)
Lemma common_encryption_init_run st :
  exists mask colour,
    common_encryption_init st =
      Done (set_m_has_decrypted 0
              (set_sprites_colour colour
                 (set_m_sprite_predecrypted 0 (set_sprites_mask mask st)))) /\
    (exists mask12,
       iga_u12_decode (sprites_mask st) (region_bytes (sprites_mask st)) 0
         = Done mask12 /\
       iga_u16_decode mask12 (region_bytes (sprites_mask st)) 0 = Done mask) /\
    sprite_colour_decode (sprites_colour st) (region_bytes (sprites_colour st))
      = Done colour /\
    (forall k, mask !! k =
       (fun w => if Z.even (Z.of_nat k)
                 then iga_word iga_u12_table 0 (Z.of_nat k) w
                 else iga_word iga_u16_table 0 (Z.of_nat k) w)
         <$> sprites_mask st !! k) /\
    (forall k, colour !! k = BITSWAP16_colour <$> sprites_colour st !! k).
Proof.
  unfold common_encryption_init.
  pose proof (region_words (sprites_mask st)) as Hmask.
  pose proof (region_words (sprites_colour st)) as Hcol.
  rewrite iga_u12_decode_run by lia. cbn [mbind outcome_bind].
  rewrite iga_u16_decode_run by (rewrite map_visited_length; lia).
  state_simpl.
  rewrite sprite_colour_decode_run by lia. cbn [mbind outcome_bind].
  eexists. eexists. split; [reflexivity|]. split; [|split; [|split]].
  - eexists. split; [reflexivity|].
    apply iga_u16_decode_run. rewrite map_visited_length. lia.
  - reflexivity.
  - intros k. rewrite Hmask. apply iga_decoders_lookup.
  - intros k. rewrite Hcol.
    rewrite map_visited_lookup, visited_for_loop by lia.
    destruct (sprites_colour st !! k) as [w|] eqn:Hk; [|reflexivity].
    apply lookup_lt_Some in Hk.
    cbn [fmap option_fmap option_map]. f_equal.
    rewrite Z.sub_0_r, Z.mod_1_r.
    replace (0 <=? Z.of_nat k) with true by (symmetry; apply Z.leb_le; lia).
    replace (Z.of_nat k <? Z.of_nat (length (sprites_colour st))) with true
      by (symmetry; apply Z.ltb_lt; lia).
    reflexivity.
Qed.

Abbreviation decryptTitle' := (decryptTitle_mask_only decrypter_rom).

(** Unfolds an init function next to [decryptTitle_mask_only] and walks
    through the outcomes of the transforms on both sides. *)
Ltac init_steps :=
  unfold decryptTitle_mask_only, positional_decoders, module_layer,
    program_rom_at_init, predecrypted_flag;
  cbn [mbind outcome_bind mret outcome_ret];
  repeat match goal with
         | |- context [mbind _ ?m] =>
             lazymatch m with
             | Done _ => fail
             | OutOfRange _ => fail
             | _ => destruct m; cbn [mbind outcome_bind mret outcome_ret];
                    state_simpl
             end
         end;
  try reflexivity.

Lemma common_encryption_init_order st :
  common_encryption_init st =
  decryptTitle' None (region_bytes (sprites_mask st)) 0 0
    (region_bytes (sprites_colour st)) None st.
Proof. unfold common_encryption_init. init_steps. Qed.

(** The init of a title with static keys, for any constants. *)
Lemma static_init_order (mask_len key12 key16 colour_len : Z)
    (rom_key : list Z) st :
  (src ← iga_u12_decode (sprites_mask st) mask_len key12;
   src ← iga_u16_decode src mask_len key16;
   let st := set_m_sprite_predecrypted 1 (set_sprites_mask src st) in
   src ← sprite_colour_decode (sprites_colour st) colour_len;
   let st := set_sprites_colour src st in
   mret (set_m_has_decrypted 1
           (set_user1 (decrypter_rom rom_key (user1 st)) st))) =
  decryptTitle' None mask_len key12 key16 colour_len (Some rom_key) st.
Proof. init_steps. Qed.

Lemma driver_init_ddpdojh_order st :
  driver_init_ddpdojh decrypter_rom ddpdoj_key st =
  decryptTitle' None 0x1000000 0x1e96 0x869c 0x2000000 (Some ddpdoj_key) st.
Proof.
  exact (static_init_order 0x1000000 0x1e96 0x869c 0x2000000 ddpdoj_key st).
Qed.

Lemma driver_init_kov3_order st :
  driver_init_kov3 decrypter_rom kov3_key st =
  decryptTitle' None 0x4000000 0x956d 0x3d17 0x8000000 (Some kov3_key) st.
Proof.
  exact (static_init_order 0x4000000 0x956d 0x3d17 0x8000000 kov3_key st).
Qed.

Lemma driver_init_kof98umh_order st :
  driver_init_kof98umh decrypter_rom kof98umh_key st =
  decryptTitle' None 0x08000000 0x21df 0x8692 0x20000000 (Some kof98umh_key)
    st.
Proof.
  exact (static_init_order 0x08000000 0x21df 0x8692 0x20000000 kof98umh_key
           st).
Qed.

(** The module layer in front of an init. *)
Lemma module_then_init (addrxor dataxor : Z)
    (mask_len key12 key16 colour_len : Z) (rom_key : list Z)
    (init : state -> outcome state) st :
  (forall st1,
     init st1 =
     decryptTitle' None mask_len key12 key16 colour_len (Some rom_key) st1) ->
  (st1 ← decrypt_kov3_module addrxor dataxor st; init st1) =
  decryptTitle' (Some (addrxor, dataxor)) mask_len key12 key16 colour_len
    (Some rom_key) st.
Proof.
  intros Hinit.
  unfold decryptTitle_mask_only at 1, module_layer.
  destruct (decrypt_kov3_module addrxor dataxor st) as [st1|];
    cbn [mbind outcome_bind]; [|reflexivity].
  apply Hinit.
Qed.

Lemma driver_init_kov3_104_order st :
  driver_init_kov3_104 decrypter_rom kov3_key st =
  decryptTitle' (Some (0x18ec71, 0xb89d)) 0x4000000 0x956d 0x3d17 0x8000000
    (Some kov3_key) st.
Proof.
  exact (module_then_init 0x18ec71 0xb89d 0x4000000 0x956d 0x3d17 0x8000000
           kov3_key (driver_init_kov3 decrypter_rom kov3_key) st
           driver_init_kov3_order).
Qed.

Lemma driver_init_kov3_102_order st :
  driver_init_kov3_102 decrypter_rom kov3_key st =
  decryptTitle' (Some (0x021d37, 0x81d0)) 0x4000000 0x956d 0x3d17 0x8000000
    (Some kov3_key) st.
Proof.
  exact (module_then_init 0x021d37 0x81d0 0x4000000 0x956d 0x3d17 0x8000000
           kov3_key (driver_init_kov3 decrypter_rom kov3_key) st
           driver_init_kov3_order).
Qed.

Lemma driver_init_kov3_100_order st :
  driver_init_kov3_100 decrypter_rom kov3_key st =
  decryptTitle' (Some (0x3e8aa8, 0xc530)) 0x4000000 0x956d 0x3d17 0x8000000
    (Some kov3_key) st.
Proof.
  exact (module_then_init 0x3e8aa8 0xc530 0x4000000 0x956d 0x3d17 0x8000000
           kov3_key (driver_init_kov3 decrypter_rom kov3_key) st
           driver_init_kov3_order).
Qed.

(** C8, as the code has it. Driver init applies, in this order: (1) for the
    titles with a module layer, [dst[i] = src[i XOR addrMask] XOR dataMask]
    over the program ROM with the title's masks; (2) the two positional
    decoders over the sprite-mask region only, with the title's base keys
    (zero keys for the titles whose firmware supplies keys at runtime):
    even word indices go through the u12 table, odd ones through the u16
    table; (3) the colour repack over the sprite-colour region, which gets
    no other transform.  Titles with static keys then decrypt the program
    ROM; the others leave it for the decrypt trigger. *)
Theorem driver_init_transform_order st :
  common_encryption_init st =
    decryptTitle' None (region_bytes (sprites_mask st)) 0 0
      (region_bytes (sprites_colour st)) None st /\
  driver_init_ddpdojh decrypter_rom ddpdoj_key st =
    decryptTitle' None 0x1000000 0x1e96 0x869c 0x2000000 (Some ddpdoj_key) st /\
  driver_init_kov3 decrypter_rom kov3_key st =
    decryptTitle' None 0x4000000 0x956d 0x3d17 0x8000000 (Some kov3_key) st /\
  driver_init_kof98umh decrypter_rom kof98umh_key st =
    decryptTitle' None 0x08000000 0x21df 0x8692 0x20000000
      (Some kof98umh_key) st /\
  driver_init_kov3_104 decrypter_rom kov3_key st =
    decryptTitle' (Some (0x18ec71, 0xb89d)) 0x4000000 0x956d 0x3d17 0x8000000
      (Some kov3_key) st /\
  driver_init_kov3_102 decrypter_rom kov3_key st =
    decryptTitle' (Some (0x021d37, 0x81d0)) 0x4000000 0x956d 0x3d17 0x8000000
      (Some kov3_key) st /\
  driver_init_kov3_100 decrypter_rom kov3_key st =
    decryptTitle' (Some (0x3e8aa8, 0xc530)) 0x4000000 0x956d 0x3d17 0x8000000
      (Some kov3_key) st /\
  (forall addrxor dataxor,
     (forall i, 0 <= i < Z.of_nat (length (user1 st)) ->
        0 <= Z.lxor i addrxor < Z.of_nat (length (user1 st))) ->
     exists buffer,
       module_layer (Some (addrxor, dataxor)) st = Done (set_user1 buffer st) /\
       length buffer = length (user1 st) /\
       forall i, 0 <= i < Z.of_nat (length (user1 st)) ->
         buffer !! Z.to_nat i =
         Some (Z.lxor (nth (Z.to_nat (Z.lxor i addrxor)) (user1 st) 0)
                 dataxor)) /\
  (exists mask colour,
     common_encryption_init st =
       Done (set_m_has_decrypted 0
               (set_sprites_colour colour
                  (set_m_sprite_predecrypted 0 (set_sprites_mask mask st)))) /\
     (forall k, mask !! k =
        (fun w => if Z.even (Z.of_nat k)
                  then iga_word iga_u12_table 0 (Z.of_nat k) w
                  else iga_word iga_u16_table 0 (Z.of_nat k) w)
          <$> sprites_mask st !! k) /\
     (forall k, colour !! k = BITSWAP16_colour <$> sprites_colour st !! k)).
Proof.
  split; [apply common_encryption_init_order|].
  split; [apply driver_init_ddpdojh_order|].
  split; [apply driver_init_kov3_order|].
  split; [apply driver_init_kof98umh_order|].
  split; [apply driver_init_kov3_104_order|].
  split; [apply driver_init_kov3_102_order|].
  split; [apply driver_init_kov3_100_order|].
  split.
  - intros addrxor dataxor Hperm. apply decrypt_kov3_module_run, Hperm.
  - destruct (common_encryption_init_run st)
      as (mask & colour & Hrun & _ & _ & Hmask & Hcolour).
    exists mask, colour. split; [exact Hrun|]. split; assumption.
Qed.

End Driver_init.

Lemma driver_init_transform_order_witness :
  (exists st',
     common_encryption_init power_on = Done st' /\
     sprites_mask st' = [128; 64; 2528; 40; 180; 1088] /\
     sprites_colour st' = [0x0100; 0x0008; 0xffff; 0x0421] /\
     user1 st' = user1 power_on) /\
  exists buffer,
    module_layer (Some (1, 0xff)) power_on = Done (set_user1 buffer power_on) /\
    buffer !! 0%nat = Some 0x22dd.
Proof.
  destruct (driver_init_transform_order toy_decrypter_rom [] [] [] power_on)
    as (Hcommon & _ & _ & _ & _ & _ & _ & Hmodule & _).
  split.
  - rewrite Hcommon. eexists. split; [vm_compute; reflexivity|].
    repeat split.
  - destruct (Hmodule 1 0xff) as (buffer & Hrun & _ & Hword).
    + intros i Hi. change (Z.of_nat (length (user1 power_on))) with 4 in *.
      assert (Hcases : i = 0 \/ i = 1 \/ i = 2 \/ i = 3) by lia.
      destruct Hcases as [-> | [-> | [-> | ->]]]; vm_compute; split; congruence.
    + exists buffer. split; [exact Hrun|].
      apply (Hword 0). vm_compute. split; [discriminate|reflexivity].
Defined.

(** Against C8 as stated: on the small machine, the init with runtime keys
    leaves the sprite-colour region repacked only; [decryptTitle], which
    also runs the positional decoders over it, gives other words. *)
Lemma decryptTitle_differs_on_sprites_colour :
  exists st' st_spec,
    common_encryption_init power_on = Done st' /\
    decryptTitle toy_decrypter_rom None
      (region_bytes (sprites_mask power_on)) 0 0
      (region_bytes (sprites_colour power_on)) None power_on = Done st_spec /\
    sprites_mask st' = sprites_mask st_spec /\
    sprites_colour st' = [0x0100; 0x0008; 0xffff; 0x0421] /\
    sprites_colour st_spec = [512; 32768; 62455; 8580] /\
    sprites_colour st' <> sprites_colour st_spec.
Proof.
  eexists. eexists.
  split; [vm_compute; reflexivity|].
  split; [vm_compute; reflexivity|].
  split; [reflexivity|]. split; [reflexivity|]. split; [reflexivity|].
  discriminate.
Qed.

(** * Further properties of the driver *)

(** ** Register windows: what is written is read back *)

Lemma land_3_range (x : Z) : 0 <= Z.land x 3 < 4.
Proof.
  change 3 with (Z.ones 2). rewrite Z.land_ones by lia.
  apply Z.mod_pos_bound. reflexivity.
Qed.

Lemma land_7_range (x : Z) : 0 <= Z.land x 7 < 8.
Proof.
  change 7 with (Z.ones 3). rewrite Z.land_ones by lia.
  apply Z.mod_pos_bound. reflexivity.
Qed.

Section Register_windows.

Context {card : Type}.
Variable card_read : card -> Z -> Z.
Variable card_write : card -> Z -> Z -> card.

Abbreviation state := (@pgm2_state card).
Abbreviation mcu_w' := (mcu_w card_read card_write).
Implicit Types st : state.

(** X1. A byte written to the encryption table window is read back at its
    offset and changes no other offset; the write touches neither the
    decrypt flag nor the program ROM.  An offset outside the 256 bytes is
    reported, for the read and for the write. *)
Theorem encryption_table_write_read (offset data : Z) st :
  length (m_encryption_table st) = 256%nat ->
  (0 <= offset < 256 ->
   exists st',
     encryption_w offset data st = Done st' /\
     encryption_r offset st' = Done data /\
     (forall other, other <> offset ->
        encryption_r other st' = encryption_r other st) /\
     st' = set_m_encryption_table (m_encryption_table st') st) /\
  (~ 0 <= offset < 256 ->
   encryption_w offset data st = OutOfRange offset /\
   encryption_r offset st = OutOfRange offset).
Proof.
  intros Hlen. split.
  - intros Hoff. unfold encryption_w, encryption_r.
    rewrite aset_ok by lia. cbn [mbind outcome_bind mret outcome_ret].
    eexists. split; [reflexivity|]. state_simpl. split; [|split].
    + rewrite aget_ok by (rewrite length_insert; lia).
      rewrite nth_insert_eq by lia. reflexivity.
    + intros other Hother. unfold aget, in_bounds.
      rewrite length_insert.
      destruct ((0 <=? other) && (other <? Z.of_nat (length (m_encryption_table st))))
        eqn:Hin; [|reflexivity].
      apply andb_true_iff in Hin.
      rewrite nth_insert_ne by lia. reflexivity.
    + reflexivity.
  - intros Hout. unfold encryption_w, encryption_r, aset, aget.
    rewrite in_bounds_false by lia. split; reflexivity.
Qed.

(** X2. A byte the main processor writes to the shared RAM is read back at
    its offset and changes no other offset of its bank.  Only the low bit
    of the bank selector counts: after a selector write that keeps the low
    bit the byte is still read there, and after one that flips it the
    window shows the other bank, where the write changed nothing. *)
Theorem shareram_write_read_banked (o d : Z) st :
  shareram_ok st -> 0 <= o < 128 ->
  exists st1,
    shareram_w o d st = Done st1 /\
    shareram_r o st1 = Done d /\
    (forall o', 0 <= o' < 128 -> o' <> o ->
       shareram_r o' st1 = shareram_r o' st) /\
    (forall data mem_mask,
       Z.land (m_share_bank (share_bank_w data mem_mask st1)) 1 =
         Z.land (m_share_bank st) 1 ->
       shareram_r o (share_bank_w data mem_mask st1) = Done d) /\
    (forall data mem_mask o', 0 <= o' < 128 ->
       Z.land (m_share_bank (share_bank_w data mem_mask st1)) 1 <>
         Z.land (m_share_bank st) 1 ->
       shareram_r o' (share_bank_w data mem_mask st1) =
       shareram_r o' (share_bank_w data mem_mask st)).
Proof.
  intros Hram Ho. unfold shareram_ok in Hram.
  pose proof (cpu_share_index_range (m_share_bank st) o Ho) as Hidx.
  unfold shareram_w. rewrite aset_ok by lia.
  cbn [mbind outcome_bind mret outcome_ret].
  eexists. split; [reflexivity|]. unfold shareram_r, share_bank_w.
  state_simpl. split; [|split; [|split]].
  - rewrite aget_ok by (rewrite length_insert; lia).
    rewrite nth_insert_eq by lia. reflexivity.
  - intros o' Ho' Hne.
    pose proof (cpu_share_index_range (m_share_bank st) o' Ho') as Hidx'.
    rewrite !aget_ok by (rewrite ?length_insert; lia).
    rewrite nth_insert_ne; [reflexivity|].
    unfold cpu_share_index in *. lia.
  - intros data mem_mask Hsame.
    unfold cpu_share_index in *. rewrite Hsame.
    rewrite aget_ok by (rewrite length_insert; lia).
    rewrite nth_insert_eq by lia. reflexivity.
  - intros data mem_mask o' Ho' Hflip.
    set (bank' := COMBINE_DATA16 (m_share_bank st) data mem_mask) in *.
    pose proof (cpu_share_index_range bank' o' Ho') as Hidx'.
    rewrite !aget_ok by (rewrite ?length_insert; lia).
    rewrite nth_insert_ne; [reflexivity|].
    unfold cpu_share_index in *.
    destruct (bank_bits bank') as [[Hb _]|[Hb _]],
             (bank_bits (m_share_bank st)) as [[Hs _]|[Hs _]];
      rewrite Hb, Hs in *; try lia; congruence.
Qed.

(** X3. The MCU window decodes register [(offset >> 15) & 7], so every
    offset reads inside the eight registers.  A write that is not a strobe
    (a register other than 2 and 5, or a strobe left at zero) runs no
    command: it only stores the merged value, which is read back at every
    offset that decodes to the same register, and other registers keep
    their values. *)
Theorem mcu_window_write_read (offset data mem_mask : Z) st :
  mailbox_ok st ->
  let reg := Z.land (Z.shiftr offset 15) 7 in
  let v := COMBINE_DATA (mcu_reg st (Z.to_nat reg)) data mem_mask in
  mcu_r offset st = Done (mcu_reg st (Z.to_nat reg)) /\
  ((reg <> 2 /\ reg <> 5) \/ v = 0 ->
   let st' := set_m_mcu_regs (<[Z.to_nat reg := v]> (m_mcu_regs st)) st in
   mcu_w' offset data mem_mask st = Done st' /\
   (forall offset', Z.land (Z.shiftr offset' 15) 7 = reg ->
      mcu_r offset' st' = Done v) /\
   (forall offset', Z.land (Z.shiftr offset' 15) 7 <> reg ->
      mcu_r offset' st' = mcu_r offset' st)).
Proof.
  intros Hok reg v.
  pose proof (land_7_range (Z.shiftr offset 15)) as Hreg. fold reg in Hreg.
  split; [apply mcu_reg_get; assumption|].
  intros Hplain st'.
  assert (Hok' : mailbox_ok st') by (apply mailbox_ok_strobe; exact Hok).
  split; [|split].
  - unfold mcu_w. fold reg.
    rewrite (mcu_reg_get st reg) by assumption.
    cbn [mbind outcome_bind mret outcome_ret].
    rewrite (mcu_reg_set st reg) by assumption.
    cbn [mbind outcome_bind mret outcome_ret]. fold v. fold st'.
    destruct (Z.eqb_spec reg 2) as [H2|H2].
    + destruct Hplain as [[Hne _]|Hzero]; [contradiction|].
      rewrite (mcu_reg_get st' 2) by (assumption || lia).
      cbn [mbind outcome_bind mret outcome_ret].
      assert (Hr2 : mcu_reg st' (Z.to_nat 2) = v).
      { unfold mcu_reg. subst st'. state_simpl. rewrite H2.
        apply nth_insert_eq. unfold mailbox_ok in Hok. rewrite Hok.
        simpl. lia. }
      rewrite Hr2, Hzero. cbn [Z.eqb mbind outcome_bind mret outcome_ret].
      destruct (Z.eqb_spec reg 5); [lia|reflexivity].
    + cbn [mbind outcome_bind mret outcome_ret].
      destruct (Z.eqb_spec reg 5) as [H5|H5]; [|reflexivity].
      destruct Hplain as [[_ Hne]|Hzero]; [contradiction|].
      rewrite (mcu_reg_get st' 5) by (assumption || lia).
      cbn [mbind outcome_bind mret outcome_ret].
      assert (Hr5 : mcu_reg st' (Z.to_nat 5) = v).
      { unfold mcu_reg. subst st'. state_simpl. rewrite H5.
        apply nth_insert_eq. unfold mailbox_ok in Hok. rewrite Hok.
        simpl. lia. }
      rewrite Hr5, Hzero. reflexivity.
  - intros offset' Hsame. unfold mcu_r. rewrite Hsame.
    rewrite (mcu_reg_get st' reg) by assumption. f_equal.
    unfold mcu_reg. subst st'. state_simpl.
    apply nth_insert_eq. unfold mailbox_ok in Hok. rewrite Hok. lia.
  - intros offset' Hother. unfold mcu_r.
    pose proof (land_7_range (Z.shiftr offset' 15)) as Hreg'.
    rewrite (mcu_reg_get st' _ Hok' Hreg'), (mcu_reg_get st _ Hok Hreg').
    f_equal. apply mcu_reg_strobe. lia.
Qed.

End Register_windows.

(** ** The MCU dispatcher, case by case *)

Section Mcu_cases.

Context {card : Type}.
Variable card_read : card -> Z -> Z.
Variable card_write : card -> Z -> Z -> card.

Abbreviation state := (@pgm2_state card).
Abbreviation mcu_switch' := (mcu_switch card_read card_write).
Abbreviation mcu_command' := (mcu_command card_read card_write).
Abbreviation mcu_w' := (mcu_w card_read card_write).
Abbreviation mcu_slot st := (m_memcard_device (Z.land (mcu_arg1 st) 3) st).
Abbreviation mcu_base st := (Z.land (Z.lnot (m_share_bank st)) 1 * 128).

Implicit Types st : state.

Lemma mcu_switch_c0 st :
  mailbox_ok st ->
  mcu_switch' 0xc0 st =
  Done (set_m_mcu_result0 0xc0 st,
        if present (mcu_slot st) =? -1 then 0xf4 else 0xf7, 1).
Proof.
  intros Hok. unfold mcu_switch.
  rewrite (mcu_reg_get st 0) by (assumption || lia). state_simpl.
  switch_simpl. reflexivity.
Qed.

(** The commands that only report their own code. *)
Lemma mcu_switch_stub (cmd : Z) st :
  mailbox_ok st -> cmd ∈ [0xc1; 0xc4; 0xc5; 0xc6; 0xc9] ->
  mcu_switch' cmd st = Done (set_m_mcu_result0 cmd st, 0xf7, 1).
Proof.
  intros Hok Hcmd. unfold mcu_switch.
  rewrite (mcu_reg_get st 0) by (assumption || lia). state_simpl.
  repeat (apply elem_of_cons in Hcmd; destruct Hcmd as [->|Hcmd]);
    [switch_simpl; reflexivity ..|].
  apply elem_of_nil in Hcmd. contradiction.
Qed.

Lemma mcu_switch_c7 st :
  mailbox_ok st ->
  mcu_switch' 0xc7 st =
  Done (set_m_mcu_result0 0xc7 (set_m_mcu_result1 0xf81f0000 st), 0xf7, 1).
Proof.
  intros Hok. unfold mcu_switch.
  rewrite (mcu_reg_get st 0) by (assumption || lia). state_simpl.
  switch_simpl. reflexivity.
Qed.

Lemma mcu_switch_c8 st :
  mailbox_ok st ->
  mcu_switch' 0xc8 st =
  Done (set_m_mcu_result0 0xc8
          match mcu_slot st with
          | Some c =>
              set_m_memcard_device (Z.land (mcu_arg1 st) 3)
                (Some (card_write c (mcu_arg2 st) (mcu_arg3 st))) st
          | None => st
          end, 0xf7, 1).
Proof.
  intros Hok. unfold mcu_switch.
  rewrite (mcu_reg_get st 0) by (assumption || lia). state_simpl.
  switch_simpl. reflexivity.
Qed.

Lemma mcu_switch_e1_other st :
  mailbox_ok st -> mcu_arg2 st <> 2 ->
  mcu_switch' 0xe1 st =
  Done (set_m_mcu_result1 0 (set_m_mcu_result0 0xe1 st), 0xf7, 1).
Proof.
  intros Hok Hmode. unfold mcu_switch.
  rewrite (mcu_reg_get st 0) by (assumption || lia). state_simpl.
  switch_simpl. index_simpl. fold (mcu_arg2 st).
  apply Z.eqb_neq in Hmode. rewrite Hmode. reflexivity.
Qed.

(** With no card in the slot the copy loops do nothing, however long. *)
Lemma mcu_c2_loop_empty (arg1 arg2 : Z) (n : nat) :
  forall (i : Z) st,
    m_memcard_device (Z.land arg1 3) st = None ->
    iterate n i 1 (mcu_c2_step card_read arg1 arg2) st = Done st.
Proof.
  induction n as [|n IH]; intros i st Hslot; [reflexivity|].
  cbn [iterate].
  replace (mcu_c2_step card_read arg1 arg2 i st) with (Done st)
    by (unfold mcu_c2_step; rewrite Hslot; reflexivity).
  cbn [mbind outcome_bind mret outcome_ret]. apply IH, Hslot.
Qed.

Lemma mcu_c3_loop_empty (arg1 arg2 : Z) (n : nat) :
  forall (i : Z) st,
    m_memcard_device (Z.land arg1 3) st = None ->
    iterate n i 1 (mcu_c3_step card_write arg1 arg2) st = Done st.
Proof.
  induction n as [|n IH]; intros i st Hslot; [reflexivity|].
  cbn [iterate].
  replace (mcu_c3_step card_write arg1 arg2 i st) with (Done st)
    by (unfold mcu_c3_step; rewrite Hslot; reflexivity).
  cbn [mbind outcome_bind mret outcome_ret]. apply IH, Hslot.
Qed.

Lemma set_memcard_device_effects (k : Z) (v : option card) st :
  same_outside_mcu st (set_m_memcard_device k v st) /\
  m_shareram (set_m_memcard_device k v st) = m_shareram st /\
  m_mcu_regs (set_m_memcard_device k v st) = m_mcu_regs st /\
  m_mcu_last_cmd (set_m_memcard_device k v st) = m_mcu_last_cmd st /\
  m_mcu_result0 (set_m_memcard_device k v st) = m_mcu_result0 st /\
  m_mcu_result1 (set_m_memcard_device k v st) = m_mcu_result1 st /\
  m_mcu_timer (set_m_memcard_device k v st) = m_mcu_timer st /\
  logerror_out (set_m_memcard_device k v st) = logerror_out st.
Proof.
  unfold set_m_memcard_device, same_outside_mcu.
  destruct (k =? 0); [repeat split|].
  destruct (k =? 1); [repeat split|].
  destruct (k =? 2); repeat split.
Qed.

Lemma memcards_set_same (k : Z) st :
  memcards (set_m_memcard_device k (m_memcard_device k st) st) = memcards st.
Proof.
  unfold memcards, set_m_memcard_device, m_memcard_device.
  destruct (k =? 0); [reflexivity|].
  destruct (k =? 1); [reflexivity|].
  destruct (k =? 2); reflexivity.
Qed.

(** Finds a literal in a list of literals. *)
Ltac in_list :=
  rewrite ?elem_of_cons; repeat first [left; reflexivity | right].

(** Rewrites an outcome of the switch under the state an issue passes. *)
Ltac effects_start Hc Hknown :=
  right; eexists; unfold issue_status, issue_delay, issue_effects,
    same_outside_mcu, shareram_ok, memcards;
  rewrite Hknown, ?Hc.

Ltac effects_finish :=
  state_simpl; cbn [negb orb andb Z.eqb Pos.eqb];
  repeat match goal with
         | |- _ /\ _ => split
         | |- _ = _ => first [reflexivity | assumption]
         | |- _ ∈ _ => first [assumption | (unfold known_commands; in_list)]
         | |- _ -> _ => intro
         | H1 : ?x = Some _, H2 : ?x = None |- _ => congruence
         | H : _ \/ _ |- _ => destruct H
         | H : ?a <> ?b |- _ =>
             first [exfalso; apply H; reflexivity | clear H]
         | H : ~ _ |- _ => exfalso; apply H; clear H
         | H : _ ∉ _ |- _ => exfalso; apply H; clear H
         | H : ?a = ?b |- _ => first [discriminate H | (exfalso; lia)]
         end.

(** Every case of the switch, for an issue on a machine with its eight
    registers and its 256 bytes of shared RAM: either a card copy runs past
    the end of the shared RAM, or the switch completes with the status,
    the delay and the effects named above. *)
Lemma mcu_switch_effects st :
  mailbox_ok st -> shareram_ok st ->
  ((mcu_cmd st = 0xc2 \/ mcu_cmd st = 0xc3) /\
   (exists c, mcu_slot st = Some c) /\
   128 < mcu_arg3 st /\ Z.land (m_share_bank st) 1 = 0 /\
   mcu_switch' (mcu_cmd st) (set_m_mcu_last_cmd (mcu_cmd st) st) =
     OutOfRange 256) \/
  exists st1,
    mcu_switch' (mcu_cmd st) (set_m_mcu_last_cmd (mcu_cmd st) st) =
      Done (st1, issue_status st, issue_delay st) /\
    issue_effects st st1.
Proof.
  intros Hok Hram.
  pose proof (mcu_arg3_range st) as Harg3.
  destruct (decide (mcu_cmd st ∈ known_commands)) as [Hk|Hk].
  2: { assert (He0 : (mcu_cmd st =? 0xe0) = false)
         by (apply Z.eqb_neq; intros E; apply Hk; rewrite E;
             unfold known_commands; in_list).
       assert (Hf6 : (mcu_cmd st =? 0xf6) = false)
         by (apply Z.eqb_neq; intros E; apply Hk; rewrite E;
             unfold known_commands; in_list).
       right. eexists.
       unfold issue_status, issue_delay, issue_effects, same_outside_mcu,
         shareram_ok, memcards.
       rewrite (bool_decide_eq_false_2 _ Hk), He0, Hf6. cbn [negb orb].
       split; [apply mcu_switch_default; assumption|].
       effects_finish. }
  pose proof Hk as Hknown. unfold known_commands in Hk.
  rewrite <- (bool_decide_eq_true _) in Hknown.
  repeat (apply elem_of_cons in Hk; destruct Hk as [Hc|Hk]);
    [..|apply elem_of_nil in Hk; contradiction].
  - (* 0xf6 *)
    effects_start Hc Hknown.
    split; [apply mcu_switch_f6; exact Hok|]. effects_finish.
  - (* 0xe0 *)
    effects_start Hc Hknown.
    split; [apply mcu_switch_e0; exact Hok|]. effects_finish.
  - (* 0xe1 *)
    destruct (Z.eq_dec (mcu_arg2 st) 2) as [Hmode|Hmode].
    + effects_start Hc Hknown.
      split.
      * rewrite (mcu_switch_e1_fill card_read card_write
                   (set_m_mcu_last_cmd 0xe1 st) Hok Hmode).
        rewrite memset_run;
          [reflexivity
          |destruct (bank_bits (m_share_bank st)) as [[_ Hb]|[_ Hb]];
             state_simpl; rewrite Hb; lia
          |lia
          |state_simpl; unfold shareram_ok in Hram; rewrite Hram;
             destruct (bank_bits (m_share_bank st)) as [[_ Hb]|[_ Hb]];
             rewrite Hb; lia].
      * effects_finish; rewrite ?map_visited_length; try assumption; tauto.
    + effects_start Hc Hknown.
      split; [apply mcu_switch_e1_other; assumption|]. effects_finish.
  - (* 0xc0 *)
    effects_start Hc Hknown.
    split; [apply mcu_switch_c0; exact Hok|]. effects_finish.
  - (* 0xc1 *)
    effects_start Hc Hknown.
    split; [apply mcu_switch_stub; [exact Hok|in_list]|]. effects_finish.
  - (* 0xc2 *)
    destruct (mcu_slot st) as [c|] eqn:Hslot.
    + destruct (Z.le_gt_cases (mcu_base st + mcu_arg3 st) 256) as [Hfit|Hover].
      * effects_start Hc Hknown.
        split.
        -- rewrite (mcu_switch_c2 card_read card_write
                      (set_m_mcu_last_cmd 0xc2 st) Hok).
           rewrite (mcu_c2_copy card_read (set_m_mcu_last_cmd 0xc2 st) c
                      Hram Hslot Hfit).
           reflexivity.
        -- effects_finish; rewrite ?map_visited_length; try assumption.
      * left. rewrite Hc.
        split; [left; reflexivity|]. split; [exists c; reflexivity|].
        destruct (bank_bits (m_share_bank st)) as [[Hb Hm]|[Hb Hm]];
          rewrite Hm in Hover; [|lia].
        split; [lia|]. split; [exact Hb|].
        rewrite (mcu_switch_c2 card_read card_write
                   (set_m_mcu_last_cmd 0xc2 st) Hok).
        assert (Hover' : 256 < mcu_base st + mcu_arg3 st)
          by (rewrite Hm; lia).
        rewrite (mcu_c2_copy_overrun card_read (set_m_mcu_last_cmd 0xc2 st) c
                   Hram Hslot Hover').
        reflexivity.
    + effects_start Hc Hknown.
      split.
      * rewrite (mcu_switch_c2 card_read card_write
                   (set_m_mcu_last_cmd 0xc2 st) Hok).
        unfold for_loop. rewrite mcu_c2_loop_empty by exact Hslot.
        reflexivity.
      * effects_finish.
  - (* 0xc3 *)
    destruct (mcu_slot st) as [c|] eqn:Hslot.
    + destruct (Z.le_gt_cases (mcu_base st + mcu_arg3 st) 256) as [Hfit|Hover].
      * effects_start Hc Hknown.
        split.
        -- rewrite (mcu_switch_c3 card_read card_write
                      (set_m_mcu_last_cmd 0xc3 st) Hok).
           rewrite (mcu_c3_copy card_write (set_m_mcu_last_cmd 0xc3 st) c
                      Hram Hslot Hfit).
           reflexivity.
        -- match goal with
           | |- context [set_m_memcard_device ?k ?v ?t] =>
               destruct (set_memcard_device_effects k v t)
                 as ((E1 & E2 & E3 & E4 & E5 & E6 & E7 & E8 & E9 & E10)
                     & F1 & F2 & F3 & F4 & F5 & F6 & F7)
           end.
           state_simpl.
           rewrite ?E1, ?E2, ?E3, ?E4, ?E5, ?E6, ?E7, ?E8, ?E9, ?E10,
             ?F1, ?F2, ?F3, ?F4, ?F5, ?F6, ?F7.
           effects_finish.
      * left. rewrite Hc.
        split; [right; reflexivity|]. split; [exists c; reflexivity|].
        destruct (bank_bits (m_share_bank st)) as [[Hb Hm]|[Hb Hm]];
          rewrite Hm in Hover; [|lia].
        split; [lia|]. split; [exact Hb|].
        rewrite (mcu_switch_c3 card_read card_write
                   (set_m_mcu_last_cmd 0xc3 st) Hok).
        assert (Hover' : 256 < mcu_base st + mcu_arg3 st)
          by (rewrite Hm; lia).
        rewrite (mcu_c3_copy_overrun card_write (set_m_mcu_last_cmd 0xc3 st) c
                   Hram Hslot Hover').
        reflexivity.
    + effects_start Hc Hknown.
      split.
      * rewrite (mcu_switch_c3 card_read card_write
                   (set_m_mcu_last_cmd 0xc3 st) Hok).
        unfold for_loop. rewrite mcu_c3_loop_empty by exact Hslot.
        reflexivity.
      * effects_finish.
  - (* 0xc7 *)
    effects_start Hc Hknown.
    split; [apply mcu_switch_c7; exact Hok|]. effects_finish.
  - (* 0xc8 *)
    effects_start Hc Hknown.
    split; [apply mcu_switch_c8; exact Hok|].
    change (m_memcard_device (Z.land (mcu_arg1 (set_m_mcu_last_cmd 0xc8 st)) 3)
              (set_m_mcu_last_cmd 0xc8 st)) with (mcu_slot st).
    destruct (mcu_slot st) as [c|] eqn:Hslot.
    + match goal with
      | |- context [set_m_memcard_device ?k ?v ?t] =>
          destruct (set_memcard_device_effects k v t)
            as ((E1 & E2 & E3 & E4 & E5 & E6 & E7 & E8 & E9 & E10)
                & F1 & F2 & F3 & F4 & F5 & F6 & F7)
      end.
      state_simpl.
      rewrite ?E1, ?E2, ?E3, ?E4, ?E5, ?E6, ?E7, ?E8, ?E9, ?E10,
        ?F1, ?F2, ?F3, ?F4, ?F5, ?F6, ?F7.
      effects_finish.
    + effects_finish.
  - (* 0xc4 *)
    effects_start Hc Hknown.
    split; [apply mcu_switch_stub; [exact Hok|in_list]|]. effects_finish.
  - (* 0xc5 *)
    effects_start Hc Hknown.
    split; [apply mcu_switch_stub; [exact Hok|in_list]|]. effects_finish.
  - (* 0xc6 *)
    effects_start Hc Hknown.
    split; [apply mcu_switch_stub; [exact Hok|in_list]|]. effects_finish.
  - (* 0xc9 *)
    effects_start Hc Hknown.
    split; [apply mcu_switch_stub; [exact Hok|in_list]|]. effects_finish.
Qed.

Lemma issue_effects_mailbox st st1 :
  mailbox_ok st -> issue_effects st st1 -> mailbox_ok st1.
Proof.
  intros Hok (Hregs & _). unfold mailbox_ok in *. rewrite Hregs.
  destruct (mcu_cmd st =? 0xf6); rewrite ?length_insert; exact Hok.
Qed.

(** An issue as a whole: the overrun of a card copy, or the state the
    switch leaves with the status packed and the timer armed. *)
Lemma mcu_command_effects st :
  mailbox_ok st -> shareram_ok st ->
  ((mcu_cmd st = 0xc2 \/ mcu_cmd st = 0xc3) /\
   (exists c, mcu_slot st = Some c) /\
   128 < mcu_arg3 st /\ Z.land (m_share_bank st) 1 = 0 /\
   mcu_command' true st = OutOfRange 256) \/
  exists st1,
    issue_effects st st1 /\
    mcu_command' true st =
    Done (set_m_mcu_timer (Some (from_msec (issue_delay st)))
            (set_m_mcu_regs
               (<[3%nat := with_status (mcu_reg st1 3) (issue_status st)]>
                  (m_mcu_regs st1)) st1)).
Proof.
  intros Hok Hram.
  destruct (mcu_switch_effects st Hok Hram)
    as [(Hcmd & Hslot & Hlen & Hbank & Hrun)|(st1 & Hrun & Heff)].
  - left. repeat (split; [assumption|]).
    rewrite (mcu_command_issue card_read card_write st Hok).
    fold (mcu_cmd st). rewrite Hrun. reflexivity.
  - right. exists st1. split; [exact Heff|].
    apply (mcu_command_finish card_read card_write st st1 _ _ Hok);
      [exact (issue_effects_mailbox st st1 Hok Heff)|exact Hrun].
Qed.

(** X4. An issue on a machine with its eight registers and 256 bytes of
    shared RAM completes for every command word, except that a 0xC2 or
    0xC3 copy with a card in the slot, more than 128 bytes and an even
    bank selector runs past the end of the shared RAM, at index 256 and
    nowhere else. *)
Theorem mcu_issue_completes_or_overruns st :
  mailbox_ok st -> shareram_ok st ->
  let overrun :=
    (mcu_cmd st = 0xc2 \/ mcu_cmd st = 0xc3) /\
    (exists c, mcu_slot st = Some c) /\
    128 < mcu_arg3 st /\ Z.land (m_share_bank st) 1 = 0 in
  (overrun -> mcu_command' true st = OutOfRange 256) /\
  (~ overrun -> exists st', mcu_command' true st = Done st') /\
  (forall i, mcu_command' true st = OutOfRange i -> i = 256 /\ overrun).
Proof.
  intros Hok Hram overrun. subst overrun.
  destruct (mcu_command_effects st Hok Hram)
    as [(Hcmd & Hslot & Hlen & Hbank & Hrun)|(st1 & Heff & Hrun)].
  - split; [intros _; exact Hrun|]. split.
    + intros Hnot. exfalso. apply Hnot. repeat split; assumption.
    + intros i Hi. rewrite Hrun in Hi. injection Hi as <-.
      repeat split; assumption.
  - assert (Hnot : ~ ((mcu_cmd st = 0xc2 \/ mcu_cmd st = 0xc3) /\
                      (exists c, mcu_slot st = Some c) /\
                      128 < mcu_arg3 st /\ Z.land (m_share_bank st) 1 = 0)).
    { intros (Hcmd & (c & Hslot) & Hlen & Hbank).
      assert (Hbase : 256 < mcu_base st + mcu_arg3 st).
      { destruct (bank_bits (m_share_bank st)) as [[_ Hm]|[Hb _]];
          [rewrite Hm; lia|congruence]. }
      destruct Hcmd as [Hc|Hc].
      - rewrite (mcu_command_c2_overrun card_read card_write st c) in Hrun
          by assumption. discriminate Hrun.
      - rewrite (mcu_command_c3_overrun card_read card_write st c) in Hrun
          by assumption. discriminate Hrun. }
    split; [intros Hover; contradiction|]. split.
    + intros _. eexists. exact Hrun.
    + intros i Hi. rewrite Hrun in Hi. discriminate Hi.
Qed.

(** X5. An issue that completes answers in the mailbox: the status field of
    register 3 is 0xF4 for a command byte without a case and for 0xC0 on an
    empty slot, 0xF7 otherwise; the timer is armed for 30 ms after 0xE0 and
    for 1 ms after every other command; lastCommand holds the command byte,
    or 0 after 0xF6. *)
Theorem mcu_issue_answer st st' :
  mailbox_ok st -> shareram_ok st ->
  mcu_command' true st = Done st' ->
  mcu_status st' = issue_status st /\
  (issue_status st = 0xf4 <->
   mcu_cmd st ∉ known_commands \/ (mcu_cmd st = 0xc0 /\ mcu_slot st = None)) /\
  (issue_status st = 0xf4 \/ issue_status st = 0xf7) /\
  m_mcu_timer st' = Some (from_msec (if mcu_cmd st =? 0xe0 then 30 else 1)) /\
  m_mcu_last_cmd st' = (if mcu_cmd st =? 0xf6 then 0 else mcu_cmd st) /\
  mailbox_ok st' /\ shareram_ok st'.
Proof.
  intros Hok Hram Hrun.
  destruct (mcu_command_effects st Hok Hram)
    as [(_ & _ & _ & _ & Hover)|(st1 & Heff & Hdone)];
    [rewrite Hover in Hrun; discriminate Hrun|].
  rewrite Hdone in Hrun. injection Hrun as <-.
  pose proof (issue_effects_mailbox st st1 Hok Heff) as Hok1.
  destruct Heff as (_ & Hlast & _ & Hram1 & _).
  assert (Hstatus : issue_status st = 0xf4 \/ issue_status st = 0xf7)
    by (unfold issue_status;
        destruct (negb _ || _); [left|right]; reflexivity).
  split; [|split; [|split; [exact Hstatus|]]].
  - unfold mcu_status, mcu_reg. state_simpl.
    rewrite nth_insert_eq by (unfold mailbox_ok in Hok1; lia).
    apply status_of_with_status. destruct Hstatus as [->| ->]; lia.
  - unfold issue_status.
    destruct (bool_decide (mcu_cmd st ∈ known_commands)) eqn:Hk;
      cbn [negb orb].
    + apply bool_decide_eq_true in Hk.
      destruct (Z.eqb_spec (mcu_cmd st) 0xc0) as [Hc0|Hc0]; cbn [andb].
      * destruct (mcu_slot st) as [c|]; cbn [present Z.eqb].
        -- split; [discriminate|].
           intros [Hn|[_ Hs]]; [contradiction|discriminate].
        -- split; [intros _; right; split; [exact Hc0|reflexivity]|reflexivity].
      * split; [discriminate|].
        intros [Hn|[Hc Hs]]; [contradiction|contradiction].
    + apply bool_decide_eq_false in Hk.
      split; [intros _; left; exact Hk|reflexivity].
  - unfold issue_delay, mailbox_ok, shareram_ok in *. state_simpl.
    rewrite length_insert. repeat split; assumption.
Qed.

(** X6. An MCU command, issue or acknowledge, writes only the mailbox, the
    results, lastCommand, the shared RAM, the cards, the timer and the log:
    the encryption table, the decrypt flag, the sprite keys, the bank
    selector and the ROM regions keep their values, and no interrupt is
    raised by the dispatch. *)
Theorem mcu_command_frame (is_command : bool) st st' :
  mailbox_ok st -> shareram_ok st ->
  mcu_command' is_command st = Done st' ->
  same_outside_mcu st st'.
Proof.
  intros Hok Hram Hrun. destruct is_command.
  - destruct (mcu_command_effects st Hok Hram)
      as [(_ & _ & _ & _ & Hover)|(st1 & Heff & Hdone)];
      [rewrite Hover in Hrun; discriminate Hrun|].
    rewrite Hdone in Hrun. injection Hrun as <-.
    destruct Heff as (_ & _ & Hsame & _).
    unfold same_outside_mcu in *. state_simpl. exact Hsame.
  - destruct (Z.eq_dec (m_mcu_last_cmd st) 0) as [Hidle|Hpending].
    + rewrite (mcu_command_ack_idle card_read card_write st Hok Hidle) in Hrun.
      injection Hrun as <-. unfold same_outside_mcu. repeat split.
    + rewrite (mcu_command_ack_pending card_read card_write st Hok Hpending)
        in Hrun.
      injection Hrun as <-. unfold same_outside_mcu. repeat split.
Qed.

(** X7. Of all the commands only the 0xE1 mode-2 fill and the 0xC2 copy
    change the shared RAM, only 0xC3 and 0xC8 change a card, and only a
    command byte without a case writes to the log. *)
Theorem mcu_issue_memory_frame st st' :
  mailbox_ok st -> shareram_ok st ->
  mcu_command' true st = Done st' ->
  (mcu_cmd st <> 0xc2 -> ~ (mcu_cmd st = 0xe1 /\ mcu_arg2 st = 2) ->
   m_shareram st' = m_shareram st) /\
  (mcu_cmd st <> 0xc3 -> mcu_cmd st <> 0xc8 -> memcards st' = memcards st) /\
  (mcu_cmd st ∈ known_commands -> logerror_out st' = logerror_out st).
Proof.
  intros Hok Hram Hrun.
  destruct (mcu_command_effects st Hok Hram)
    as [(_ & _ & _ & _ & Hover)|(st1 & Heff & Hdone)];
    [rewrite Hover in Hrun; discriminate Hrun|].
  rewrite Hdone in Hrun. injection Hrun as <-.
  destruct Heff as (_ & _ & _ & _ & _ & Hshare & Hcards & _ & Hlog & _).
  unfold memcards in *. state_simpl. repeat split; assumption.
Qed.

(** X8. A card command on an empty slot is skipped: 0xC2, 0xC3 and 0xC8
    complete without touching the shared RAM or any card, whatever the
    length argument (no index is computed, so none is out of range). *)
Theorem mcu_empty_slot_skipped st :
  mailbox_ok st -> shareram_ok st ->
  mcu_cmd st ∈ [0xc2; 0xc3; 0xc8] ->
  mcu_slot st = None ->
  exists st',
    mcu_command' true st = Done st' /\
    m_shareram st' = m_shareram st /\
    memcards st' = memcards st /\
    mcu_status st' = 0xf7 /\
    m_mcu_result0 st' = mcu_cmd st.
Proof.
  intros Hok Hram Hcmd Hslot.
  destruct (mcu_command_effects st Hok Hram)
    as [(_ & (c & Hsome) & _)|(st1 & Heff & Hdone)]; [congruence|].
  eexists. split; [exact Hdone|].
  assert (Hknown : mcu_cmd st ∈ known_commands).
  { unfold known_commands.
    repeat (apply elem_of_cons in Hcmd; destruct Hcmd as [->|Hcmd]);
      [in_list ..|apply elem_of_nil in Hcmd; contradiction]. }
  assert (Hne : mcu_cmd st <> 0xe1 /\ mcu_cmd st <> 0xf6 /\
                mcu_cmd st <> 0xe0 /\ mcu_cmd st <> 0xc0).
  { repeat (apply elem_of_cons in Hcmd; destruct Hcmd as [->|Hcmd]);
      [repeat split; discriminate ..|apply elem_of_nil in Hcmd; contradiction]. }
  destruct Hne as (He1 & Hf6 & He0 & Hc0).
  pose proof (issue_effects_mailbox st st1 Hok Heff) as Hok1.
  destruct Heff as (_ & _ & _ & _ & _ & _ & _ & Hempty & _ & _ & Hres).
  destruct (Hempty Hslot He1) as [Hshare Hcards].
  unfold memcards in *. state_simpl.
  split; [exact Hshare|]. split; [exact Hcards|].
  split; [|exact (Hres Hknown Hf6 He0)].
  unfold mcu_status, mcu_reg. state_simpl.
  rewrite nth_insert_eq by (unfold mailbox_ok in Hok1; lia).
  rewrite status_of_with_status;
    unfold issue_status;
    rewrite (bool_decide_eq_true_2 _ Hknown);
    apply Z.eqb_neq in Hc0; rewrite Hc0; cbn [negb orb andb];
    [reflexivity|lia].
Qed.

Lemma mcu_issue_pending st st' :
  mailbox_ok st -> shareram_ok st ->
  mcu_command' true st = Done st' ->
  mailbox_ok st' /\
  m_mcu_last_cmd st' = (if mcu_cmd st =? 0xf6 then 0 else mcu_cmd st).
Proof.
  intros Hok Hram Hrun.
  destruct (mcu_command_effects st Hok Hram)
    as [(_ & _ & _ & _ & Hover)|(st1 & Heff & Hdone)];
    [rewrite Hover in Hrun; discriminate Hrun|].
  rewrite Hdone in Hrun. injection Hrun as <-.
  pose proof (issue_effects_mailbox st st1 Hok Heff) as Hok1.
  destruct Heff as (_ & Hlast & _).
  unfold mailbox_ok in *. state_simpl. rewrite length_insert.
  split; assumption.
Qed.

(** X9. After an issue that completes, one acknowledge finishes the
    exchange: for a command byte other than 0xF6 and 0x00 it puts the done
    code 0xF2 into the status field, re-arms the timer for 100
    microseconds, clears lastCommand and keeps the results, the shared RAM
    and the cards, and a second acknowledge changes nothing.  After 0xF6,
    and after the (unknown) command byte 0x00, nothing is pending and the
    acknowledge already changes nothing. *)
Theorem mcu_issue_then_acknowledge st st' :
  mailbox_ok st -> shareram_ok st ->
  mcu_command' true st = Done st' ->
  (mcu_cmd st <> 0xf6 -> mcu_cmd st <> 0 ->
   exists st'',
     mcu_command' false st' = Done st'' /\
     mcu_status st'' = 0xf2 /\
     m_mcu_timer st'' = Some (from_usec 100) /\
     m_mcu_last_cmd st'' = 0 /\
     m_mcu_result0 st'' = m_mcu_result0 st' /\
     m_mcu_result1 st'' = m_mcu_result1 st' /\
     m_shareram st'' = m_shareram st' /\
     memcards st'' = memcards st' /\
     mcu_command' false st'' = Done st'') /\
  (mcu_cmd st = 0xf6 \/ mcu_cmd st = 0 -> mcu_command' false st' = Done st').
Proof.
  intros Hok Hram Hrun.
  destruct (mcu_issue_pending st st' Hok Hram Hrun) as [Hok' Hlast].
  split.
  - intros Hf6 H0.
    assert (Hpending : m_mcu_last_cmd st' <> 0).
    { rewrite Hlast. apply Z.eqb_neq in Hf6. rewrite Hf6. exact H0. }
    rewrite (mcu_command_ack_pending card_read card_write st' Hok' Hpending).
    eexists. split; [reflexivity|].
    unfold memcards. state_simpl.
    split; [|repeat (split; [reflexivity|])].
    + unfold mcu_status, mcu_reg. state_simpl.
      rewrite nth_insert_eq by (unfold mailbox_ok in Hok'; lia).
      apply status_of_with_status. lia.
    + apply mcu_command_ack_idle; [|reflexivity].
      unfold mailbox_ok in *. state_simpl. rewrite length_insert. exact Hok'.
  - intros Hnone. apply mcu_command_ack_idle; [exact Hok'|].
    rewrite Hlast. destruct Hnone as [->| ->]; reflexivity.
Qed.

Lemma memcard_device_set_other (k j : Z) (v : option card) st :
  0 <= k < 4 -> 0 <= j < 4 -> k <> j ->
  m_memcard_device k (set_m_memcard_device j v st) = m_memcard_device k st.
Proof.
  intros Hk Hj Hne. unfold m_memcard_device, set_m_memcard_device.
  destruct (Z.eqb_spec j 0); [destruct (Z.eqb_spec k 0); [lia|reflexivity]|].
  destruct (Z.eqb_spec j 1);
    [destruct (Z.eqb_spec k 0); [reflexivity|];
     destruct (Z.eqb_spec k 1); [lia|reflexivity]|].
  destruct (Z.eqb_spec j 2);
    [destruct (Z.eqb_spec k 0); [reflexivity|];
     destruct (Z.eqb_spec k 1); [reflexivity|];
     destruct (Z.eqb_spec k 2); [lia|reflexivity]|].
  destruct (Z.eqb_spec k 0); [reflexivity|].
  destruct (Z.eqb_spec k 1); [reflexivity|].
  destruct (Z.eqb_spec k 2); [reflexivity|]. lia.
Qed.

(** X10. The 0xC8 command with a card in the slot writes one byte, arg3 at
    card offset arg2, to that card only; the shared RAM keeps its bytes.
    The 0xC0 command changes neither and reports the slot: status 0xF7
    with a card in it, 0xF4 without. *)
Theorem mcu_card_byte_and_presence st :
  mailbox_ok st -> shareram_ok st ->
  (mcu_cmd st = 0xc8 ->
   forall c, mcu_slot st = Some c ->
   exists st',
     mcu_command' true st = Done st' /\
     m_memcard_device (Z.land (mcu_arg1 st) 3) st' =
       Some (card_write c (mcu_arg2 st) (mcu_arg3 st)) /\
     (forall k, 0 <= k < 4 -> k <> Z.land (mcu_arg1 st) 3 ->
        m_memcard_device k st' = m_memcard_device k st) /\
     m_shareram st' = m_shareram st) /\
  (mcu_cmd st = 0xc0 ->
   exists st',
     mcu_command' true st = Done st' /\
     memcards st' = memcards st /\
     m_shareram st' = m_shareram st /\
     m_mcu_result0 st' = 0xc0 /\
     mcu_status st' =
       match mcu_slot st with Some _ => 0xf7 | None => 0xf4 end).
Proof.
  intros Hok Hram. split.
  - intros Hcmd c Hslot. unfold mcu_cmd in Hcmd.
    pose proof (mcu_switch_c8 (set_m_mcu_last_cmd 0xc8 st) Hok) as Hsw.
    change (m_memcard_device
              (Z.land (mcu_arg1 (set_m_mcu_last_cmd 0xc8 st)) 3)
              (set_m_mcu_last_cmd 0xc8 st)) with (mcu_slot st) in Hsw.
    rewrite Hslot in Hsw. rewrite <- Hcmd in Hsw at 1 2.
    destruct (set_memcard_device_effects (Z.land (mcu_arg1 st) 3)
                (Some (card_write c (mcu_arg2 st) (mcu_arg3 st)))
                (set_m_mcu_last_cmd 0xc8 st))
      as (_ & Fram & Fregs & _).
    rewrite (fun H1 => mcu_command_finish card_read card_write st _ _ _ Hok H1 Hsw)
      by (unfold mailbox_ok; state_simpl;
          rewrite (proj1 (proj2 (proj2 (set_memcard_device_effects _ _ _))));
          exact Hok).
    eexists. split; [reflexivity|].
    split; [|split].
    + change (m_memcard_device (Z.land (mcu_arg1 st) 3)
                (set_m_memcard_device (Z.land (mcu_arg1 st) 3)
                   (Some (card_write c (mcu_arg2 st) (mcu_arg3 st)))
                   (set_m_mcu_last_cmd 0xc8 st)) =
              Some (card_write c (mcu_arg2 st) (mcu_arg3 st))).
      apply memcard_device_set.
    + intros k Hk Hne.
      change (m_memcard_device k
                (set_m_memcard_device (Z.land (mcu_arg1 st) 3)
                   (Some (card_write c (mcu_arg2 st) (mcu_arg3 st)))
                   (set_m_mcu_last_cmd 0xc8 st)) =
              m_memcard_device k (set_m_mcu_last_cmd 0xc8 st)).
      apply memcard_device_set_other;
        [exact Hk|apply land_3_range|exact Hne].
    + exact Fram.
  - intros Hcmd. unfold mcu_cmd in Hcmd.
    pose proof (mcu_switch_c0 (set_m_mcu_last_cmd 0xc0 st) Hok) as Hsw.
    change (m_memcard_device
              (Z.land (mcu_arg1 (set_m_mcu_last_cmd 0xc0 st)) 3)
              (set_m_mcu_last_cmd 0xc0 st)) with (mcu_slot st) in Hsw.
    rewrite <- Hcmd in Hsw at 1 2.
    rewrite (fun H1 => mcu_command_finish card_read card_write st _ _ _ Hok H1 Hsw)
      by exact Hok.
    eexists. split; [reflexivity|].
    unfold memcards, mcu_status, mcu_reg. state_simpl.
    repeat (split; [reflexivity|]).
    rewrite nth_insert_eq by (unfold mailbox_ok in Hok; lia).
    destruct (mcu_slot st); cbn [present Z.eqb];
      apply status_of_with_status; lia.
Qed.

End Mcu_cases.

(** ** Keys and decoders lose nothing *)

Lemma testbit_above_32 (w i : Z) :
  0 <= w < 2 ^ 32 -> 32 <= i -> Z.testbit w i = false.
Proof.
  intros Hw Hi. rewrite <- (Z.mod_small w (2 ^ 32)) by exact Hw.
  apply Z.mod_pow2_bits_high. lia.
Qed.

Lemma BITSWAP32_reversed_involutive (x : Z) :
  0 <= x < 2 ^ 32 -> BITSWAP32_reversed (BITSWAP32_reversed x) = x.
Proof.
  intros Hx.
  destruct (BITSWAP32_reversed_spec x) as [Hr1 Hb1].
  destruct (BITSWAP32_reversed_spec (BITSWAP32_reversed x)) as [Hr2 Hb2].
  apply Z.bits_inj'. intros i Hi.
  destruct (Z.lt_ge_cases i 32).
  - rewrite Hb2, Hb1 by lia. f_equal. lia.
  - rewrite !testbit_above_32 by (assumption || lia). reflexivity.
Qed.

Lemma to_u32_range (x : Z) : 0 <= to_u32 x < 2 ^ 32.
Proof.
  unfold to_u32. change 0xffffffff with (Z.ones 32).
  rewrite Z.land_ones by lia. apply Z.mod_pos_bound. reflexivity.
Qed.

(** A register holding 32 bits still holds 32 bits after a masked write of
    a 32-bit value. *)
Lemma COMBINE_DATA_range (var data mem_mask : Z) :
  0 <= data < 2 ^ 32 -> 0 <= COMBINE_DATA var data mem_mask < 2 ^ 32.
Proof.
  intros Hdata. unfold COMBINE_DATA, not32.
  pose proof (to_u32_range (Z.lnot mem_mask)) as Hnot.
  assert (H0 : 0 <= Z.lor (Z.land var (to_u32 (Z.lnot mem_mask)))
                      (Z.land data mem_mask)).
  { apply Z.lor_nonneg. split; apply Z.land_nonneg; [right|left]; lia. }
  split; [exact H0|].
  apply bits_above_bound; [lia|exact H0|].
  intros i Hi. rewrite Z.lor_spec, !Z.land_spec.
  rewrite (testbit_above_32 (to_u32 (Z.lnot mem_mask))) by (assumption || lia).
  rewrite (testbit_above_32 data) by (assumption || lia).
  rewrite andb_false_r. reflexivity.
Qed.

Section Sprite_key_inverse.

Context {card : Type}.
Implicit Types st : @pgm2_state card.

(** X11. With live re-keying (predecrypted false) the derived key loses
    nothing of a 32-bit raw key: reversing the bits of the real key again
    and XOR-ing 0x90055555 gives the raw key back, so different raw keys
    never derive the same real key. *)
Theorem sprite_key_recoverable (data mem_mask : Z) st :
  m_sprite_predecrypted st = 0 -> 0 <= data < 2 ^ 32 ->
  let st' := sprite_encryption_w data mem_mask st in
  Z.lxor (BITSWAP32_reversed (m_realspritekey st')) 0x90055555 =
    m_spritekey st' /\
  forall data2 mem_mask2,
    0 <= data2 < 2 ^ 32 ->
    m_realspritekey (sprite_encryption_w data2 mem_mask2 st) =
      m_realspritekey st' ->
    m_spritekey (sprite_encryption_w data2 mem_mask2 st) = m_spritekey st'.
Proof.
  intros Hlive Hdata.
  assert (Hback : forall d m, 0 <= d < 2 ^ 32 ->
            Z.lxor (BITSWAP32_reversed
                      (m_realspritekey (sprite_encryption_w d m st)))
                   0x90055555 =
            m_spritekey (sprite_encryption_w d m st)).
  { intros d m Hd. unfold sprite_encryption_w. state_simpl.
    rewrite Hlive. cbn [Z.eqb]. state_simpl.
    pose proof (COMBINE_DATA_range (m_spritekey st) d m Hd) as Hkey.
    rewrite BITSWAP32_reversed_involutive.
    - rewrite Z.lxor_assoc, Z.lxor_nilpotent, Z.lxor_0_r. reflexivity.
    - split; [apply Z.lxor_nonneg; lia|].
      apply bits_above_bound; [lia|apply Z.lxor_nonneg; lia|].
      intros i Hi. rewrite Z.lxor_spec.
      rewrite (testbit_above_32 _ i Hkey) by lia.
      rewrite (testbit_above_32 0x90055555) by lia. reflexivity. }
  intros st'. split; [apply Hback, Hdata|].
  intros data2 mem_mask2 Hdata2 Hsame. subst st'.
  rewrite <- (Hback data2 mem_mask2 Hdata2), <- (Hback data mem_mask Hdata).
  rewrite Hsame. reflexivity.
Qed.

End Sprite_key_inverse.

Lemma BITSWAP16_bytes_reversed_range (w : Z) :
  0 <= BITSWAP16_bytes_reversed w < 65536.
Proof.
  unfold BITSWAP16_bytes_reversed.
  match goal with |- context [bitswap _ ?sel] =>
    apply (bitswap_bound w sel) end.
  repeat constructor; lia.
Qed.

Lemma BITSWAP16_bytes_reversed_testbit (w : Z) (n : nat) :
  (n < 16)%nat ->
  Z.testbit (BITSWAP16_bytes_reversed w) (Z.of_nat n) =
  Z.testbit w
    (Z.of_nat (nth n [7; 6; 5; 4; 3; 2; 1; 0; 15; 14; 13; 12; 11; 10; 9; 8] 0)%nat).
Proof.
  intros Hn. unfold BITSWAP16_bytes_reversed.
  rewrite bitswap_testbit by (repeat constructor; lia).
  rewrite Nat2Z.id.
  do 16 (destruct n as [|n]; [reflexivity|]). lia.
Qed.

Lemma BITSWAP16_bytes_reversed_involutive (w : Z) :
  0 <= w < 65536 ->
  BITSWAP16_bytes_reversed (BITSWAP16_bytes_reversed w) = w.
Proof.
  intros Hw. apply Z.bits_inj'. intros i Hi.
  destruct (Z.lt_ge_cases i 16) as [Hlt|Hge].
  - rewrite <- (Z2Nat.id i) by exact Hi.
    assert (Hn : (Z.to_nat i < 16)%nat) by lia.
    generalize dependent (Z.to_nat i). intros n Hn.
    rewrite BITSWAP16_bytes_reversed_testbit by exact Hn.
    do 16 (destruct n as [|n];
           [rewrite BITSWAP16_bytes_reversed_testbit by (simpl; lia);
            reflexivity|]).
    lia.
  - rewrite !testbit_above_16;
      auto using BITSWAP16_bytes_reversed_range.
Qed.

Lemma lxor_16 (a b : Z) :
  0 <= a < 65536 -> 0 <= b < 65536 -> 0 <= Z.lxor a b < 65536.
Proof.
  intros Ha Hb. split; [apply Z.lxor_nonneg; lia|].
  change 65536 with (2 ^ 16).
  apply bits_above_bound; [lia|apply Z.lxor_nonneg; lia|].
  intros i Hi. rewrite Z.lxor_spec, !testbit_above_16 by (assumption || lia).
  reflexivity.
Qed.

Lemma to_u16_range (x : Z) : 0 <= to_u16 x < 65536.
Proof.
  unfold to_u16. change 0xffff with (Z.ones 16).
  rewrite Z.land_ones by lia. apply Z.mod_pos_bound. reflexivity.
Qed.

(** The positional mask stays a 16-bit word when the table's keys are. *)
Lemma index_mask_range (table : list (Z * Z)) (i x : Z) :
  Forall (fun bk => 0 <= snd bk < 65536) table ->
  0 <= x < 65536 -> 0 <= index_mask table i x < 65536.
Proof.
  unfold index_mask. intros Htable. revert x.
  induction Htable as [|bk table Hbk _ IH]; intros x Hx; [exact Hx|].
  cbn [fold_left]. apply IH.
  destruct (Z.land (Z.shiftr i 1) (fst bk) =? 0); [exact Hx|].
  apply lxor_16; assumption.
Qed.

Lemma iga_tables_16 :
  Forall (fun bk => 0 <= snd bk < 65536) iga_u12_table /\
  Forall (fun bk => 0 <= snd bk < 65536) iga_u16_table.
Proof.
  split; repeat constructor; cbn; lia.
Qed.

(** The word a decoder leaves is a 16-bit word, and reversing the bits of
    its two bytes again and XOR-ing the same positional mask gives the
    cipher word back. *)
Lemma iga_word_back (table : list (Z * Z)) (ixor i w : Z) :
  Forall (fun bk => 0 <= snd bk < 65536) table ->
  0 <= w < 65536 ->
  0 <= iga_word table ixor i w < 65536 /\
  Z.lxor (BITSWAP16_bytes_reversed (iga_word table ixor i w))
    (index_mask table i (to_u16 ixor)) = w.
Proof.
  intros Htable Hw.
  assert (Hmask : 0 <= index_mask table i (to_u16 ixor) < 65536)
    by (apply index_mask_range; [exact Htable|apply to_u16_range]).
  split; [apply BITSWAP16_bytes_reversed_range|].
  unfold iga_word.
  rewrite BITSWAP16_bytes_reversed_involutive by (apply lxor_16; assumption).
  rewrite Z.lxor_assoc, Z.lxor_nilpotent. apply Z.lxor_0_r.
Qed.

(** The indices the two decoders visit: u12 the even ones below the bound,
    u16 the odd ones. *)
Lemma visited_even (stop : Z) (k : nat) :
  visited 0 2 (trip_count 0 stop 2) (Z.of_nat k) =
  Z.even (Z.of_nat k) && (Z.of_nat k <? stop).
Proof.
  rewrite visited_for_loop by lia. rewrite Z.sub_0_r, Zeven_mod.
  replace (0 <=? Z.of_nat k) with true by (symmetry; apply Z.leb_le; lia).
  reflexivity.
Qed.

Lemma visited_odd (stop : Z) (k : nat) :
  visited 1 2 (trip_count 1 stop 2) (Z.of_nat k) =
  Z.odd (Z.of_nat k) && (Z.of_nat k <? stop).
Proof.
  rewrite visited_for_loop by lia. f_equal.
  rewrite <- Z.negb_even, Zeven_mod.
  pose proof (Z.mod_pos_bound (Z.of_nat k) 2 ltac:(lia)) as Hb.
  destruct (Z.eqb_spec (Z.of_nat k mod 2) 0) as [Heven|Hodd]; cbn [negb].
  - apply andb_false_iff. right. apply Z.eqb_neq.
    replace (Z.of_nat k - 1) with (Z.of_nat k + (-1) * 2 + 1) by lia.
    rewrite <- Zplus_mod_idemp_l, Z.mod_add, Heven by lia. discriminate.
  - assert (Hone : Z.of_nat k mod 2 = 1) by lia.
    apply andb_true_intro. split.
    + apply Z.leb_le. destruct k; [discriminate Hone|lia].
    + apply Z.eqb_eq. rewrite Zminus_mod, Hone. reflexivity.
Qed.

(** A buffer of 16-bit words rewritten by a decoder at the visited indices
    is a buffer of 16-bit words, from which every word of the input is
    computed back. *)
Lemma map_visited_iga_back (table : list (Z * Z)) (ixor start : Z) (n : nat)
    (rom : list Z) :
  Forall (fun bk => 0 <= snd bk < 65536) table ->
  words16 rom ->
  words16 (map_visited (iga_word table ixor) start 2 n rom) /\
  forall k : nat,
    rom !! k =
    (fun w' => if visited start 2 n (Z.of_nat k)
               then Z.lxor (BITSWAP16_bytes_reversed w')
                      (index_mask table (Z.of_nat k) (to_u16 ixor))
               else w')
      <$> map_visited (iga_word table ixor) start 2 n rom !! k.
Proof.
  intros Htable Hwords. unfold words16 in *.
  rewrite Forall_lookup in Hwords. split.
  - apply Forall_lookup. intros k w' Hk.
    rewrite map_visited_lookup in Hk.
    destruct (rom !! k) as [w|] eqn:Hw; [|discriminate Hk].
    cbn in Hk. injection Hk as <-.
    destruct (visited start 2 n (Z.of_nat k)); [|exact (Hwords k w Hw)].
    apply (iga_word_back table ixor (Z.of_nat k) w Htable (Hwords k w Hw)).
  - intros k. rewrite map_visited_lookup.
    destruct (rom !! k) as [w|] eqn:Hw; [|reflexivity].
    cbn. f_equal.
    destruct (visited start 2 n (Z.of_nat k)); [|reflexivity].
    symmetry.
    apply (iga_word_back table ixor (Z.of_nat k) w Htable (Hwords k w Hw)).
Qed.

(** X12. The positional decoders lose nothing.  On a buffer of 16-bit
    words that holds [len / 2] words, [iga_u12_decode] and [iga_u16_decode]
    complete with a buffer of 16-bit words of the same length, from which
    the input is computed back: at the indices the decoder rewrote (even
    ones below [len / 2] for u12, odd ones for u16) by reversing the bits
    of the two bytes again and XOR-ing the positional mask of the index,
    elsewhere as it stands.  So no other buffer of 16-bit words of that
    length decodes to the same result. *)
Theorem iga_decoders_invertible (rom : list Z) (len ixor : Z) :
  words16 rom ->
  Z.quot len 2 <= Z.of_nat (length rom) ->
  exists rom12 rom16,
    iga_u12_decode rom len ixor = Done rom12 /\
    iga_u16_decode rom len ixor = Done rom16 /\
    words16 rom12 /\ words16 rom16 /\
    length rom12 = length rom /\ length rom16 = length rom /\
    (forall k : nat,
       rom !! k =
       (fun w' => if Z.even (Z.of_nat k) && (Z.of_nat k <? Z.quot len 2)
                  then Z.lxor (BITSWAP16_bytes_reversed w')
                         (index_mask iga_u12_table (Z.of_nat k) (to_u16 ixor))
                  else w') <$> rom12 !! k) /\
    (forall k : nat,
       rom !! k =
       (fun w' => if Z.odd (Z.of_nat k) && (Z.of_nat k <? Z.quot len 2)
                  then Z.lxor (BITSWAP16_bytes_reversed w')
                         (index_mask iga_u16_table (Z.of_nat k) (to_u16 ixor))
                  else w') <$> rom16 !! k) /\
    (forall other, words16 other -> length other = length rom ->
       iga_u12_decode other len ixor = Done rom12 -> other = rom) /\
    (forall other, words16 other -> length other = length rom ->
       iga_u16_decode other len ixor = Done rom16 -> other = rom).
Proof.
  intros Hwords Hlen.
  destruct iga_tables_16 as [H12 H16].
  destruct (map_visited_iga_back iga_u12_table ixor 0
              (trip_count 0 (Z.quot len 2) 2) rom H12 Hwords)
    as [Hw12 Hback12].
  destruct (map_visited_iga_back iga_u16_table ixor 1
              (trip_count 1 (Z.quot len 2) 2) rom H16 Hwords)
    as [Hw16 Hback16].
  eexists. eexists.
  split; [apply iga_u12_decode_run, Hlen|].
  split; [apply iga_u16_decode_run, Hlen|].
  split; [exact Hw12|]. split; [exact Hw16|].
  split; [apply map_visited_length|]. split; [apply map_visited_length|].
  split; [intros k; rewrite <- visited_even; apply Hback12|].
  split; [intros k; rewrite <- visited_odd; apply Hback16|].
  split.
  - intros other Hother Hlength Hrun.
    rewrite iga_u12_decode_run in Hrun by (rewrite Hlength; exact Hlen).
    injection Hrun as Hrun.
    destruct (map_visited_iga_back iga_u12_table ixor 0
                (trip_count 0 (Z.quot len 2) 2) other H12 Hother)
      as [_ Hback].
    apply list_eq. intros k. rewrite (Hback k), (Hback12 k), Hrun.
    reflexivity.
  - intros other Hother Hlength Hrun.
    rewrite iga_u16_decode_run in Hrun by (rewrite Hlength; exact Hlen).
    injection Hrun as Hrun.
    destruct (map_visited_iga_back iga_u16_table ixor 1
                (trip_count 1 (Z.quot len 2) 2) other H16 Hother)
      as [_ Hback].
    apply list_eq. intros k. rewrite (Hback k), (Hback16 k), Hrun.
    reflexivity.
Qed.

(** X13. The two positional decoders can run in either order: u12 rewrites
    the even word indices and u16 the odd ones, so over the same [len]
    both orders complete with the same buffer. *)
Theorem iga_decoders_commute (rom : list Z) (len key12 key16 : Z) :
  Z.quot len 2 <= Z.of_nat (length rom) ->
  exists decoded,
    (m ← iga_u12_decode rom len key12; iga_u16_decode m len key16) =
      Done decoded /\
    (m ← iga_u16_decode rom len key16; iga_u12_decode m len key12) =
      Done decoded /\
    length decoded = length rom.
Proof.
  intros Hlen.
  rewrite (iga_u12_decode_run rom) by exact Hlen.
  rewrite (iga_u16_decode_run rom) by exact Hlen.
  cbn [mbind outcome_bind].
  rewrite iga_u16_decode_run by (rewrite map_visited_length; exact Hlen).
  rewrite iga_u12_decode_run by (rewrite map_visited_length; exact Hlen).
  eexists. split; [reflexivity|]. split.
  - f_equal. apply list_eq. intros k.
    rewrite !map_visited_lookup, !visited_for_loop by lia.
    destruct (rom !! k) as [w|]; [|reflexivity].
    cbn [fmap option_fmap option_map]. f_equal.
    rewrite Z.sub_0_r.
    destruct (Z.eqb_spec (Z.of_nat k mod 2) 0) as [Heven|Hodd].
    + assert (Hk1 : ((Z.of_nat k - 1) mod 2 =? 0) = false).
      { apply Z.eqb_neq.
        replace (Z.of_nat k - 1) with (Z.of_nat k + (-1) * 2 + 1) by lia.
        rewrite <- Zplus_mod_idemp_l, Z.mod_add, Heven by lia. discriminate. }
      rewrite Hk1, !andb_false_r, !andb_false_l. reflexivity.
    + rewrite !andb_false_r, !andb_false_l. reflexivity.
  - rewrite !map_visited_length. reflexivity.
Qed.

(** ** Init, trigger and reset together *)

Lemma set_user1_same {card : Type} (st : @pgm2_state card) :
  set_user1 (user1 st) st = st.
Proof. destruct st. reflexivity. Qed.

Section Init_and_reset.

Context {card : Type}.
Variable card_read : card -> Z -> Z.
Variable card_write : card -> Z -> Z -> card.
Variable decrypter_rom : list Z -> list Z -> list Z.

Abbreviation state := (@pgm2_state card).
Abbreviation mcu_command' := (mcu_command card_read card_write).
Abbreviation trigger := (encryption_do_w decrypter_rom).
Implicit Types st : state.

(** X14. The module layer is its own inverse: when the address XOR stays
    inside the program ROM, applying [decrypt_kov3_module] twice with the
    same masks gives the machine back as it was. *)
Theorem decrypt_kov3_module_involution (addrxor dataxor : Z) st :
  (forall i, 0 <= i < Z.of_nat (length (user1 st)) ->
     0 <= Z.lxor i addrxor < Z.of_nat (length (user1 st))) ->
  exists st1,
    decrypt_kov3_module addrxor dataxor st = Done st1 /\
    length (user1 st1) = length (user1 st) /\
    decrypt_kov3_module addrxor dataxor st1 = Done st.
Proof.
  intros Hperm.
  destruct (decrypt_kov3_module_run addrxor dataxor st Hperm)
    as (buffer & Hrun & Hlen & Hword).
  exists (set_user1 buffer st). split; [exact Hrun|].
  split; [exact Hlen|].
  destruct (decrypt_kov3_module_run addrxor dataxor (set_user1 buffer st))
    as (buffer2 & Hrun2 & Hlen2 & Hword2).
  { state_simpl. rewrite Hlen. exact Hperm. }
  rewrite Hrun2. f_equal. state_simpl.
  replace buffer2 with (user1 st);
    [change (set_user1 (user1 st) (set_user1 buffer st))
       with (set_user1 (user1 st) st); apply set_user1_same|].
  apply list_eq. intros k.
  destruct (Nat.lt_ge_cases k (length (user1 st))) as [Hk|Hk].
  - specialize (Hword2 (Z.of_nat k)). rewrite Hlen, Nat2Z.id in Hword2.
    rewrite Hword2 by lia.
    pose proof (Hperm (Z.of_nat k) ltac:(lia)) as Hin.
    rewrite (nth_lookup_Some buffer _ 0 _ (Hword _ Hin)).
    rewrite (Z.lxor_assoc (Z.of_nat k)), Z.lxor_nilpotent, Z.lxor_0_r.
    rewrite Nat2Z.id.
    rewrite Z.lxor_assoc, Z.lxor_nilpotent, Z.lxor_0_r.
    destruct (nth_lookup_or_length (user1 st) k 0) as [Hl|Hl]; [exact Hl|lia].
  - rewrite !lookup_ge_None_2; [reflexivity|lia|lia].
Qed.

(** X15. After the init of a title with runtime keys, whatever the flags
    were before: the first decrypt trigger decrypts the program ROM, which
    the init left untouched, with the encryption table; a second trigger
    changes nothing; and a write to the sprite key register derives the
    real key (live re-keying is on). *)
Theorem common_init_then_trigger (data mem_mask : Z) st :
  exists st',
    common_encryption_init st = Done st' /\
    user1 st' = user1 st /\
    m_encryption_table st' = m_encryption_table st /\
    trigger data mem_mask st' =
      set_m_has_decrypted 1
        (set_user1 (decrypter_rom (m_encryption_table st) (user1 st)) st') /\
    trigger data mem_mask (trigger data mem_mask st') =
      trigger data mem_mask st' /\
    forall key key_mask,
      reverses32
        (Z.lxor (m_spritekey (sprite_encryption_w key key_mask st')) 0x90055555)
        (m_realspritekey (sprite_encryption_w key key_mask st')).
Proof.
  destruct (common_encryption_init_run st)
    as (mask & colour & Hrun & _).
  eexists. split; [exact Hrun|]. state_simpl.
  split; [reflexivity|]. split; [reflexivity|]. split; [reflexivity|].
  split; [reflexivity|].
  intros key key_mask. unfold sprite_encryption_w. state_simpl.
  apply BITSWAP32_reversed_spec.
Qed.

(** X16. A machine reset clears the two sprite keys, lastCommand and the
    bank selector and nothing else.  So after a reset: an acknowledge finds
    nothing pending; the main processor's window shows the lower half of
    the shared RAM; a decrypt trigger does not decrypt the program ROM a
    second time; but the real key 0 is not the key derived from raw key 0,
    which the next write of 0 to the key register puts there
    (0xAAAAA009). *)
Theorem machine_reset_effects st :
  mailbox_ok st -> shareram_ok st ->
  let st' := machine_reset st in
  st' = set_m_share_bank 0
          (set_m_mcu_last_cmd 0
             (set_m_realspritekey 0 (set_m_spritekey 0 st))) /\
  machine_reset st' = st' /\
  mcu_command' false st' = Done st' /\
  (forall o, 0 <= o < 128 ->
     shareram_r o st' = Done (nth (Z.to_nat o) (m_shareram st) 0)) /\
  (m_has_decrypted st <> 0 -> forall data mem_mask,
     trigger data mem_mask st' = st') /\
  (m_sprite_predecrypted st = 0 ->
   m_realspritekey st' = 0 /\
   m_realspritekey (sprite_encryption_w 0 0xffffffff st') = 0xAAAAA009).
Proof.
  intros Hok Hram st'. subst st'. unfold machine_reset.
  split; [reflexivity|]. split; [reflexivity|].
  split; [apply mcu_command_ack_idle; [exact Hok|reflexivity]|].
  split; [|split].
  - intros o Ho. unfold shareram_r, cpu_share_index. state_simpl.
    change (Z.land 0 1) with 0. rewrite Z.add_0_r.
    rewrite aget_ok by (unfold shareram_ok in Hram; lia). reflexivity.
  - intros Hflag data mem_mask. apply encryption_do_w_later. exact Hflag.
  - intros Hlive. split; [reflexivity|].
    unfold sprite_encryption_w. state_simpl. rewrite Hlive. reflexivity.
Qed.

End Init_and_reset.

(** ** The speed-up read handlers *)

(** X17. The two speed-up handlers are invisible in the value read: for
    every program counter they return the RAM word at their address
    (0x20114 for orleg2, 0x20470 for kov2nl), and they ask the CPU to spin
    only when the word returned is 0. *)
Theorem speedup_reads_through (pc : Z) (m_mainram : list Z) :
  0x20000 <= Z.of_nat (length m_mainram) ->
  (exists spin,
     orleg2_speedup_r pc m_mainram =
       Done (nth (Z.to_nat (0x20114 / 4)) m_mainram 0, spin) /\
     (spin = true -> nth (Z.to_nat (0x20114 / 4)) m_mainram 0 = 0)) /\
  (exists spin,
     kov2nl_speedup_r pc m_mainram =
       Done (nth (Z.to_nat (0x20470 / 4)) m_mainram 0, spin) /\
     (spin = true -> nth (Z.to_nat (0x20470 / 4)) m_mainram 0 = 0)).
Proof.
  intros Hlen. split.
  - unfold orleg2_speedup_r.
    change (0x20114 / 4) with 32837. change (0x20118 / 4) with 32838.
    rewrite !aget_ok by lia.
    destruct ((pc =? 0x1002faec) || (pc =? 0x1002f9b8));
      cbn [mbind outcome_bind mret outcome_ret].
    + destruct (Z.eqb_spec (nth (Z.to_nat 32837) m_mainram 0) 0) as [Hz|Hnz];
        cbn [mbind outcome_bind mret outcome_ret].
      * eexists. split; [reflexivity|]. intros _. exact Hz.
      * eexists. split; [reflexivity|]. discriminate.
    + eexists. split; [reflexivity|]. discriminate.
  - unfold kov2nl_speedup_r.
    change (0x20470 / 4) with 33052. change (0x20474 / 4) with 33053.
    rewrite !aget_ok by lia.
    destruct ((pc =? 0x10053a94) || (pc =? 0x1005332c) || (pc =? 0x1005327c));
      cbn [mbind outcome_bind mret outcome_ret].
    + destruct (Z.eqb_spec (nth (Z.to_nat 33052) m_mainram 0) 0) as [Hz|Hnz];
        cbn [mbind outcome_bind mret outcome_ret].
      * eexists. split; [reflexivity|]. intros _. exact Hz.
      * eexists. split; [reflexivity|]. discriminate.
    + eexists. split; [reflexivity|]. discriminate.
Qed.

(** ** The positional key *)

Lemma land_low_add (y m : Z) :
  Z.land (Z.ones 11) m = m -> Z.land (y + 2048) m = Z.land y m.
Proof.
  intros Hm. rewrite <- Hm, !Z.land_assoc, !Z.land_ones by lia.
  change (2 ^ 11) with 2048.
  replace (y + 2048) with (y + 1 * 2048) by lia.
  rewrite Z.mod_add by lia. reflexivity.
Qed.

Lemma index_mask_ext (table : list (Z * Z)) (i j x : Z) :
  Forall (fun bk => Z.land (Z.shiftr i 1) (fst bk) =
                    Z.land (Z.shiftr j 1) (fst bk)) table ->
  index_mask table i x = index_mask table j x.
Proof.
  unfold index_mask. intros Htable. revert x.
  induction Htable as [|bk table Hbk _ IH]; intros x; [reflexivity|].
  cbn [fold_left]. rewrite Hbk. apply IH.
Qed.

(** X18. The positional key of both decoders depends on bits 1 to 11 of
    the word index only: it repeats every 4096 words, and the two words of
    a pair (indices 2j and 2j+1) get the same index bits. *)
Theorem index_mask_period (i x : Z) :
  index_mask iga_u12_table (i + 4096) x = index_mask iga_u12_table i x /\
  index_mask iga_u16_table (i + 4096) x = index_mask iga_u16_table i x /\
  index_mask iga_u12_table (2 * i + 1) x = index_mask iga_u12_table (2 * i) x /\
  index_mask iga_u16_table (2 * i + 1) x = index_mask iga_u16_table (2 * i) x.
Proof.
  assert (Hshift : Z.shiftr (i + 4096) 1 = Z.shiftr i 1 + 2048).
  { rewrite !Z.shiftr_div_pow2 by lia. change (2 ^ 1) with 2.
    replace (i + 4096) with (i + 2048 * 2) by lia.
    apply Z.div_add. lia. }
  assert (Hpair : Z.shiftr (2 * i + 1) 1 = Z.shiftr (2 * i) 1).
  { rewrite !Z.shiftr_div_pow2 by lia. change (2 ^ 1) with 2.
    rewrite (Z.mul_comm 2 i), Z.div_add_l, Z.div_mul by lia.
    change (1 / 2) with 0. lia. }
  repeat split; apply index_mask_ext; unfold iga_u12_table, iga_u16_table;
    repeat constructor; cbn [fst];
    rewrite ?Hshift, ?Hpair; try reflexivity;
    apply land_low_add; reflexivity.
Qed.

(** ** Sequences of register writes *)

Section Sequences.

Context {card : Type}.
Variable card_read : card -> Z -> Z.
Variable card_write : card -> Z -> Z -> card.
Variable decrypter_rom : list Z -> list Z -> list Z.

Abbreviation state := (@pgm2_state card).
Abbreviation mcu_command' := (mcu_command card_read card_write).
Abbreviation trigger := (encryption_do_w decrypter_rom).
Implicit Types st : state.

(** X19. Fetching a result: after an issue that completed, an issue of
    0xF6 delivers result1 in mailbox register 4 and result0 in register 3
    under the status byte 0xF7.  For the card commands and 0xE1 register 3
    then reads 0x00F700cc with cc the command byte; for the port test 0xE0
    it is the echoed command word with bits 16-23 replaced by 0xF7, next to
    the auxiliary word in register 4. *)
Theorem mcu_fetch_result st st' (word : Z) :
  mailbox_ok st -> shareram_ok st ->
  mcu_command' true st = Done st' ->
  to_u8 word = 0xf6 ->
  exists st'',
    mcu_command' true
      (set_m_mcu_regs (<[0%nat := word]> (m_mcu_regs st')) st') = Done st'' /\
    mcu_reg st'' 3 = with_status (m_mcu_result0 st') 0xf7 /\
    mcu_reg st'' 4 = m_mcu_result1 st' /\
    (mcu_cmd st ∈ known_commands -> mcu_cmd st <> 0xf6 ->
     mcu_cmd st <> 0xe0 -> mcu_reg st'' 3 = 0xf70000 + mcu_cmd st) /\
    (mcu_cmd st = 0xe0 ->
     mcu_reg st'' 3 = with_status (mcu_reg st 0) 0xf7 /\
     mcu_reg st'' 4 = mcu_reg st 1).
Proof.
  intros Hok Hram Hrun Hword.
  set (st2 := set_m_mcu_regs (<[0%nat := word]> (m_mcu_regs st')) st').
  assert (Hfacts : mailbox_ok st' /\
            (mcu_cmd st ∈ known_commands -> mcu_cmd st <> 0xf6 ->
             mcu_cmd st <> 0xe0 -> m_mcu_result0 st' = mcu_cmd st)).
  { destruct (mcu_command_effects card_read card_write st Hok Hram)
      as [(_ & _ & _ & _ & Hover)|(st1 & Heff & Hdone)];
      [rewrite Hover in Hrun; discriminate Hrun|].
    rewrite Hdone in Hrun. injection Hrun as <-.
    pose proof (issue_effects_mailbox st st1 Hok Heff) as Hok1.
    destruct Heff as (_ & _ & _ & _ & _ & _ & _ & _ & _ & _ & Hres).
    unfold mailbox_ok in *. state_simpl. rewrite length_insert.
    split; assumption. }
  destruct Hfacts as [Hok' Hres].
  assert (He0f : mcu_cmd st = 0xe0 ->
            m_mcu_result0 st' = mcu_reg st 0 /\
            m_mcu_result1 st' = mcu_reg st 1).
  { intros He0.
    rewrite (mcu_command_e0 card_read card_write st Hok He0) in Hrun.
    injection Hrun as <-. split; reflexivity. }
  assert (Hok2 : mailbox_ok st2) by (apply mailbox_ok_strobe; exact Hok').
  assert (Hcmd2 : to_u8 (mcu_reg st2 0) = 0xf6).
  { unfold mcu_reg. subst st2. state_simpl.
    rewrite nth_insert_eq by (unfold mailbox_ok in Hok'; lia). exact Hword. }
  rewrite (mcu_command_f6 card_read card_write st2 Hok2 Hcmd2).
  eexists. split; [reflexivity|].
  assert (Hr3 : forall x y z v (l : list Z), length l = 8%nat ->
            nth 3 (<[3%nat := v]> (<[4%nat := x]> (<[3%nat := y]>
                     (<[0%nat := z]> l)))) 0 = v)
    by (intros; apply nth_insert_eq; rewrite !length_insert; lia).
  assert (Hr4 : forall x y z v (l : list Z), length l = 8%nat ->
            nth 4 (<[3%nat := v]> (<[4%nat := x]> (<[3%nat := y]>
                     (<[0%nat := z]> l)))) 0 = x).
  { intros. rewrite nth_insert_ne by lia. apply nth_insert_eq.
    rewrite !length_insert. lia. }
  unfold mcu_reg in *. subst st2. state_simpl.
  rewrite !Hr3, !Hr4 by exact Hok'.
  split; [reflexivity|]. split; [reflexivity|]. split.
  - intros Hknown Hf6 He0. rewrite (Hres Hknown Hf6 He0).
    unfold known_commands in Hknown.
    repeat (apply elem_of_cons in Hknown; destruct Hknown as [->|Hknown]);
      [reflexivity ..|apply elem_of_nil in Hknown; contradiction].
  - intros He0. destruct (He0f He0) as [-> ->]. split; reflexivity.
Qed.

(** X20. The decrypt trigger uses the encryption table as uploaded so far:
    after a byte is written to the table, a first trigger decrypts the
    program ROM with the table including that byte.  Once the ROM is
    decrypted, later table writes and triggers leave it as it is. *)
Theorem table_upload_then_trigger (offset data d m : Z) st :
  length (m_encryption_table st) = 256%nat -> 0 <= offset < 256 ->
  exists st1,
    encryption_w offset data st = Done st1 /\
    (m_has_decrypted st = 0 ->
     user1 (trigger d m st1) =
     decrypter_rom (<[Z.to_nat offset := data]> (m_encryption_table st))
       (user1 st)) /\
    (m_has_decrypted st <> 0 -> user1 (trigger d m st1) = user1 st) /\
    exists st2,
      encryption_w offset data (trigger d m st) = Done st2 /\
      user1 (trigger d m st2) = user1 (trigger d m st).
Proof.
  intros Hlen Hoff. unfold encryption_w.
  rewrite aset_ok by lia. cbn [mbind outcome_bind mret outcome_ret].
  eexists. split; [reflexivity|]. split; [|split].
  - intros Hflag. rewrite encryption_do_w_first by exact Hflag. reflexivity.
  - intros Hflag. rewrite encryption_do_w_later by exact Hflag. reflexivity.
  - assert (Hlen' : length (m_encryption_table (trigger d m st)) = 256%nat).
    { unfold encryption_do_w. destruct (m_has_decrypted st =? 0); exact Hlen. }
    rewrite aset_ok by lia. cbn [mbind outcome_bind mret outcome_ret].
    eexists. split; [reflexivity|].
    rewrite encryption_do_w_later; [reflexivity|].
    state_simpl. apply encryption_do_w_sets_flag.
Qed.

End Sequences.

(** ** Instances on the small machine *)

Lemma encryption_table_write_read_witness :
  (exists st',
     encryption_w 7 0x5a power_on = Done st' /\
     encryption_r 7 st' = Done 0x5a /\
     encryption_r 8 st' = Done 3) /\
  encryption_w 256 0x5a power_on = OutOfRange 256.
Proof.
  destruct (encryption_table_write_read 7 0x5a power_on eq_refl)
    as (Hin & _).
  destruct (encryption_table_write_read 256 0x5a power_on eq_refl)
    as (_ & Hout).
  split.
  - destruct Hin as (st' & Hw & Hr & Hother & _); [lia|].
    exists st'. split; [exact Hw|]. split; [exact Hr|].
    rewrite (Hother 8) by lia. reflexivity.
  - apply Hout. lia.
Defined.

Lemma shareram_write_read_banked_witness :
  exists st1,
    shareram_w 5 0xaa power_on = Done st1 /\
    shareram_r 5 st1 = Done 0xaa /\
    shareram_r 5 (share_bank_w 2 0xffff st1) = Done 0xaa /\
    shareram_r 5 (share_bank_w 1 0xffff st1) = Done 0.
Proof.
  destruct (shareram_write_read_banked 5 0xaa power_on)
    as (st1 & Hw & Hr & _ & Hkeep & Hflip).
  - reflexivity.
  - lia.
  - assert (Hst : Done st1 = shareram_w 5 0xaa power_on)
      by (symmetry; exact Hw).
    vm_compute in Hst. injection Hst as ->.
    eexists. split; [exact Hw|]. split; [exact Hr|]. split.
    + apply Hkeep. vm_compute. reflexivity.
    + rewrite (Hflip 1 0xffff 5);
        [vm_compute; reflexivity|lia|vm_compute; discriminate].
Defined.

Lemma mcu_window_write_read_witness :
  mcu_w byte_card_read byte_card_write (Z.shiftl 1 15) 0x1234 0xffffffff
    power_on =
    Done (set_m_mcu_regs [0; 0x1234; 0; 0; 0; 0; 0; 0] power_on) /\
  mcu_w byte_card_read byte_card_write issue_offset 0 0xffffffff
    (mailbox_with 0xff 0) = Done (mailbox_with 0xff 0).
Proof.
  destruct (mcu_window_write_read byte_card_read byte_card_write
              (Z.shiftl 1 15) 0x1234 0xffffffff power_on eq_refl)
    as (_ & Hplain).
  destruct (mcu_window_write_read byte_card_read byte_card_write
              issue_offset 0 0xffffffff (mailbox_with 0xff 0) eq_refl)
    as (_ & Hzero).
  split.
  - apply Hplain. left. split; discriminate.
  - apply Hzero. right. reflexivity.
Defined.

Lemma mcu_issue_completes_or_overruns_witness :
  mcu_command byte_card_read byte_card_write true
    (card_in_slot0 0 0x810000c3) = OutOfRange 256 /\
  exists st',
    mcu_command byte_card_read byte_card_write true
      (card_in_slot0 1 0x810000c3) = Done st'.
Proof.
  destruct (mcu_issue_completes_or_overruns byte_card_read byte_card_write
              (card_in_slot0 0 0x810000c3) eq_refl eq_refl)
    as (Hover & _).
  destruct (mcu_issue_completes_or_overruns byte_card_read byte_card_write
              (card_in_slot0 1 0x810000c3) eq_refl eq_refl)
    as (_ & Hdone & _).
  split.
  - apply Hover. split; [right; reflexivity|].
    split; [eexists; reflexivity|]. split; reflexivity.
  - apply Hdone. intros (_ & _ & _ & Hbank). discriminate Hbank.
Defined.

Lemma mcu_issue_answer_witness :
  exists st',
    mcu_command byte_card_read byte_card_write true (mailbox_with 0xc0 0)
      = Done st' /\
    mcu_status st' = 0xf4 /\
    m_mcu_timer st' = Some (from_msec 1) /\
    m_mcu_last_cmd st' = 0xc0.
Proof.
  eexists. split; [vm_compute; reflexivity|].
  match goal with
  | |- mcu_status ?s = _ /\ _ =>
      destruct (mcu_issue_answer byte_card_read byte_card_write
                  (mailbox_with 0xc0 0) s eq_refl eq_refl)
        as (Hstatus & _ & _ & Htimer & Hlast & _)
  end.
  - vm_compute. reflexivity.
  - split; [rewrite Hstatus; reflexivity|]. split; [exact Htimer|exact Hlast].
Defined.

Lemma mcu_command_frame_witness :
  exists st',
    mcu_command byte_card_read byte_card_write true
      (card_in_slot0 0 0x030000c2) = Done st' /\
    same_outside_mcu (card_in_slot0 0 0x030000c2) st'.
Proof.
  eexists. split; [vm_compute; reflexivity|].
  apply (mcu_command_frame byte_card_read byte_card_write true);
    [reflexivity|reflexivity|vm_compute; reflexivity].
Defined.

Lemma mcu_issue_memory_frame_witness :
  exists st',
    mcu_command byte_card_read byte_card_write true
      (card_in_slot0 0 0x030000c7) = Done st' /\
    m_shareram st' = m_shareram (card_in_slot0 0 0x030000c7) /\
    memcards st' = memcards (card_in_slot0 0 0x030000c7).
Proof.
  eexists. split; [vm_compute; reflexivity|].
  match goal with
  | |- m_shareram ?s = _ /\ _ =>
      destruct (mcu_issue_memory_frame byte_card_read byte_card_write
                  (card_in_slot0 0 0x030000c7) s eq_refl eq_refl)
        as (Hram & Hcards & _)
  end.
  - vm_compute. reflexivity.
  - split; [apply Hram|apply Hcards]; try discriminate.
    intros [Hcmd _]. discriminate Hcmd.
Defined.

Lemma mcu_empty_slot_skipped_witness :
  exists st',
    mcu_command byte_card_read byte_card_write true (mailbox_with 0xff0000c2 0)
      = Done st' /\
    m_shareram st' = m_shareram (mailbox_with 0xff0000c2 0) /\
    mcu_status st' = 0xf7.
Proof.
  destruct (mcu_empty_slot_skipped byte_card_read byte_card_write
              (mailbox_with 0xff0000c2 0))
    as (st' & Hrun & Hram & _ & Hstatus & _).
  - reflexivity.
  - reflexivity.
  - apply elem_of_cons. left. reflexivity.
  - reflexivity.
  - exists st'. repeat split; assumption.
Defined.

Lemma mcu_issue_then_acknowledge_witness :
  exists st' st'',
    mcu_command byte_card_read byte_card_write true (mailbox_with 0xc1 0)
      = Done st' /\
    mcu_command byte_card_read byte_card_write false st' = Done st'' /\
    mcu_status st'' = 0xf2 /\
    mcu_command byte_card_read byte_card_write false st'' = Done st''.
Proof.
  eexists.
  match goal with
  | |- exists st'', ?run = Done ?s /\ _ =>
      assert (Hrun : run = Done s) by (vm_compute; reflexivity);
      destruct (mcu_issue_then_acknowledge byte_card_read byte_card_write
                  (mailbox_with 0xc1 0) s eq_refl eq_refl Hrun)
        as (Hack & _)
  end.
  destruct Hack as (st'' & Hrun2 & Hstatus & _ & _ & _ & _ & _ & _ & Hagain);
    [discriminate|discriminate|].
  exists st''. repeat split; assumption.
Defined.

Lemma mcu_card_byte_and_presence_witness :
  (exists st',
     mcu_command byte_card_read byte_card_write true
       (card_in_slot0 0 0x550200c8) = Done st' /\
     m_memcard0 st' = Some (<[2%nat := 0x55]> (replicate 256 7))) /\
  exists st',
    mcu_command byte_card_read byte_card_write true
      (card_in_slot0 0 0x000000c0) = Done st' /\
    mcu_status st' = 0xf7.
Proof.
  destruct (mcu_card_byte_and_presence byte_card_read byte_card_write
              (card_in_slot0 0 0x550200c8) eq_refl eq_refl)
    as (Hwrite & _).
  destruct (mcu_card_byte_and_presence byte_card_read byte_card_write
              (card_in_slot0 0 0x000000c0) eq_refl eq_refl)
    as (_ & Hpresent).
  split.
  - destruct (Hwrite eq_refl (replicate 256 7) eq_refl)
      as (st' & Hrun & Hcard & _).
    exists st'. split; [exact Hrun|]. exact Hcard.
  - destruct (Hpresent eq_refl) as (st' & Hrun & _ & _ & _ & Hstatus).
    exists st'. split; [exact Hrun|exact Hstatus].
Defined.

Lemma sprite_key_recoverable_witness :
  Z.lxor
    (BITSWAP32_reversed
       (m_realspritekey (sprite_encryption_w 0x12345678 0xffffffff power_on)))
    0x90055555 = 0x12345678.
Proof.
  destruct (sprite_key_recoverable 0x12345678 0xffffffff power_on)
    as (Hback & _).
  - reflexivity.
  - lia.
  - rewrite Hback. reflexivity.
Defined.

Lemma iga_decoders_invertible_witness :
  exists rom12 rom16,
    iga_u12_decode [1; 2; 3; 4; 5; 6] 12 0x1e96 = Done rom12 /\
    iga_u16_decode [1; 2; 3; 4; 5; 6] 12 0x1e96 = Done rom16 /\
    rom12 !! 2%nat = Some 0x7189 /\
    Z.lxor (BITSWAP16_bytes_reversed 0x7189)
      (index_mask iga_u12_table 2 (to_u16 0x1e96)) = 3 /\
    (forall other, words16 other -> length other = 6%nat ->
       iga_u12_decode other 12 0x1e96 = Done rom12 ->
       other = [1; 2; 3; 4; 5; 6]) /\
    (forall other, words16 other -> length other = 6%nat ->
       iga_u16_decode other 12 0x1e96 = Done rom16 ->
       other = [1; 2; 3; 4; 5; 6]).
Proof.
  destruct (iga_decoders_invertible [1; 2; 3; 4; 5; 6] 12 0x1e96)
    as (rom12 & rom16 & Hrun12 & Hrun16 & _ & _ & _ & _ & _ & _ &
        Hinj12 & Hinj16).
  - repeat constructor; lia.
  - vm_compute. discriminate.
  - exists rom12, rom16.
    split; [exact Hrun12|]. split; [exact Hrun16|].
    split.
    { assert (Hst : Done rom12 = iga_u12_decode [1; 2; 3; 4; 5; 6] 12 0x1e96)
        by (symmetry; exact Hrun12).
      vm_compute in Hst. injection Hst as ->. reflexivity. }
    split; [reflexivity|].
    split; [exact Hinj12|exact Hinj16].
Defined.

Lemma iga_decoders_commute_witness :
  exists decoded,
    (m ← iga_u12_decode [1; 2; 3; 4; 5; 6] 12 0x1e96;
     iga_u16_decode m 12 0x869c) = Done decoded /\
    (m ← iga_u16_decode [1; 2; 3; 4; 5; 6] 12 0x869c;
     iga_u12_decode m 12 0x1e96) = Done decoded.
Proof.
  destruct (iga_decoders_commute [1; 2; 3; 4; 5; 6] 12 0x1e96 0x869c)
    as (decoded & H1 & H2 & _).
  - vm_compute. discriminate.
  - exists decoded. split; assumption.
Defined.

Lemma decrypt_kov3_module_involution_witness :
  exists st1,
    decrypt_kov3_module 1 0xff power_on = Done st1 /\
    decrypt_kov3_module 1 0xff st1 = Done power_on.
Proof.
  destruct (decrypt_kov3_module_involution 1 0xff power_on)
    as (st1 & Hrun & _ & Hback).
  - intros i Hi. change (Z.of_nat (length (user1 power_on))) with 4 in *.
    assert (Hcases : i = 0 \/ i = 1 \/ i = 2 \/ i = 3) by lia.
    destruct Hcases as [-> | [-> | [-> | ->]]]; vm_compute; split; congruence.
  - exists st1. split; assumption.
Defined.

Lemma machine_reset_effects_witness :
  mcu_command byte_card_read byte_card_write false
    (machine_reset (set_m_mcu_last_cmd 0xc1 (mailbox_with 0xc1 0))) =
    Done (machine_reset (set_m_mcu_last_cmd 0xc1 (mailbox_with 0xc1 0))) /\
  m_realspritekey
    (sprite_encryption_w 0 0xffffffff
       (machine_reset (set_m_mcu_last_cmd 0xc1 (mailbox_with 0xc1 0)))) =
    0xAAAAA009.
Proof.
  destruct (machine_reset_effects byte_card_read byte_card_write
              toy_decrypter_rom
              (set_m_mcu_last_cmd 0xc1 (mailbox_with 0xc1 0))
              eq_refl eq_refl)
    as (_ & _ & Hack & _ & _ & Hkey).
  split; [exact Hack|]. apply Hkey. reflexivity.
Defined.

Lemma speedup_reads_through_witness :
  exists spin,
    orleg2_speedup_r 0x1002faec (replicate (Z.to_nat 0x20000) 0) =
      Done (nth (Z.to_nat (0x20114 / 4)) (replicate (Z.to_nat 0x20000) 0) 0,
            spin).
Proof.
  destruct (speedup_reads_through 0x1002faec (replicate (Z.to_nat 0x20000) 0))
    as ((spin & Hrun & _) & _).
  - rewrite length_replicate. lia.
  - exists spin. exact Hrun.
Defined.

Lemma mcu_fetch_result_witness :
  exists st' st'',
    mcu_command byte_card_read byte_card_write true (mailbox_with 0xc7 0)
      = Done st' /\
    mcu_command byte_card_read byte_card_write true
      (set_m_mcu_regs (<[0%nat := 0xf6]> (m_mcu_regs st')) st') = Done st'' /\
    mcu_reg st'' 3 = 0x00f700c7 /\
    mcu_reg st'' 4 = 0xf81f0000.
Proof.
  eexists.
  match goal with
  | |- exists st'', ?run = Done ?s /\ _ =>
      assert (Hrun : run = Done s) by (vm_compute; reflexivity);
      destruct (mcu_fetch_result byte_card_read byte_card_write
                  (mailbox_with 0xc7 0) s 0xf6 eq_refl eq_refl Hrun eq_refl)
        as (st'' & Hrun2 & _ & Hr4 & Hr3 & _)
  end.
  exists st''. split; [exact Hrun|]. split; [exact Hrun2|]. split.
  - rewrite Hr3; [reflexivity| |discriminate|discriminate].
    unfold known_commands. rewrite !elem_of_cons.
    do 7 right. left. reflexivity.
  - rewrite Hr4. reflexivity.
Defined.

Lemma table_upload_then_trigger_witness :
  exists st1,
    encryption_w 0 9 power_on = Done st1 /\
    user1 (encryption_do_w toy_decrypter_rom 0 0 st1) =
      [0x111a; 0x222b; 0x333c; 0x444d].
Proof.
  destruct (table_upload_then_trigger toy_decrypter_rom 0 9 0 0 power_on)
    as (st1 & Hw & Hfirst & _).
  - reflexivity.
  - lia.
  - exists st1. split; [exact Hw|]. rewrite Hfirst; reflexivity.
Defined.
